(** * The legacy dialog panel of storm-engine

    A shallow embedding of [src/libs/dialog/src/legacy_dialog.cpp]: the
    panel mesh (sprite template, vertex and index buffers), the
    invalidation policy of the mesh, the link selector driven by the
    dialog controls, and the unfade ramp.

    Machine numbers are modelled as the code has them: [float] is IEEE 754
    binary32 and [double] binary64, both through the executable
    specification [SpecFloat] of the standard library; [int32_t],
    [uint32_t] and [size_t] are integers of [Z] with their wrap-around
    written out. *)

From Stdlib Require Import ZArith Lia Bool Ascii String.
From Stdlib Require Import Floats.SpecFloat.
From stdpp Require Import base list strings.

Local Open Scope Z_scope.

(** ** Machine integers *)

Definition INT32_MIN : Z := - 2 ^ 31.
Definition INT32_MAX : Z := 2 ^ 31 - 1.

(** Conversion to [int32_t] (two's complement wrap-around). *)
Definition to_int32 (z : Z) : Z := (z + 2 ^ 31) mod 2 ^ 32 - 2 ^ 31.

(** Conversion to [uint32_t]. *)
Definition to_uint32 (z : Z) : Z := z mod 2 ^ 32.

(** Conversion to [size_t] (64 bits). *)
Definition to_size_t (z : Z) : Z := z mod 2 ^ 64.

(** [std::vector::size()]. *)
Definition size {A} (l : list A) : Z := to_size_t (Z.of_nat (length l)).

(** ** Floating point numbers *)

(** What is common to both formats: the integer part of a number, towards
    zero, as the conversions to integer types take it. *)
Definition SFtrunc (x : spec_float) : option Z :=
  match x with
  | S754_zero _ => Some 0
  | S754_finite s m e =>
      let a := match e with
               | Zneg p => Z.shiftr (Zpos m) (Zpos p)
               | _ => Z.shiftl (Zpos m) e
               end in
      Some (if s then - a else a)
  | S754_infinity _ | S754_nan => None
  end.

(** [static_cast<int32_t>] of a floating point number.  The conversion is
    undefined in C++ when the integer part does not fit (also for
    infinities and NaN); the model gives it the value the x86 conversion
    instructions produce, [INT32_MIN]. *)
Definition SFto_int32 (x : spec_float) : Z :=
  match SFtrunc x with
  | Some z => if (INT32_MIN <=? z) && (z <=? INT32_MAX) then z else INT32_MIN
  | None => INT32_MIN
  end.

(** [float]: IEEE 754 binary32. *)
Module F32.
Definition prec : Z := 24.
Definition emax : Z := 128.

(** Conversion of an integer, round to nearest even. *)
Definition of_Z (z : Z) : spec_float := binary_normalize prec emax z 0 false.

Definition mul : spec_float -> spec_float -> spec_float := SFmul prec emax.
Definition add : spec_float -> spec_float -> spec_float := SFadd prec emax.
Definition sub : spec_float -> spec_float -> spec_float := SFsub prec emax.
Definition div : spec_float -> spec_float -> spec_float := SFdiv prec emax.
Definition fabs : spec_float -> spec_float := SFabs.

(** [x > y] *)
Definition gtb (x y : spec_float) : bool := SFltb y x.
(** [x <= y] *)
Definition leb (x y : spec_float) : bool := SFleb x y.

(** [std::min (a, b)]: [b] when [b < a], and [a] otherwise. *)
Definition min (a b : spec_float) : spec_float := if SFltb b a then b else a.

Definition to_int32 : spec_float -> Z := SFto_int32.

Definition zero : spec_float := S754_zero false.
Definition one : spec_float := Eval vm_compute in of_Z 1.
(** The literal [0.5f]. *)
Definition half : spec_float := Eval vm_compute in div (of_Z 1) (of_Z 2).
(** The literal [1e-3f]: the binary32 number nearest to 1/1000. *)
Definition milli : spec_float := Eval vm_compute in div (of_Z 1) (of_Z 1000).
End F32.

(** [double]: IEEE 754 binary64. *)
Module F64.
Definition prec : Z := 53.
Definition emax : Z := 1024.

Definition of_Z (z : Z) : spec_float := binary_normalize prec emax z 0 false.

(** [static_cast<double>] of a [float]: exact, the mantissa is
    renormalised to 53 bits. *)
Definition of_float (x : spec_float) : spec_float :=
  match x with
  | S754_finite s m e => binary_round prec emax s m e
  | _ => x
  end.

Definition div : spec_float -> spec_float -> spec_float := SFdiv prec emax.

(** [std::floor]. *)
Definition floor (x : spec_float) : spec_float :=
  match x with
  | S754_finite s m (Zneg p) =>
      binary_normalize prec emax
        (Z.shiftr (if s then Zneg m else Zpos m) (Zpos p)) 0 s
  | _ => x
  end.

Definition to_int32 : spec_float -> Z := SFto_int32.
End F64.

Abbreviation float := spec_float.

(** ** Strings *)

Local Open Scope string_scope.
Local Open Scope Z_scope.

Definition tolower (c : ascii) : ascii :=
  let n := nat_of_ascii c in
  if (65 <=? n)%nat && (n <=? 90)%nat then ascii_of_nat (n + 32) else c.

Definition toupper (c : ascii) : ascii :=
  let n := nat_of_ascii c in
  if (97 <=? n)%nat && (n <=? 122)%nat then ascii_of_nat (n - 32) else c.

Fixpoint string_map (f : ascii -> ascii) (s : string) : string :=
  match s with
  | EmptyString => EmptyString
  | String c s' => String (f c) (string_map f s')
  end.

(** Modelled from the spec: [storm::iEquals] of [string_compare.hpp], the
    comparison of attribute names, which ignores the case of letters. *)
Definition iEquals (a b : string) : bool :=
  String.eqb (string_map tolower a) (string_map tolower b).

(** [std::string::empty()]. *)
Definition string_empty (s : string) : bool :=
  match s with EmptyString => true | _ => false end.

(** ** The attribute tree of the host *)

(** Modelled from the spec: the class [ATTRIBUTES] of the engine core, which
    this source file only calls.  A node has a name, maybe a value, and an
    ordered list of children ("an attribute tree ... a [Links] sub-list each
    with a navigation target"); children are found by name, ignoring case, or
    by position. *)
Unset Elimination Schemes.
Inductive ATTRIBUTES : Type :=
  ATTR (name : string) (value : option string) (children : list ATTRIBUTES).
Set Elimination Schemes.

Definition GetThisName (a : ATTRIBUTES) : string :=
  let 'ATTR n _ _ := a in n.

(** [GetThisAttr] as a C string, nullable. *)
Definition GetThisAttr (a : ATTRIBUTES) : option string :=
  let 'ATTR _ v _ := a in v.

(** [GetValue]: the value as a [std::string], empty when there is none. *)
Definition GetValue (a : ATTRIBUTES) : string :=
  default "" (GetThisAttr a).

Definition GetChildren (a : ATTRIBUTES) : list ATTRIBUTES :=
  let 'ATTR _ _ c := a in c.

Definition GetAttributesNum (a : ATTRIBUTES) : Z :=
  size (GetChildren a).

(** [GetAttributeClass(name)]: the first child of that name, or null. *)
Definition GetAttributeClass (a : ATTRIBUTES) (n : string) : option ATTRIBUTES :=
  List.find (fun c => iEquals (GetThisName c) n) (GetChildren a).

(** [GetAttributeClass(index)]: the child at that position, or null. *)
Definition GetAttributeClassAt (a : ATTRIBUTES) (i : Z) : option ATTRIBUTES :=
  if i <? 0 then None else GetChildren a !! Z.to_nat i.

(** [GetAttribute(name)]: the value of the child of that name, or null. *)
Definition GetAttribute (a : ATTRIBUTES) (n : string) : option string :=
  match GetAttributeClass a n with
  | Some c => GetThisAttr c
  | None => None
  end.

Fixpoint set_child (n : string) (v : option string) (cs : list ATTRIBUTES)
  : list ATTRIBUTES :=
  match cs with
  | [] => [ATTR n v []]
  | ATTR n' v' cs' :: rest =>
      if iEquals n' n then ATTR n' v cs' :: rest
      else ATTR n' v' cs' :: set_child n v rest
  end.

(** [SetAttribute(name, value)]: the child of that name gets the value; it is
    created, last, when there is none. *)
Definition SetAttribute (a : ATTRIBUTES) (n : string) (v : option string)
  : ATTRIBUTES :=
  let 'ATTR n0 v0 cs := a in ATTR n0 v0 (set_child n v cs).

(** ** Geometry *)

Module FRECT.
Record t := mk { left : float; top : float; right : float; bottom : float }.
End FRECT.

Module CVECTOR.
Record t := mk { x : float; y : float; z : float }.
End CVECTOR.

Module XI_TEX_VERTEX.
Record t := mk {
  pos : CVECTOR.t;
  rhw : float;
  color : Z;
  u : float;
  v : float
}.
(** [sizeof(XI_TEX_VERTEX)]: seven members of four bytes. *)
Definition sizeof : Z := 28.
End XI_TEX_VERTEX.

Record SpriteInfo := mkSpriteInfo {
  position : FRECT.t;
  uv : FRECT.t
}.

Definition ARGB (a r g b : Z) : Z :=
  Z.lor (Z.lor (Z.lor (Z.shiftl a 24) (Z.shiftl r 16)) (Z.shiftl g 8)) b.

Definition COLOR_NORMAL : Z := 0xFFFFFFFF.
Definition COLOR_LINK_UNSELECTED : Z := ARGB 255 127 127 127.

Definition UNFADE_TIME : Z := 1000.

Definition DEFAULT_INTERFACE_TEXTURE : string := "dialog/dialog.tga".

Definition ScaleUv (uv : FRECT.t) : FRECT.t :=
  let hScale := F32.div (F32.of_Z 1) (F32.of_Z 1024) in
  let vScale := F32.div (F32.of_Z 1) (F32.of_Z 256) in
  FRECT.mk (F32.mul (FRECT.left uv) hScale) (F32.mul (FRECT.top uv) vScale)
           (F32.mul (FRECT.right uv) hScale) (F32.mul (FRECT.bottom uv) vScale).

(** A rectangle written with integer literals. *)
Definition rect (x1 y1 x2 y2 : Z) : FRECT.t :=
  FRECT.mk (F32.of_Z x1) (F32.of_Z y1) (F32.of_Z x2) (F32.of_Z y2).

Definition DIALOG_MAX_LINES : nat := 8.
Definition DIVIDER_HEIGHT : float := F32.of_Z 10.
Definition DIALOG_LINE_HEIGHT : Z := 26.

Definition SPRITE_DATA : list SpriteInfo := Eval vm_compute in [
  (* Head overlay *)
  mkSpriteInfo (rect 29 25 147 37)
               (ScaleUv (rect 904 91 (904 + 119) (91 + 12)));
  mkSpriteInfo (rect 29 173 146 185)
               (ScaleUv (rect 904 105 (904 + 119) (105 + 11)));
  (* General *)
  mkSpriteInfo (rect (-39) (-39) 169 216) (ScaleUv (rect 0 0 208 255));
  mkSpriteInfo (rect 169 (-39) 678 79) (ScaleUv (rect 208 0 757 118));
  mkSpriteInfo (rect (-39) 451 678 518) (ScaleUv (rect 209 189 1023 255));
  (* Static vertices 2 *)
  mkSpriteInfo (rect 29 25 147 37) (ScaleUv (rect 904 91 1023 103));
  mkSpriteInfo (rect 29 173 146 185) (ScaleUv (rect 904 105 1023 116));
  (* Dialog lines *)
  mkSpriteInfo (rect (-39) (479 - 67 + 39 - DIALOG_LINE_HEIGHT) (639 + 39)
                     (479 - 67 + 39))
               (ScaleUv (rect 209 155 1023 186));
  mkSpriteInfo (rect (-39) (479 - 67 + 39 - DIALOG_LINE_HEIGHT) (639 + 39)
                     (479 - 67 + 39))
               (ScaleUv (rect 209 119 1023 156));
  (* Divider *)
  mkSpriteInfo
    (FRECT.mk (F32.of_Z 35)
              (F32.sub (F32.of_Z 450) (F32.div DIVIDER_HEIGHT (F32.of_Z 2)))
              (F32.of_Z 605)
              (F32.add (F32.of_Z 450) (F32.add DIVIDER_HEIGHT (F32.of_Z 2))))
    (ScaleUv (rect 209 94 602 116))
].

Definition SPRITE_COUNT : nat :=
  (length SPRITE_DATA + (DIALOG_MAX_LINES - 1))%nat.

(** [SPRITE_DATA[i]] *)
Definition sprite (i : nat) : SpriteInfo :=
  nth i SPRITE_DATA (mkSpriteInfo (rect 0 0 0 0) (rect 0 0 0 0)).

(** ** The component and its collaborators *)

Module ScreenScale.
Record t := mk { x : float; y : float }.
End ScreenScale.

Record LinkEntry := mkLinkEntry {
  text : string;
  lineIndex : Z
}.

Inductive SoundState := SOUND_NONE | SOUND_STARTING | SOUND_PLAYING | SOUND_STOPPED.

#[global] Instance SoundState_eq_dec : EqDecision SoundState.
Proof. solve_decision. Defined.

Record LegacyDialog := mkLegacyDialog {
  AttributesPointer : ATTRIBUTES;  (* the attribute tree of the entity (member of the base class) *)
  soundService_ : bool;  (* whether the sound service was found (the pointer is not null) *)
  characterName_ : string;
  mainFont_ : Z;
  nameFont_ : Z;
  subFont_ : Z;
  interfaceTexture_ : Z;
  screenScale_ : ScreenScale.t;
  fontScale_ : float;
  lineHeight_ : Z;
  backVertexBuffer_ : Z;
  backIndexBuffer_ : Z;
  backNeedsUpdate_ : bool;
  textureLines_ : Z;
  headModelPath_ : string;
  headModel_ : Z;  (* entity id of the head model, 0 when there is none *)
  mood_ : string;
  soundName_ : string;
  soundState_ : SoundState;
  currentSound_ : Z;
  dialogText_ : string;
  formattedDialogText_ : list string;
  links_ : list string;
  formattedLinks_ : list LinkEntry;
  selectedLink_ : Z;
  fadeTime_ : Z
}.

(** Assignment to one member; the other members are kept. *)
Definition set_AttributesPointer (v : ATTRIBUTES) (d : LegacyDialog) : LegacyDialog :=
  mkLegacyDialog v (soundService_ d) (characterName_ d) (mainFont_ d)
    (nameFont_ d) (subFont_ d) (interfaceTexture_ d) (screenScale_ d)
    (fontScale_ d) (lineHeight_ d) (backVertexBuffer_ d) (backIndexBuffer_ d)
    (backNeedsUpdate_ d) (textureLines_ d) (headModelPath_ d) (headModel_ d)
    (mood_ d) (soundName_ d) (soundState_ d) (currentSound_ d) (dialogText_ d)
    (formattedDialogText_ d) (links_ d) (formattedLinks_ d) (selectedLink_ d)
    (fadeTime_ d).
Definition set_soundService_ (v : bool) (d : LegacyDialog) : LegacyDialog :=
  mkLegacyDialog (AttributesPointer d) v (characterName_ d) (mainFont_ d)
    (nameFont_ d) (subFont_ d) (interfaceTexture_ d) (screenScale_ d)
    (fontScale_ d) (lineHeight_ d) (backVertexBuffer_ d) (backIndexBuffer_ d)
    (backNeedsUpdate_ d) (textureLines_ d) (headModelPath_ d) (headModel_ d)
    (mood_ d) (soundName_ d) (soundState_ d) (currentSound_ d) (dialogText_ d)
    (formattedDialogText_ d) (links_ d) (formattedLinks_ d) (selectedLink_ d)
    (fadeTime_ d).
Definition set_characterName_ (v : string) (d : LegacyDialog) : LegacyDialog :=
  mkLegacyDialog (AttributesPointer d) (soundService_ d) v (mainFont_ d)
    (nameFont_ d) (subFont_ d) (interfaceTexture_ d) (screenScale_ d)
    (fontScale_ d) (lineHeight_ d) (backVertexBuffer_ d) (backIndexBuffer_ d)
    (backNeedsUpdate_ d) (textureLines_ d) (headModelPath_ d) (headModel_ d)
    (mood_ d) (soundName_ d) (soundState_ d) (currentSound_ d) (dialogText_ d)
    (formattedDialogText_ d) (links_ d) (formattedLinks_ d) (selectedLink_ d)
    (fadeTime_ d).
Definition set_mainFont_ (v : Z) (d : LegacyDialog) : LegacyDialog :=
  mkLegacyDialog (AttributesPointer d) (soundService_ d) (characterName_ d) v
    (nameFont_ d) (subFont_ d) (interfaceTexture_ d) (screenScale_ d)
    (fontScale_ d) (lineHeight_ d) (backVertexBuffer_ d) (backIndexBuffer_ d)
    (backNeedsUpdate_ d) (textureLines_ d) (headModelPath_ d) (headModel_ d)
    (mood_ d) (soundName_ d) (soundState_ d) (currentSound_ d) (dialogText_ d)
    (formattedDialogText_ d) (links_ d) (formattedLinks_ d) (selectedLink_ d)
    (fadeTime_ d).
Definition set_nameFont_ (v : Z) (d : LegacyDialog) : LegacyDialog :=
  mkLegacyDialog (AttributesPointer d) (soundService_ d) (characterName_ d)
    (mainFont_ d) v (subFont_ d) (interfaceTexture_ d) (screenScale_ d)
    (fontScale_ d) (lineHeight_ d) (backVertexBuffer_ d) (backIndexBuffer_ d)
    (backNeedsUpdate_ d) (textureLines_ d) (headModelPath_ d) (headModel_ d)
    (mood_ d) (soundName_ d) (soundState_ d) (currentSound_ d) (dialogText_ d)
    (formattedDialogText_ d) (links_ d) (formattedLinks_ d) (selectedLink_ d)
    (fadeTime_ d).
Definition set_subFont_ (v : Z) (d : LegacyDialog) : LegacyDialog :=
  mkLegacyDialog (AttributesPointer d) (soundService_ d) (characterName_ d)
    (mainFont_ d) (nameFont_ d) v (interfaceTexture_ d) (screenScale_ d)
    (fontScale_ d) (lineHeight_ d) (backVertexBuffer_ d) (backIndexBuffer_ d)
    (backNeedsUpdate_ d) (textureLines_ d) (headModelPath_ d) (headModel_ d)
    (mood_ d) (soundName_ d) (soundState_ d) (currentSound_ d) (dialogText_ d)
    (formattedDialogText_ d) (links_ d) (formattedLinks_ d) (selectedLink_ d)
    (fadeTime_ d).
Definition set_interfaceTexture_ (v : Z) (d : LegacyDialog) : LegacyDialog :=
  mkLegacyDialog (AttributesPointer d) (soundService_ d) (characterName_ d)
    (mainFont_ d) (nameFont_ d) (subFont_ d) v (screenScale_ d) (fontScale_ d)
    (lineHeight_ d) (backVertexBuffer_ d) (backIndexBuffer_ d)
    (backNeedsUpdate_ d) (textureLines_ d) (headModelPath_ d) (headModel_ d)
    (mood_ d) (soundName_ d) (soundState_ d) (currentSound_ d) (dialogText_ d)
    (formattedDialogText_ d) (links_ d) (formattedLinks_ d) (selectedLink_ d)
    (fadeTime_ d).
Definition set_screenScale_ (v : ScreenScale.t) (d : LegacyDialog) : LegacyDialog :=
  mkLegacyDialog (AttributesPointer d) (soundService_ d) (characterName_ d)
    (mainFont_ d) (nameFont_ d) (subFont_ d) (interfaceTexture_ d) v
    (fontScale_ d) (lineHeight_ d) (backVertexBuffer_ d) (backIndexBuffer_ d)
    (backNeedsUpdate_ d) (textureLines_ d) (headModelPath_ d) (headModel_ d)
    (mood_ d) (soundName_ d) (soundState_ d) (currentSound_ d) (dialogText_ d)
    (formattedDialogText_ d) (links_ d) (formattedLinks_ d) (selectedLink_ d)
    (fadeTime_ d).
Definition set_fontScale_ (v : float) (d : LegacyDialog) : LegacyDialog :=
  mkLegacyDialog (AttributesPointer d) (soundService_ d) (characterName_ d)
    (mainFont_ d) (nameFont_ d) (subFont_ d) (interfaceTexture_ d)
    (screenScale_ d) v (lineHeight_ d) (backVertexBuffer_ d) (backIndexBuffer_
    d) (backNeedsUpdate_ d) (textureLines_ d) (headModelPath_ d) (headModel_
    d) (mood_ d) (soundName_ d) (soundState_ d) (currentSound_ d) (dialogText_
    d) (formattedDialogText_ d) (links_ d) (formattedLinks_ d) (selectedLink_
    d) (fadeTime_ d).
Definition set_lineHeight_ (v : Z) (d : LegacyDialog) : LegacyDialog :=
  mkLegacyDialog (AttributesPointer d) (soundService_ d) (characterName_ d)
    (mainFont_ d) (nameFont_ d) (subFont_ d) (interfaceTexture_ d)
    (screenScale_ d) (fontScale_ d) v (backVertexBuffer_ d) (backIndexBuffer_
    d) (backNeedsUpdate_ d) (textureLines_ d) (headModelPath_ d) (headModel_
    d) (mood_ d) (soundName_ d) (soundState_ d) (currentSound_ d) (dialogText_
    d) (formattedDialogText_ d) (links_ d) (formattedLinks_ d) (selectedLink_
    d) (fadeTime_ d).
Definition set_backVertexBuffer_ (v : Z) (d : LegacyDialog) : LegacyDialog :=
  mkLegacyDialog (AttributesPointer d) (soundService_ d) (characterName_ d)
    (mainFont_ d) (nameFont_ d) (subFont_ d) (interfaceTexture_ d)
    (screenScale_ d) (fontScale_ d) (lineHeight_ d) v (backIndexBuffer_ d)
    (backNeedsUpdate_ d) (textureLines_ d) (headModelPath_ d) (headModel_ d)
    (mood_ d) (soundName_ d) (soundState_ d) (currentSound_ d) (dialogText_ d)
    (formattedDialogText_ d) (links_ d) (formattedLinks_ d) (selectedLink_ d)
    (fadeTime_ d).
Definition set_backIndexBuffer_ (v : Z) (d : LegacyDialog) : LegacyDialog :=
  mkLegacyDialog (AttributesPointer d) (soundService_ d) (characterName_ d)
    (mainFont_ d) (nameFont_ d) (subFont_ d) (interfaceTexture_ d)
    (screenScale_ d) (fontScale_ d) (lineHeight_ d) (backVertexBuffer_ d) v
    (backNeedsUpdate_ d) (textureLines_ d) (headModelPath_ d) (headModel_ d)
    (mood_ d) (soundName_ d) (soundState_ d) (currentSound_ d) (dialogText_ d)
    (formattedDialogText_ d) (links_ d) (formattedLinks_ d) (selectedLink_ d)
    (fadeTime_ d).
Definition set_backNeedsUpdate_ (v : bool) (d : LegacyDialog) : LegacyDialog :=
  mkLegacyDialog (AttributesPointer d) (soundService_ d) (characterName_ d)
    (mainFont_ d) (nameFont_ d) (subFont_ d) (interfaceTexture_ d)
    (screenScale_ d) (fontScale_ d) (lineHeight_ d) (backVertexBuffer_ d)
    (backIndexBuffer_ d) v (textureLines_ d) (headModelPath_ d) (headModel_ d)
    (mood_ d) (soundName_ d) (soundState_ d) (currentSound_ d) (dialogText_ d)
    (formattedDialogText_ d) (links_ d) (formattedLinks_ d) (selectedLink_ d)
    (fadeTime_ d).
Definition set_textureLines_ (v : Z) (d : LegacyDialog) : LegacyDialog :=
  mkLegacyDialog (AttributesPointer d) (soundService_ d) (characterName_ d)
    (mainFont_ d) (nameFont_ d) (subFont_ d) (interfaceTexture_ d)
    (screenScale_ d) (fontScale_ d) (lineHeight_ d) (backVertexBuffer_ d)
    (backIndexBuffer_ d) (backNeedsUpdate_ d) v (headModelPath_ d) (headModel_
    d) (mood_ d) (soundName_ d) (soundState_ d) (currentSound_ d) (dialogText_
    d) (formattedDialogText_ d) (links_ d) (formattedLinks_ d) (selectedLink_
    d) (fadeTime_ d).
Definition set_headModelPath_ (v : string) (d : LegacyDialog) : LegacyDialog :=
  mkLegacyDialog (AttributesPointer d) (soundService_ d) (characterName_ d)
    (mainFont_ d) (nameFont_ d) (subFont_ d) (interfaceTexture_ d)
    (screenScale_ d) (fontScale_ d) (lineHeight_ d) (backVertexBuffer_ d)
    (backIndexBuffer_ d) (backNeedsUpdate_ d) (textureLines_ d) v (headModel_
    d) (mood_ d) (soundName_ d) (soundState_ d) (currentSound_ d) (dialogText_
    d) (formattedDialogText_ d) (links_ d) (formattedLinks_ d) (selectedLink_
    d) (fadeTime_ d).
Definition set_headModel_ (v : Z) (d : LegacyDialog) : LegacyDialog :=
  mkLegacyDialog (AttributesPointer d) (soundService_ d) (characterName_ d)
    (mainFont_ d) (nameFont_ d) (subFont_ d) (interfaceTexture_ d)
    (screenScale_ d) (fontScale_ d) (lineHeight_ d) (backVertexBuffer_ d)
    (backIndexBuffer_ d) (backNeedsUpdate_ d) (textureLines_ d)
    (headModelPath_ d) v (mood_ d) (soundName_ d) (soundState_ d)
    (currentSound_ d) (dialogText_ d) (formattedDialogText_ d) (links_ d)
    (formattedLinks_ d) (selectedLink_ d) (fadeTime_ d).
Definition set_mood_ (v : string) (d : LegacyDialog) : LegacyDialog :=
  mkLegacyDialog (AttributesPointer d) (soundService_ d) (characterName_ d)
    (mainFont_ d) (nameFont_ d) (subFont_ d) (interfaceTexture_ d)
    (screenScale_ d) (fontScale_ d) (lineHeight_ d) (backVertexBuffer_ d)
    (backIndexBuffer_ d) (backNeedsUpdate_ d) (textureLines_ d)
    (headModelPath_ d) (headModel_ d) v (soundName_ d) (soundState_ d)
    (currentSound_ d) (dialogText_ d) (formattedDialogText_ d) (links_ d)
    (formattedLinks_ d) (selectedLink_ d) (fadeTime_ d).
Definition set_soundName_ (v : string) (d : LegacyDialog) : LegacyDialog :=
  mkLegacyDialog (AttributesPointer d) (soundService_ d) (characterName_ d)
    (mainFont_ d) (nameFont_ d) (subFont_ d) (interfaceTexture_ d)
    (screenScale_ d) (fontScale_ d) (lineHeight_ d) (backVertexBuffer_ d)
    (backIndexBuffer_ d) (backNeedsUpdate_ d) (textureLines_ d)
    (headModelPath_ d) (headModel_ d) (mood_ d) v (soundState_ d)
    (currentSound_ d) (dialogText_ d) (formattedDialogText_ d) (links_ d)
    (formattedLinks_ d) (selectedLink_ d) (fadeTime_ d).
Definition set_soundState_ (v : SoundState) (d : LegacyDialog) : LegacyDialog :=
  mkLegacyDialog (AttributesPointer d) (soundService_ d) (characterName_ d)
    (mainFont_ d) (nameFont_ d) (subFont_ d) (interfaceTexture_ d)
    (screenScale_ d) (fontScale_ d) (lineHeight_ d) (backVertexBuffer_ d)
    (backIndexBuffer_ d) (backNeedsUpdate_ d) (textureLines_ d)
    (headModelPath_ d) (headModel_ d) (mood_ d) (soundName_ d) v
    (currentSound_ d) (dialogText_ d) (formattedDialogText_ d) (links_ d)
    (formattedLinks_ d) (selectedLink_ d) (fadeTime_ d).
Definition set_currentSound_ (v : Z) (d : LegacyDialog) : LegacyDialog :=
  mkLegacyDialog (AttributesPointer d) (soundService_ d) (characterName_ d)
    (mainFont_ d) (nameFont_ d) (subFont_ d) (interfaceTexture_ d)
    (screenScale_ d) (fontScale_ d) (lineHeight_ d) (backVertexBuffer_ d)
    (backIndexBuffer_ d) (backNeedsUpdate_ d) (textureLines_ d)
    (headModelPath_ d) (headModel_ d) (mood_ d) (soundName_ d) (soundState_ d)
    v (dialogText_ d) (formattedDialogText_ d) (links_ d) (formattedLinks_ d)
    (selectedLink_ d) (fadeTime_ d).
Definition set_dialogText_ (v : string) (d : LegacyDialog) : LegacyDialog :=
  mkLegacyDialog (AttributesPointer d) (soundService_ d) (characterName_ d)
    (mainFont_ d) (nameFont_ d) (subFont_ d) (interfaceTexture_ d)
    (screenScale_ d) (fontScale_ d) (lineHeight_ d) (backVertexBuffer_ d)
    (backIndexBuffer_ d) (backNeedsUpdate_ d) (textureLines_ d)
    (headModelPath_ d) (headModel_ d) (mood_ d) (soundName_ d) (soundState_ d)
    (currentSound_ d) v (formattedDialogText_ d) (links_ d) (formattedLinks_
    d) (selectedLink_ d) (fadeTime_ d).
Definition set_formattedDialogText_ (v : list string) (d : LegacyDialog) : LegacyDialog :=
  mkLegacyDialog (AttributesPointer d) (soundService_ d) (characterName_ d)
    (mainFont_ d) (nameFont_ d) (subFont_ d) (interfaceTexture_ d)
    (screenScale_ d) (fontScale_ d) (lineHeight_ d) (backVertexBuffer_ d)
    (backIndexBuffer_ d) (backNeedsUpdate_ d) (textureLines_ d)
    (headModelPath_ d) (headModel_ d) (mood_ d) (soundName_ d) (soundState_ d)
    (currentSound_ d) (dialogText_ d) v (links_ d) (formattedLinks_ d)
    (selectedLink_ d) (fadeTime_ d).
Definition set_links_ (v : list string) (d : LegacyDialog) : LegacyDialog :=
  mkLegacyDialog (AttributesPointer d) (soundService_ d) (characterName_ d)
    (mainFont_ d) (nameFont_ d) (subFont_ d) (interfaceTexture_ d)
    (screenScale_ d) (fontScale_ d) (lineHeight_ d) (backVertexBuffer_ d)
    (backIndexBuffer_ d) (backNeedsUpdate_ d) (textureLines_ d)
    (headModelPath_ d) (headModel_ d) (mood_ d) (soundName_ d) (soundState_ d)
    (currentSound_ d) (dialogText_ d) (formattedDialogText_ d) v
    (formattedLinks_ d) (selectedLink_ d) (fadeTime_ d).
Definition set_formattedLinks_ (v : list LinkEntry) (d : LegacyDialog) : LegacyDialog :=
  mkLegacyDialog (AttributesPointer d) (soundService_ d) (characterName_ d)
    (mainFont_ d) (nameFont_ d) (subFont_ d) (interfaceTexture_ d)
    (screenScale_ d) (fontScale_ d) (lineHeight_ d) (backVertexBuffer_ d)
    (backIndexBuffer_ d) (backNeedsUpdate_ d) (textureLines_ d)
    (headModelPath_ d) (headModel_ d) (mood_ d) (soundName_ d) (soundState_ d)
    (currentSound_ d) (dialogText_ d) (formattedDialogText_ d) (links_ d) v
    (selectedLink_ d) (fadeTime_ d).
Definition set_selectedLink_ (v : Z) (d : LegacyDialog) : LegacyDialog :=
  mkLegacyDialog (AttributesPointer d) (soundService_ d) (characterName_ d)
    (mainFont_ d) (nameFont_ d) (subFont_ d) (interfaceTexture_ d)
    (screenScale_ d) (fontScale_ d) (lineHeight_ d) (backVertexBuffer_ d)
    (backIndexBuffer_ d) (backNeedsUpdate_ d) (textureLines_ d)
    (headModelPath_ d) (headModel_ d) (mood_ d) (soundName_ d) (soundState_ d)
    (currentSound_ d) (dialogText_ d) (formattedDialogText_ d) (links_ d)
    (formattedLinks_ d) v (fadeTime_ d).
Definition set_fadeTime_ (v : Z) (d : LegacyDialog) : LegacyDialog :=
  mkLegacyDialog (AttributesPointer d) (soundService_ d) (characterName_ d)
    (mainFont_ d) (nameFont_ d) (subFont_ d) (interfaceTexture_ d)
    (screenScale_ d) (fontScale_ d) (lineHeight_ d) (backVertexBuffer_ d)
    (backIndexBuffer_ d) (backNeedsUpdate_ d) (textureLines_ d)
    (headModelPath_ d) (headModel_ d) (mood_ d) (soundName_ d) (soundState_ d)
    (currentSound_ d) (dialogText_ d) (formattedDialogText_ d) (links_ d)
    (formattedLinks_ d) (selectedLink_ d) v.

(** The calls to the render service that leave a trace on the frame. *)
Inductive RenderCall :=
  | TextureCreate (path : string)
  | TextureRelease (texture : Z)
  | TextureSet (stage texture : Z)
  | LockVertexBuffer (buffer : Z)
  | UnLockVertexBuffer (buffer : Z)
  | LockIndexBuffer (buffer : Z)
  | UnLockIndexBuffer (buffer : Z)
  | DrawBuffer (vertexBuffer stride indexBuffer minVertex numVertices
                startIndex numTriangles : Z) (technique : string)
  | ExtPrint (font color : Z) (scale : float) (x y : Z) (str : string).

(** The render service: the buffers it has created, in the order of their
    creation (the handle of a buffer is its position), the number of textures
    created, and the calls received, oldest first.  A slot of a buffer holds
    [None] until it is written. *)
Record VDX9RENDER := mkRender {
  vertexBuffers : list (list (option XI_TEX_VERTEX.t));
  indexBuffers : list (list (option Z));
  textures : Z;
  calls : list RenderCall
}.

Record World := mkWorld {
  dialog : LegacyDialog;  (* the component *)
  render : VDX9RENDER;  (* the render service *)
  timeScale : float;  (* core.SetTimeScale: the last value set *)
  events : list string;  (* core.Event: the events raised, oldest first *)
  sounds : list string;  (* SoundPlay: the sounds started, oldest first *)
  animations : list string  (* the actions set on the head model, oldest first *)
}.

Definition set_dialog (v : LegacyDialog) (w : World) : World :=
  mkWorld v (render w) (timeScale w) (events w) (sounds w) (animations w).
Definition set_render (v : VDX9RENDER) (w : World) : World :=
  mkWorld (dialog w) v (timeScale w) (events w) (sounds w) (animations w).
Definition set_timeScale (v : float) (w : World) : World :=
  mkWorld (dialog w) (render w) v (events w) (sounds w) (animations w).
Definition set_events (v : list string) (w : World) : World :=
  mkWorld (dialog w) (render w) (timeScale w) v (sounds w) (animations w).
Definition set_sounds (v : list string) (w : World) : World :=
  mkWorld (dialog w) (render w) (timeScale w) (events w) v (animations w).
Definition set_animations (v : list string) (w : World) : World :=
  mkWorld (dialog w) (render w) (timeScale w) (events w) (sounds w) v.

(** [CONTROL_STATE::state] *)
Inductive CONTROL_STATE_TYPE := CST_INACTIVE | CST_ACTIVE | CST_INACTIVATED | CST_ACTIVATED.

Definition activated (s : CONTROL_STATE_TYPE) : bool :=
  match s with CST_ACTIVATED => true | _ => false end.

(** What the collaborators answer during one call into the component. *)
Record Host := mkHost {
  vpWidth : Z;                 (* RenderService->GetViewport: Width *)
  vpHeight : Z;                (* RenderService->GetViewport: Height *)
  screenWidth : Z;             (* core.GetScreenSize().width *)
  screenHeight : Z;            (* core.GetScreenSize().height *)
  GetControlState : string -> CONTROL_STATE_TYPE;  (* core.Controls *)
  GetRDeltaTime : Z;           (* core.GetRDeltaTime(), a uint32_t *)
  soundFound : bool;           (* core.GetService("SoundService") is not null *)
  SoundPlay : Z;               (* the handle SoundPlay returns *)
  SoundIsPlaying : bool;       (* soundService_->SoundIsPlaying *)
  CreateEntity : Z             (* core.CreateEntity("MODELR") *)
}.

(** ** The render service *)

(** The buffer behind a handle; no region is mapped for a handle the service
    never gave out. *)
Definition buffer_at {A} (bs : list (list A)) (h : Z) : list A :=
  if h <? 0 then [] else default [] (bs !! Z.to_nat h).

Definition store_buffer {A} (bs : list (list A)) (h : Z) (b : list A)
  : list (list A) :=
  if h <? 0 then bs else <[Z.to_nat h := b]> bs.

Definition call (c : RenderCall) (w : World) : World :=
  let r := render w in
  set_render (mkRender (vertexBuffers r) (indexBuffers r) (textures r)
                       (calls r ++ [c])) w.

Definition set_vertexBuffers (v : list (list (option XI_TEX_VERTEX.t)))
  (w : World) : World :=
  let r := render w in
  set_render (mkRender v (indexBuffers r) (textures r) (calls r)) w.

Definition set_indexBuffers (v : list (list (option Z))) (w : World) : World :=
  let r := render w in
  set_render (mkRender (vertexBuffers r) v (textures r) (calls r)) w.

(** [CreateVertexBuffer(XI_TEX_FVF, size, D3DUSAGE_WRITEONLY)], [size] in
    bytes: a fresh buffer of unwritten vertices and its handle. *)
Definition CreateVertexBuffer (bytes : Z) (w : World) : Z * World :=
  let bs := vertexBuffers (render w) in
  (Z.of_nat (length bs),
   set_vertexBuffers
     (bs ++ [replicate (Z.to_nat (bytes / XI_TEX_VERTEX.sizeof)) None]) w).

(** [CreateIndexBuffer(size)], [size] in bytes, of 16-bit indices. *)
Definition CreateIndexBuffer (bytes : Z) (w : World) : Z * World :=
  let bs := indexBuffers (render w) in
  (Z.of_nat (length bs),
   set_indexBuffers (bs ++ [replicate (Z.to_nat (bytes / 2)) None]) w).

(** [TextureCreate(path)]: textures are numbered from 1. *)
Definition DoTextureCreate (path : string) (w : World) : Z * World :=
  let r := render w in
  let id := textures r + 1 in
  (id, call (TextureCreate path)
         (set_render (mkRender (vertexBuffers r) (indexBuffers r) id (calls r)) w)).

(** Conversion to [uint16_t]. *)
Definition to_uint16 (z : Z) : Z := z mod 2 ^ 16.

Definition FillIndexBuffer (indexBuffer : Z) (spriteCount : nat) (w : World)
  : World :=
  let w := call (LockIndexBuffer indexBuffer) w in
  let pI := buffer_at (indexBuffers (render w)) indexBuffer in
  let pI :=
    foldl (fun pI n =>
      let pI := <[(n * 6 + 0)%nat := Some (to_uint16 (Z.of_nat n * 4 + 0))]> pI in
      let pI := <[(n * 6 + 1)%nat := Some (to_uint16 (Z.of_nat n * 4 + 2))]> pI in
      let pI := <[(n * 6 + 2)%nat := Some (to_uint16 (Z.of_nat n * 4 + 1))]> pI in
      let pI := <[(n * 6 + 3)%nat := Some (to_uint16 (Z.of_nat n * 4 + 1))]> pI in
      let pI := <[(n * 6 + 4)%nat := Some (to_uint16 (Z.of_nat n * 4 + 2))]> pI in
      let pI := <[(n * 6 + 5)%nat := Some (to_uint16 (Z.of_nat n * 4 + 3))]> pI in
      pI) pI (seq 0 spriteCount) in
  let w := set_indexBuffers
             (store_buffer (indexBuffers (render w)) indexBuffer pI) w in
  call (UnLockIndexBuffer indexBuffer) w.

(** ** The component *)

Section LegacyDialog.

(** The text metrics of the render service and the configuration, constant
    while the component lives: the height of a font, the lines into which
    [DIALOG::AddToStringArrayLimitedByWidth] wraps a text for a font, a font
    scale and a width limit, the font the ini file and the render service
    give for a key, and the sound of a tick. *)
Variable CharHeight : Z -> Z.
Variable AddToStringArrayLimitedByWidth : string -> Z -> float -> Z -> list string.
Variable LoadFont : string -> Z.
Variable TICK_SOUND : string.

(** A step on the component alone. *)
Definition upd (f : LegacyDialog -> LegacyDialog) (w : World) : World :=
  set_dialog (f (dialog w)) w.

(** [fabs(a - b) > 1e-3f] *)
Definition differ (a b : float) : bool :=
  F32.gtb (F32.fabs (F32.sub a b)) F32.milli.

Definition LoadIni (d : LegacyDialog) : LegacyDialog :=
  let d := set_mainFont_ (LoadFont "mainfont") d in
  let d := set_nameFont_ (LoadFont "namefont") d in
  set_subFont_ (LoadFont "subfont") d.

Definition UpdateScreenSize (h : Host) (d : LegacyDialog) : LegacyDialog :=
  let hScale := F32.div (F32.of_Z (vpWidth h)) (F32.of_Z (screenWidth h)) in
  let vScale := F32.div (F32.of_Z (vpHeight h)) (F32.of_Z (screenHeight h)) in
  let d :=
    if differ (ScreenScale.x (screenScale_ d)) hScale
       || differ (ScreenScale.y (screenScale_ d)) vScale
    then set_backNeedsUpdate_ true
           (set_screenScale_ (ScreenScale.mk hScale vScale) d)
    else d in
  let oldFontScale := fontScale_ d in
  let d := set_fontScale_ (F32.div (F32.of_Z (vpHeight h)) (F32.of_Z 600)) d in
  if differ (fontScale_ d) oldFontScale
  then set_lineHeight_
         (F32.to_int32 (F32.mul (F32.of_Z (CharHeight (mainFont_ d)))
                                (fontScale_ d))) d
  else d.

Definition CreateBackBuffers (w : World) : World :=
  let vertex_count := Z.of_nat SPRITE_COUNT * 4 in
  let index_count := Z.of_nat SPRITE_COUNT * 6 in
  let '(vb, w) := CreateVertexBuffer (vertex_count * XI_TEX_VERTEX.sizeof) w in
  let w := upd (set_backVertexBuffer_ vb) w in
  let '(ib, w) := CreateIndexBuffer (index_count * 2) w in
  let w := upd (set_backIndexBuffer_ ib) w in
  FillIndexBuffer (backIndexBuffer_ (dialog w)) SPRITE_COUNT w.

Definition Mesh : Type :=
  XI_TEX_VERTEX.t * XI_TEX_VERTEX.t * XI_TEX_VERTEX.t * XI_TEX_VERTEX.t.

Definition createSpriteMesh (hScale vScale : float) (sprite : SpriteInfo)
  : Mesh :=
  let p := position sprite in
  let t := uv sprite in
  (XI_TEX_VERTEX.mk
     (CVECTOR.mk (F32.mul hScale (FRECT.left p)) (F32.mul vScale (FRECT.top p))
                 F32.one)
     F32.half COLOR_NORMAL (FRECT.left t) (FRECT.top t),
   XI_TEX_VERTEX.mk
     (CVECTOR.mk (F32.mul hScale (FRECT.right p)) (F32.mul vScale (FRECT.top p))
                 F32.one)
     F32.half COLOR_NORMAL (FRECT.right t) (FRECT.top t),
   XI_TEX_VERTEX.mk
     (CVECTOR.mk (F32.mul hScale (FRECT.left p))
                 (F32.mul vScale (FRECT.bottom p)) F32.one)
     F32.half COLOR_NORMAL (FRECT.left t) (FRECT.bottom t),
   XI_TEX_VERTEX.mk
     (CVECTOR.mk (F32.mul hScale (FRECT.right p))
                 (F32.mul vScale (FRECT.bottom p)) F32.one)
     F32.half COLOR_NORMAL (FRECT.right t) (FRECT.bottom t)).

(** The mapped vertex buffer with the running index [vi]. *)
Definition Cursor : Type := list (option XI_TEX_VERTEX.t) * nat.

(** [pV[vi++] = vertices[0]; ... pV[vi++] = vertices[3];] *)
Definition write_mesh (vertices : Mesh) (c : Cursor) : Cursor :=
  let '(m0, m1, m2, m3) := vertices in
  let '(pV, vi) := c in
  let pV := <[vi := Some m0]> pV in let vi := S vi in
  let pV := <[vi := Some m1]> pV in let vi := S vi in
  let pV := <[vi := Some m2]> pV in let vi := S vi in
  let pV := <[vi := Some m3]> pV in let vi := S vi in
  (pV, vi).

(** [position.top -= offset; position.bottom -= offset;] *)
Definition shift_up (s : SpriteInfo) (offset : float) : SpriteInfo :=
  let p := position s in
  mkSpriteInfo
    (FRECT.mk (FRECT.left p) (F32.sub (FRECT.top p) offset)
              (FRECT.right p) (F32.sub (FRECT.bottom p) offset))
    (uv s).

Definition is_empty {A} (l : list A) : bool :=
  match l with [] => true | _ => false end.

Definition UpdateBackBuffers (w : World) : World :=
  let d := dialog w in
  let hScale := ScreenScale.x (screenScale_ d) in
  let vScale := ScreenScale.y (screenScale_ d) in
  let w := call (LockVertexBuffer (backVertexBuffer_ d)) w in
  let c : Cursor :=
    (buffer_at (vertexBuffers (render w)) (backVertexBuffer_ d), 0%nat) in
  let c :=
    foldl (fun c i => write_mesh (createSpriteMesh hScale vScale (sprite i)) c)
          c (seq 0 7) in
  let c :=
    foldl (fun c i =>
             let offset :=
               F32.of_Z (to_size_t (DIALOG_LINE_HEIGHT * Z.of_nat i)) in
             write_mesh
               (createSpriteMesh hScale vScale (shift_up (sprite 7) offset)) c)
          c (seq 0 DIALOG_MAX_LINES) in
  (* Top of main dialog *)
  let text_lines :=
    to_size_t (size (formattedDialogText_ d) + size (formattedLinks_ d)) in
  let textureLines :=
    F64.to_int32
      (F64.floor
         (F64.div
            (F64.of_float
               (F32.div
                  (F32.of_Z (to_size_t (text_lines * to_size_t (lineHeight_ d))))
                  vScale))
            (F64.of_Z DIALOG_LINE_HEIGHT))) in
  let textureLines :=
    if is_empty (formattedLinks_ d) then textureLines
    else to_int32 (textureLines + 1) in
  let w := upd (set_textureLines_ textureLines) w in
  let offset := F32.mul (F32.of_Z DIALOG_LINE_HEIGHT) (F32.of_Z textureLines) in
  let c :=
    write_mesh (createSpriteMesh hScale vScale (shift_up (sprite 8) offset)) c in
  (* Divider *)
  let offset :=
    F32.div (F32.mul (F32.of_Z (size (formattedLinks_ d)))
                     (F32.of_Z (lineHeight_ d))) vScale in
  let c :=
    write_mesh (createSpriteMesh hScale vScale (shift_up (sprite 9) offset)) c in
  let w := set_vertexBuffers
             (store_buffer (vertexBuffers (render w)) (backVertexBuffer_ d)
                           (fst c)) w in
  let w := call (UnLockVertexBuffer (backVertexBuffer_ d)) w in
  upd (set_backNeedsUpdate_ false) w.

Definition DrawBackground (start count : Z) (w : World) : World :=
  let d := dialog w in
  let w := call (TextureSet 0 (interfaceTexture_ d)) w in
  call (DrawBuffer (backVertexBuffer_ d) XI_TEX_VERTEX.sizeof
                   (backIndexBuffer_ d) 0 (Z.of_nat SPRITE_COUNT * 4)
                   (to_size_t (start * 6)) (to_size_t (count * 2))
                   "texturedialogfon") w.

(** The head model is an entity of the host; of what happens to it the model
    keeps the actions set on its animation. *)
Definition SetAction (action : string) (w : World) : World :=
  let d := dialog w in
  if headModel_ d =? 0 then w
  else
    let preparedAction :=
      if bool_decide (mood_ d ≠ "normal") then action +:+ "_" +:+ mood_ d
      else action in
    set_animations (animations w ++ [preparedAction]) w.

Definition UpdateHeadModel (h : Host) (headModelPath : string) (w : World)
  : World :=
  let newHeadModelPath := "Heads/" +:+ headModelPath in
  if bool_decide (headModelPath_ (dialog w) ≠ newHeadModelPath) then
    let w := upd (set_headModelPath_ newHeadModelPath) w in
    let w := upd (set_headModel_ (CreateEntity h)) w in
    SetAction "dialog_idle" w
  else w.

Definition text_width_limit (h : Host) : Z :=
  F32.to_int32
    (F32.mul (F32.of_Z 570) (F32.div (F32.of_Z (vpWidth h)) (F32.of_Z 640))).

Definition UpdateLinks (h : Host) (d : LegacyDialog) : LegacyDialog :=
  let previous_link_lines := size (formattedLinks_ d) in
  let d := set_links_ [] d in
  let d := set_formattedLinks_ [] d in
  let d :=
    match GetAttributeClass (AttributesPointer d) "Links" with
    | Some links_attr =>
        let number_of_links := GetAttributesNum links_attr in
        foldl (fun d i =>
                 let link_text :=
                   match GetAttributeClassAt links_attr (Z.of_nat i) with
                   | Some a => GetValue a
                   | None => ""
                   end in
                 let d := set_links_ (links_ d ++ [link_text]) d in
                 let link_texts :=
                   AddToStringArrayLimitedByWidth
                     link_text (subFont_ d) (fontScale_ d) (text_width_limit h) in
                 set_formattedLinks_
                   (formattedLinks_ d
                    ++ map (fun text => mkLinkEntry text (to_int32 (Z.of_nat i)))
                           link_texts) d)
              d (seq 0 (Z.to_nat number_of_links))
    | None => d
    end in
  if bool_decide (previous_link_lines ≠ size (formattedLinks_ d))
  then set_backNeedsUpdate_ true d
  else d.

Definition UpdateDialogText (h : Host) (d : LegacyDialog) : LegacyDialog :=
  let previous_lines := size (formattedDialogText_ d) in
  let d :=
    match GetAttribute (AttributesPointer d) "Text" with
    | Some text_attr => set_dialogText_ text_attr d
    | None => d
    end in
  let d := set_formattedDialogText_ [] d in
  let d :=
    if negb (string_empty (dialogText_ d)) then
      set_formattedDialogText_
        (formattedDialogText_ d
         ++ AddToStringArrayLimitedByWidth
              (dialogText_ d) (mainFont_ d) (fontScale_ d) (text_width_limit h))
        d
    else d in
  if bool_decide (previous_lines ≠ size (formattedDialogText_ d))
  then set_backNeedsUpdate_ true d
  else d.

Definition DrawLinks (w : World) : World :=
  let d := dialog w in
  if negb (is_empty (formattedLinks_ d)) then
    let offset := to_int32 (lineHeight_ d * to_int32 (size (formattedLinks_ d))) in
    fst (foldl (fun '(w, line_offset) link =>
                  let isSelected := lineIndex link =? selectedLink_ d in
                  (call (ExtPrint
                           (subFont_ d)
                           (if isSelected then COLOR_NORMAL
                            else COLOR_LINK_UNSELECTED)
                           (fontScale_ d)
                           (F32.to_int32
                              (F32.mul (ScreenScale.x (screenScale_ d))
                                       (F32.of_Z 35)))
                           (to_int32
                              (F32.to_int32
                                 (F32.sub
                                    (F32.mul (ScreenScale.y (screenScale_ d))
                                             (F32.of_Z 450))
                                    (F32.of_Z offset))
                               + line_offset))
                           (text link)) w,
                   to_int32 (line_offset + lineHeight_ d)))
               (w, 0) (formattedLinks_ d))
  else w.

Definition DrawDialogText (w : World) : World :=
  let d := dialog w in
  if negb (string_empty (dialogText_ d)) then
    let offset :=
      F32.to_int32
        (F32.mul (ScreenScale.y (screenScale_ d))
                 (F32.of_Z (to_int32
                              (445 - to_int32 (textureLines_ d
                                               * DIALOG_LINE_HEIGHT))))) in
    fst (foldl (fun '(w, line_offset) text =>
                  (call (ExtPrint
                           (mainFont_ d) COLOR_NORMAL (fontScale_ d)
                           (F32.to_int32
                              (F32.mul (ScreenScale.x (screenScale_ d))
                                       (F32.of_Z 35)))
                           (to_int32 (offset + line_offset)) text) w,
                   to_int32 (line_offset + lineHeight_ d)))
               (w, 0) (formattedDialogText_ d))
  else w.

Definition PlayTick (w : World) : World :=
  if soundService_ (dialog w) then set_sounds (sounds w ++ [TICK_SOUND]) w
  else w.

Definition ProcessControls (h : Host) (w : World) : World :=
  let bDoUp :=
    activated (GetControlState h "DlgUp")
    || activated (GetControlState h "DlgUp2")
    || activated (GetControlState h "DlgUp3") in
  let w :=
    if bDoUp && (0 <? selectedLink_ (dialog w)) then
      let w := PlayTick w in
      upd (set_selectedLink_ (to_int32 (selectedLink_ (dialog w) - 1))) w
    else w in
  let bDoDown :=
    activated (GetControlState h "DlgDown")
    || activated (GetControlState h "DlgDown2")
    || activated (GetControlState h "DlgDown3") in
  let w :=
    if bDoDown
       && (to_size_t (selectedLink_ (dialog w))
           <? to_size_t (size (links_ (dialog w)) - 1)) then
      let w := PlayTick w in
      upd (set_selectedLink_ (to_int32 (selectedLink_ (dialog w) + 1))) w
    else w in
  let bDoAction :=
    activated (GetControlState h "DlgAction")
    || activated (GetControlState h "DlgAction1")
    || activated (GetControlState h "DlgAction2") in
  if bDoAction then
    let w := PlayTick w in
    match GetAttributeClass (AttributesPointer (dialog w)) "Links" with
    | Some links_attr =>
        match GetAttributeClassAt links_attr (selectedLink_ (dialog w)) with
        | Some selected_attr =>
            let go := GetAttribute selected_attr "go" in
            let w :=
              upd (fun d => set_AttributesPointer
                              (SetAttribute (AttributesPointer d) "CurrentNode" go)
                              d) w in
            let w := upd (set_selectedLink_ 0) w in
            set_events (events w ++ ["DialogEvent"]) w
        | None => w
        end
    | None => w
    end
  else w.

Definition Unfade (h : Host) (w : World) : World :=
  (* delayed exit from pause *)
  if to_uint32 (fadeTime_ (dialog w)) <=? UNFADE_TIME then
    let w :=
      upd (fun d => set_fadeTime_
                      (to_int32 (fadeTime_ d + to_int32 (GetRDeltaTime h))) d) w in
    let timeK :=
      F32.div (F32.of_Z (fadeTime_ (dialog w))) (F32.of_Z UNFADE_TIME) in
    let timeK := if F32.gtb timeK F32.one then F32.one else timeK in
    set_timeScale timeK w
  else w.

Definition Realize (h : Host) (w : World) : World :=
  let w := Unfade h w in
  let w :=
    let d := dialog w in
    if bool_decide (soundState_ d = SOUND_STARTING)
       && negb (string_empty (soundName_ d)) && soundService_ d then
      let w := set_sounds (sounds w ++ [soundName_ d]) w in
      let w := upd (set_currentSound_ (SoundPlay h)) w in
      if negb (currentSound_ (dialog w) =? 0) then
        let w := SetAction "dialog_all" w in
        upd (set_soundState_ SOUND_PLAYING) w
      else w
    else w in
  let w := upd (UpdateScreenSize h) w in
  let w := ProcessControls h w in
  let w := if backNeedsUpdate_ (dialog w) then UpdateBackBuffers w else w in
  let shouldDrawDivider := negb (is_empty (formattedLinks_ (dialog w))) in
  let w := DrawBackground 2 (5 + textureLines_ (dialog w)) w in
  let w := DrawBackground (7 + Z.of_nat DIALOG_MAX_LINES)
                          (if shouldDrawDivider then 2 else 1) w in
  (* DrawHeadModel: renders the head model entity between a save and a
     restore of the device state; it leaves no trace here. *)
  let w :=
    let d := dialog w in
    if negb (string_empty (characterName_ d)) then
      call (ExtPrint (nameFont_ d) COLOR_NORMAL (fontScale_ d)
                     (F32.to_int32
                        (F32.mul (ScreenScale.x (screenScale_ d)) (F32.of_Z 168)))
                     (F32.to_int32
                        (F32.mul (ScreenScale.y (screenScale_ d)) (F32.of_Z 28)))
                     (characterName_ d)) w
    else w in
  let w := DrawLinks w in
  let w := DrawDialogText w in
  (* Head overlay *)
  let w := DrawBackground 0 2 w in
  let d := dialog w in
  if bool_decide (soundState_ d = SOUND_PLAYING) && soundService_ d
     && negb (SoundIsPlaying h) then
    let w := SetAction "dialog_idle" w in
    upd (set_soundState_ SOUND_STOPPED) w
  else w.

(** [AttributeChanged(attributes)]: the host has changed the node
    [attributes] of the attribute tree of the entity. *)
Definition AttributeChanged (h : Host) (attributes : ATTRIBUTES) (w : World)
  : World :=
  let attributeName := GetThisName attributes in
  if iEquals attributeName "texture" then
    let w := call (TextureRelease (interfaceTexture_ (dialog w))) w in
    let '(t, w) := DoTextureCreate (GetValue attributes) w in
    upd (set_interfaceTexture_ t) w
  else if iEquals attributeName "headModel" then
    UpdateHeadModel h (GetValue attributes) w
  else if iEquals attributeName "mood" then
    upd (set_mood_ (GetValue attributes)) w
  else if iEquals attributeName "greeting" then
    let w := upd (set_soundName_ (GetValue attributes)) w in
    upd (set_soundState_ SOUND_STARTING) w
  else
    let w := upd (UpdateLinks h) w in
    upd (UpdateDialogText h) w.

(** [ProcessMessage]: message 1 brings the name of the character, taken from
    the attributes [name] and [lastname] of its entity. *)
Definition ProcessMessage (code : Z) (name_attr last_name_attr : option string)
  (w : World) : World :=
  if code =? 1 then
    let name := default "" name_attr in
    let last_name := default "" last_name_attr in
    upd (set_characterName_ (string_map toupper (name +:+ " " +:+ last_name))) w
  else w.

Definition Init (h : Host) (w : World) : World :=
  let w := upd (set_soundService_ (soundFound h)) w in
  let w := set_timeScale F32.zero w in
  let w := upd LoadIni w in
  let w := upd (UpdateScreenSize h) w in
  let texture :=
    default DEFAULT_INTERFACE_TEXTURE
            (GetAttribute (AttributesPointer (dialog w)) "texture") in
  let '(t, w) := DoTextureCreate texture w in
  let w := upd (set_interfaceTexture_ t) w in
  CreateBackBuffers w.

(** What the host does with the component after [Init]. *)
Inductive Event :=
  | EvRealize (h : Host)
      (* ProcessStage(Stage::realize, delta) *)
  | EvAttributeChanged (h : Host) (tree attributes : ATTRIBUTES)
      (* the attribute tree becomes [tree], then AttributeChanged(attributes) *)
  | EvProcessMessage (code : Z) (name_attr last_name_attr : option string).

Definition step (w : World) (e : Event) : World :=
  match e with
  | EvRealize h => Realize h w
  | EvAttributeChanged h tree attributes =>
      AttributeChanged h attributes (upd (set_AttributesPointer tree) w)
  | EvProcessMessage code n l => ProcessMessage code n l w
  end.

Definition run (w : World) (es : list Event) : World := foldl step w es.


(** ** Auxiliary definitions *)

Arguments F32.of_Z : simpl never.
Arguments F32.mul : simpl never.
Arguments F32.add : simpl never.
Arguments F32.sub : simpl never.
Arguments F32.div : simpl never.
Arguments F32.gtb : simpl never.
Arguments F32.to_int32 : simpl never.
Arguments F64.of_Z : simpl never.
Arguments F64.of_float : simpl never.
Arguments F64.div : simpl never.
Arguments F64.floor : simpl never.
Arguments F64.to_int32 : simpl never.
Arguments to_int32 : simpl never.
Arguments to_uint32 : simpl never.
Arguments to_uint16 : simpl never.
Arguments to_size_t : simpl never.
Arguments size : simpl never.
Arguments iEquals : simpl never.

(** The three blocks of [ProcessControls]. *)
Definition bDoUp (h : Host) : bool :=
  activated (GetControlState h "DlgUp")
  || activated (GetControlState h "DlgUp2")
  || activated (GetControlState h "DlgUp3").

Definition bDoDown (h : Host) : bool :=
  activated (GetControlState h "DlgDown")
  || activated (GetControlState h "DlgDown2")
  || activated (GetControlState h "DlgDown3").

Definition bDoAction (h : Host) : bool :=
  activated (GetControlState h "DlgAction")
  || activated (GetControlState h "DlgAction1")
  || activated (GetControlState h "DlgAction2").

(** The selection is a line of the list of links. *)
Definition selection_in_range (d : LegacyDialog) : Prop :=
  0 <= selectedLink_ d <= Z.of_nat (length (links_ d)) - 1.

Definition doUp (h : Host) (w : World) : World :=
  if bDoUp h && (0 <? selectedLink_ (dialog w)) then
    let w := PlayTick w in
    upd (set_selectedLink_ (to_int32 (selectedLink_ (dialog w) - 1))) w
  else w.

Definition doDown (h : Host) (w : World) : World :=
  if bDoDown h
     && (to_size_t (selectedLink_ (dialog w))
         <? to_size_t (size (links_ (dialog w)) - 1)) then
    let w := PlayTick w in
    upd (set_selectedLink_ (to_int32 (selectedLink_ (dialog w) + 1))) w
  else w.

(** What [confirm] does when the selected entry exists. *)
Definition confirm (selected_attr : ATTRIBUTES) (w : World) : World :=
  let go := GetAttribute selected_attr "go" in
  let w :=
    upd (fun d => set_AttributesPointer
                    (SetAttribute (AttributesPointer d) "CurrentNode" go) d) w in
  let w := upd (set_selectedLink_ 0) w in
  set_events (events w ++ ["DialogEvent"]) w.

(** The entry of the [Links] attribute the selection points at. *)
Definition selected_entry (d : LegacyDialog) : option ATTRIBUTES :=
  match GetAttributeClass (AttributesPointer d) "Links" with
  | Some links_attr => GetAttributeClassAt links_attr (selectedLink_ d)
  | None => None
  end.

(** The list of choices is empty: there is no [Links] attribute, or it has no
    entries. *)
Definition choices_empty (d : LegacyDialog) : Prop :=
  match GetAttributeClass (AttributesPointer d) "Links" with
  | Some links_attr => GetChildren links_attr = []
  | None => True
  end.

(** Confirm without feedback of any kind: the component, the events and the
    sounds are as before. *)
Definition confirm_is_silent_noop (h : Host) (w : World) : Prop :=
  let w' := ProcessControls h w in
  dialog w' = dialog w /\ events w' = events w /\ sounds w' = sounds w.

(** *** Hosts and worlds of the examples *)

(** The controls of a frame: those of the list are activated. *)
Definition press (names : list string) : string -> CONTROL_STATE_TYPE :=
  fun n => if existsb (String.eqb n) names then CST_ACTIVATED else CST_INACTIVE.

(** A host with the sound service, a viewport and a screen of the given
    sizes, and the given controls and elapsed time. *)
Definition host (vw vh sw sh : Z) (pressed : list string) (delta : Z) : Host :=
  mkHost vw vh sw sh (press pressed) delta true 1 true 1.

(** A component with every member zero or empty, on an attribute tree. *)
Definition blank_dialog (tree : ATTRIBUTES) : LegacyDialog :=
  mkLegacyDialog tree false "" 0 0 0 0 (ScreenScale.mk F32.zero F32.zero)
                 F32.zero 0 0 0 false 0 "" 0 "" "" SOUND_NONE 0 "" [] [] [] 0 0.

Definition blank_world (tree : ATTRIBUTES) : World :=
  mkWorld (blank_dialog tree) (mkRender [] [] 0 []) F32.zero [] [] [].

(** Text metrics of the examples: a text that is not empty makes one line,
    and every font is 20 pixels high. *)
Definition one_line (text : string) (font : Z) (scale : float) (limit : Z)
  : list string :=
  if string_empty text then [] else [text].

Definition char_height_20 (font : Z) : Z := 20.

Definition tick : string := "tick".

Definition font_of_key (key : string) : Z :=
  if String.eqb key "mainfont" then 1
  else if String.eqb key "namefont" then 2 else 3.

(** A dialog node: no text, and no links. *)
Definition node_empty : ATTRIBUTES := ATTR "dialog" None [].

(** A dialog node with a text and the choices A, B and C. *)
Definition node_abc : ATTRIBUTES :=
  ATTR "dialog" None [
    ATTR "Text" (Some "Hello traveler") [];
    ATTR "Links" None [
      ATTR "l1" (Some "A") [ATTR "go" (Some "node_a") []];
      ATTR "l2" (Some "B") [ATTR "go" (Some "node_b") []];
      ATTR "l3" (Some "C") [ATTR "go" (Some "node_c") []]
    ]
  ].

(** A dialog node with two other choices, and no text. *)
Definition node_yes_no : ATTRIBUTES :=
  ATTR "dialog" None [
    ATTR "Links" None [
      ATTR "l1" (Some "Yes") [ATTR "go" (Some "node_yes") []];
      ATTR "l2" (Some "No") [ATTR "go" (Some "exit") []]
    ]
  ].

(** A dialog node with one choice, whose text is empty. *)
Definition node_blank_link : ATTRIBUTES :=
  ATTR "dialog" None [
    ATTR "Links" None [
      ATTR "l1" (Some "") [ATTR "go" (Some "exit") []]
    ]
  ].

(** The host of a frame of the examples: an 800 by 600 viewport on an 800 by
    600 screen, 16 ms after the previous frame. *)
Definition frame (pressed : list string) : Host :=
  host 800 600 800 600 pressed 16.

(** The component after [Init], on an attribute tree. *)
Definition started (tree : ATTRIBUTES) : World :=
  Init (frame []) (blank_world tree).

(** The component after [Init] on an empty node, when the host has then
    replaced the attribute tree. *)
Definition shown (tree : ATTRIBUTES) : World :=
  step (started node_empty)
       (EvAttributeChanged (frame []) tree (ATTR "Links" None [])).

(** *** The frame and its phases *)

(** The blocks of [Realize] around the three calls [UpdateScreenSize],
    [ProcessControls] and [UpdateBackBuffers]: the start of the greeting, the
    drawing, and the end of the greeting. *)
Definition greet (h : Host) (w : World) : World :=
  let d := dialog w in
  if bool_decide (soundState_ d = SOUND_STARTING)
     && negb (string_empty (soundName_ d)) && soundService_ d then
    let w := set_sounds (sounds w ++ [soundName_ d]) w in
    let w := upd (set_currentSound_ (SoundPlay h)) w in
    if negb (currentSound_ (dialog w) =? 0) then
      let w := SetAction "dialog_all" w in
      upd (set_soundState_ SOUND_PLAYING) w
    else w
  else w.

Definition rebuild_if_needed (w : World) : World :=
  if backNeedsUpdate_ (dialog w) then UpdateBackBuffers w else w.

Definition draw (w : World) : World :=
  let shouldDrawDivider := negb (is_empty (formattedLinks_ (dialog w))) in
  let w := DrawBackground 2 (5 + textureLines_ (dialog w)) w in
  let w := DrawBackground (7 + Z.of_nat DIALOG_MAX_LINES)
                          (if shouldDrawDivider then 2 else 1) w in
  let w :=
    let d := dialog w in
    if negb (string_empty (characterName_ d)) then
      call (ExtPrint (nameFont_ d) COLOR_NORMAL (fontScale_ d)
                     (F32.to_int32
                        (F32.mul (ScreenScale.x (screenScale_ d)) (F32.of_Z 168)))
                     (F32.to_int32
                        (F32.mul (ScreenScale.y (screenScale_ d)) (F32.of_Z 28)))
                     (characterName_ d)) w
    else w in
  let w := DrawLinks w in
  let w := DrawDialogText w in
  DrawBackground 0 2 w.

Definition hush (h : Host) (w : World) : World :=
  let d := dialog w in
  if bool_decide (soundState_ d = SOUND_PLAYING) && soundService_ d
     && negb (SoundIsPlaying h) then
    let w := SetAction "dialog_idle" w in
    upd (set_soundState_ SOUND_STOPPED) w
  else w.

(** The calls that touch no buffer. *)
Definition is_draw (c : RenderCall) : bool :=
  match c with
  | TextureCreate _ | TextureRelease _ | TextureSet _ _
  | DrawBuffer _ _ _ _ _ _ _ _ | ExtPrint _ _ _ _ _ _ => true
  | _ => false
  end.

Definition is_rebuild (c : RenderCall) : bool :=
  match c with LockVertexBuffer _ => true | _ => false end.

(** The number of mesh rebuilds so far: [UpdateBackBuffers] is the one
    function that locks a vertex buffer. *)
Definition rebuilds (w : World) : nat :=
  length (List.filter is_rebuild (calls (render w))).

(** The component without the members of the head model, of the greeting and
    of the texture. *)
Definition steady_dialog (d : LegacyDialog) : LegacyDialog :=
  set_soundState_ SOUND_NONE
    (set_currentSound_ 0
       (set_soundName_ ""
          (set_mood_ ""
             (set_headModel_ 0
                (set_headModelPath_ ""
                   (set_interfaceTexture_ 0 (set_characterName_ "" d))))))).

(** What the layout, the mesh, the selector and the ramp are made of: the
    world without the head model, the greeting, the sounds, the textures and
    the calls that touch no buffer. *)
Definition core_view (w : World) :=
  (steady_dialog (dialog w),
   vertexBuffers (render w), indexBuffers (render w),
   List.filter (fun c => negb (is_draw c)) (calls (render w)),
   timeScale w, events w).

(** [w'] is [w] but for what [core_view] leaves out. *)
Definition aside (w w' : World) : Prop := core_view w' = core_view w.

(** The attributes of the dialog node: every name but the four the component
    knows. *)
Definition is_node_attribute (name : string) : bool :=
  negb (iEquals name "texture") && negb (iEquals name "headModel")
  && negb (iEquals name "mood") && negb (iEquals name "greeting").

(** The screen scale of a frame. *)
Definition hScale (h : Host) : float :=
  F32.div (F32.of_Z (vpWidth h)) (F32.of_Z (screenWidth h)).

Definition vScale (h : Host) : float :=
  F32.div (F32.of_Z (vpHeight h)) (F32.of_Z (screenHeight h)).

(** The screen scale of the frame is away from the cached one [s]: by more
    than [1e-3f], horizontally or vertically. *)
Definition scale_differs (h : Host) (s : ScreenScale.t) : bool :=
  differ (ScreenScale.x s) (hScale h) || differ (ScreenScale.y s) (vScale h).

(** The cached scale after [UpdateScreenSize]. *)
Definition next_scale (h : Host) (s : ScreenScale.t) : ScreenScale.t :=
  if scale_differs h s then ScreenScale.mk (hScale h) (vScale h) else s.

(** The epsilon of the invalidation, [1e-3f]: the binary32 number nearest to
    1/1000, which the quotient of 1 and 1000 is. *)
Definition epsilon : float := F32.div (F32.of_Z 1) (F32.of_Z 1000).

(** Two scales are apart: their difference is more than epsilon, in
    binary32. *)
Definition apart (a b : float) : bool :=
  F32.gtb (F32.fabs (F32.sub a b)) epsilon.

(** The scale of the frame is apart from the scale [s], horizontally or
    vertically. *)
Definition scale_apart (h : Host) (s : ScreenScale.t) : bool :=
  apart (ScreenScale.x s) (hScale h) || apart (ScreenScale.y s) (vScale h).

(** What the invalidation of the mesh is about: the dirty flag, the cached
    screen scale, the numbers of wrapped lines of the links and of the body,
    and the number of rebuilds. *)
Definition mesh_state (w : World) : bool * ScreenScale.t * Z * Z * nat :=
  let d := dialog w in
  (backNeedsUpdate_ d, screenScale_ d,
   size (formattedLinks_ d), size (formattedDialogText_ d), rebuilds w).

(** A frame on that state. *)
Definition mesh_frame (h : Host) (m : bool * ScreenScale.t * Z * Z * nat)
  : bool * ScreenScale.t * Z * Z * nat :=
  let '(dirty, s, links, body, n) := m in
  (false, next_scale h s, links, body,
   if dirty || scale_differs h s then S n else n).


(** The line height for a font scale. *)
Definition line_height (d : LegacyDialog) (fontScale : float) : Z :=
  F32.to_int32 (F32.mul (F32.of_Z (CharHeight (mainFont_ d))) fontScale).

(** The lines of the body text: those of [dialogText_] wrapped for the main
    font, none when the text is empty. *)
Definition wrapped_text (h : Host) (d : LegacyDialog) : list string :=
  if string_empty (dialogText_ d) then []
  else AddToStringArrayLimitedByWidth
         (dialogText_ d) (mainFont_ d) (fontScale_ d) (text_width_limit h).

(** The numbers of wrapped lines: links, body. *)
Definition line_counts (w : World) : Z * Z :=
  (size (formattedLinks_ (dialog w)), size (formattedDialogText_ (dialog w))).

(** The frame rebuilds the mesh. *)
Definition rebuilt (h : Host) (w : World) : bool :=
  (rebuilds w <? rebuilds (Realize h w))%nat.

(** The screen scale changed from one frame to the next by more than
    [1e-3f], horizontally or vertically. *)
Definition scale_changed (h1 h2 : Host) : bool :=
  differ (hScale h1) (hScale h2) || differ (vScale h1) (vScale h2).

(** A frame [h2] follows a frame [h1], with the events [es] of the host
    between them: the second frame rebuilds the mesh exactly when the screen
    scale changed from the first frame to the second, or a line count after
    [es] is not the one after the first frame. *)
Definition rebuild_exactly_on_change (w : World) (h1 : Host) (es : list Event)
  (h2 : Host) : Prop :=
  let w1 := Realize h1 w in
  let w2 := run w1 es in
  rebuilt h2 w2 = true <->
  (scale_changed h1 h2 = true \/ line_counts w2 <> line_counts w1).

(** The events [es], from the world [w] on, hold the screen scale of the
    frame [h0] and both line counts constant. *)
Fixpoint steady (h0 : Host) (w : World) (es : list Event) : Prop :=
  match es with
  | [] => True
  | e :: es' =>
      match e with
      | EvRealize h => hScale h = hScale h0 /\ vScale h = vScale h0
      | _ => line_counts (step w e) = line_counts w
      end
      /\ steady h0 (step w e) es'
  end.

(** *** The mesh of the panel *)

(** A vertex of the mesh: the local position scaled to the screen, depth 1,
    rhw 1/2, the opaque white [COLOR_NORMAL], and its texture coordinates. *)
Definition vertex_at (sx sy : float) (x y u v : float) : XI_TEX_VERTEX.t :=
  XI_TEX_VERTEX.mk (CVECTOR.mk (F32.mul sx x) (F32.mul sy y) F32.one)
                   F32.half COLOR_NORMAL u v.

(** The four vertices of a sprite: top-left, top-right, bottom-left,
    bottom-right. *)
Definition quad (sx sy : float) (s : SpriteInfo) : list XI_TEX_VERTEX.t :=
  let p := position s in
  let t := uv s in
  [vertex_at sx sy (FRECT.left p) (FRECT.top p) (FRECT.left t) (FRECT.top t);
   vertex_at sx sy (FRECT.right p) (FRECT.top p) (FRECT.right t) (FRECT.top t);
   vertex_at sx sy (FRECT.left p) (FRECT.bottom p) (FRECT.left t) (FRECT.bottom t);
   vertex_at sx sy (FRECT.right p) (FRECT.bottom p)
             (FRECT.right t) (FRECT.bottom t)].

(** The six indices of the sprite [n]: the triangles (0, 2, 1) and (1, 2, 3)
    of its four vertices. *)
Definition quad_indices (n : nat) : list Z :=
  let b := Z.of_nat n * 4 in [b + 0; b + 2; b + 1; b + 1; b + 2; b + 3].

(** The sprites of the panel, in the order of the mesh: the seven fixed
    tiles, the eight replicas of the line filler, each 26 template pixels
    above the one before, the top of the panel and the divider, each shifted
    up by its offset. *)
Definition panel (top_offset divider_offset : float) : list SpriteInfo :=
  map sprite (seq 0 7)
  ++ map (fun i => shift_up (sprite 7) (F32.of_Z (DIALOG_LINE_HEIGHT * Z.of_nat i)))
         (seq 0 DIALOG_MAX_LINES)
  ++ [shift_up (sprite 8) top_offset; shift_up (sprite 9) divider_offset].

(** [textureLines]: the lines of body and links at the current line height,
    in template pixels, over the 26 pixels of a filler row, rounded down; one
    more when there are links. *)
Definition texture_lines (bodyLines linkLines lineHeight : Z) (vScale : float)
  : Z :=
  F64.to_int32
    (F64.floor
       (F64.div
          (F64.of_float
             (F32.div (F32.of_Z ((bodyLines + linkLines) * lineHeight)) vScale))
          (F64.of_Z 26)))
  + (if linkLines =? 0 then 0 else 1).

(** The offset of the top of the panel, in template pixels. *)
Definition top_offset (textureLines : Z) : float :=
  F32.mul (F32.of_Z 26) (F32.of_Z textureLines).

(** The offset of the divider, in template pixels. *)
Definition divider_offset (linkLines lineHeight : Z) (vScale : float) : float :=
  F32.div (F32.mul (F32.of_Z linkLines) (F32.of_Z lineHeight)) vScale.

(** The four vertices of a sprite moved up by [shift] template pixels: its
    top and its bottom are less by [shift], its sides and its texture
    coordinates are as they were. *)
Definition tile_up (sx sy : float) (s : SpriteInfo) (shift : float)
  : list XI_TEX_VERTEX.t :=
  let p := position s in
  let t := uv s in
  [vertex_at sx sy (FRECT.left p) (F32.sub (FRECT.top p) shift)
             (FRECT.left t) (FRECT.top t);
   vertex_at sx sy (FRECT.right p) (F32.sub (FRECT.top p) shift)
             (FRECT.right t) (FRECT.top t);
   vertex_at sx sy (FRECT.left p) (F32.sub (FRECT.bottom p) shift)
             (FRECT.left t) (FRECT.bottom t);
   vertex_at sx sy (FRECT.right p) (F32.sub (FRECT.bottom p) shift)
             (FRECT.right t) (FRECT.bottom t)].

(** [textureLines] in the words of the spec: one more when the list of links
    is not empty. *)
Definition texture_lines_spec (bodyLines linkLines lineHeight : Z)
  (vScale : float) (links : list string) : Z :=
  F64.to_int32
    (F64.floor
       (F64.div
          (F64.of_float
             (F32.div (F32.of_Z ((bodyLines + linkLines) * lineHeight)) vScale))
          (F64.of_Z 26)))
  + (if is_empty links then 0 else 1).

(** The vertex buffer and the index buffer of the component. *)
Definition back_vertices (w : World) : list (option XI_TEX_VERTEX.t) :=
  buffer_at (vertexBuffers (render w)) (backVertexBuffer_ (dialog w)).

Definition back_indices (w : World) : list (option Z) :=
  buffer_at (indexBuffers (render w)) (backIndexBuffer_ (dialog w)).

(** The storage of the render service as far as the component may not change
    it after [Init]: the two handles, the index buffers, the sizes of the
    vertex buffers, and the vertex buffers of others. *)
Definition storage (w : World) :=
  (backVertexBuffer_ (dialog w), backIndexBuffer_ (dialog w),
   indexBuffers (render w),
   map length (vertexBuffers (render w)),
   store_buffer (vertexBuffers (render w)) (backVertexBuffer_ (dialog w)) []).

(** *** The unfade ramp *)

(** The time scale for a counter: [min (1, counter / 1000)], in binary32. *)
Definition ramp (c : Z) : float :=
  F32.min F32.one (F32.div (F32.of_Z c) (F32.of_Z UNFADE_TIME)).

(** The counter and the time scale. *)
Definition ramp_state (w : World) : Z * float :=
  (fadeTime_ (dialog w), timeScale w).

(** The time scale is the one of the counter. *)
Definition ramp_ok (w : World) : Prop :=
  0 <= fadeTime_ (dialog w) < 2 ^ 31
  /\ timeScale w = ramp (fadeTime_ (dialog w)).

(** The time between frames is not negative and fits the counter. *)
Definition frame_time_ok (e : Event) : Prop :=
  match e with
  | EvRealize h => 0 <= GetRDeltaTime h < 2 ^ 31 - 1000
  | _ => True
  end.

(** The time scales after each event of a run. *)
Fixpoint time_scales (w : World) (es : list Event) : list float :=
  match es with
  | [] => []
  | e :: es' => timeScale (step w e) :: time_scales (step w e) es'
  end.

(** Every number of the list is less or equal to those after it. *)
Fixpoint ascending (l : list float) : bool :=
  match l with
  | [] => true
  | x :: r => forallb (F32.leb x) (x :: r) && ascending r
  end.


(** *** Further views of the component *)

(** The members of the component that a frame only reads. *)
Definition frame_constants (d : LegacyDialog) :=
  (soundService_ d, characterName_ d, mainFont_ d, nameFont_ d, subFont_ d,
   interfaceTexture_ d, backVertexBuffer_ d, backIndexBuffer_ d,
   headModelPath_ d, headModel_ d, mood_ d, soundName_ d,
   dialogText_ d, formattedDialogText_ d, links_ d, formattedLinks_ d).

(** A lower-case letter of ASCII. *)
Definition is_lower (c : ascii) : bool :=
  let n := nat_of_ascii c in (97 <=? n)%nat && (n <=? 122)%nat.

(** The frame time of a run: the sum of the times of its frames. *)
Fixpoint elapsed (es : list Event) : Z :=
  match es with
  | [] => 0
  | EvRealize h :: es' => GetRDeltaTime h + elapsed es'
  | _ :: es' => elapsed es'
  end.

(** *** The calls of a frame *)

(** The render service with the calls [cs] after those it has received. *)
Definition log (cs : list RenderCall) (w : World) : World :=
  let r := render w in
  set_render (mkRender (vertexBuffers r) (indexBuffers r) (textures r)
                       (calls r ++ cs)) w.

(** The calls of [DrawBackground(start, count)]: the texture of the panel,
    and [count] sprites of the mesh from the sprite [start] on, two triangles
    each. *)
Definition background_calls (d : LegacyDialog) (start count : Z)
  : list RenderCall :=
  [TextureSet 0 (interfaceTexture_ d);
   DrawBuffer (backVertexBuffer_ d) 28 (backIndexBuffer_ d) 0 68
              (to_size_t (start * 6)) (to_size_t (count * 2))
              "texturedialogfon"].

(** The vertical position of the line [k] of a text whose first line is at
    [base], in [int32_t]. *)
Definition line_y (base lineHeight : Z) (k : nat) : Z :=
  to_int32 (base + to_int32 (Z.of_nat k * lineHeight)).

(** The name of the character, when there is one. *)
Definition name_print (d : LegacyDialog) : list RenderCall :=
  if string_empty (characterName_ d) then []
  else [ExtPrint (nameFont_ d) COLOR_NORMAL (fontScale_ d)
                 (F32.to_int32
                    (F32.mul (ScreenScale.x (screenScale_ d)) (F32.of_Z 168)))
                 (F32.to_int32
                    (F32.mul (ScreenScale.y (screenScale_ d)) (F32.of_Z 28)))
                 (characterName_ d)].

(** The lines of the links, one [lineHeight_] below the other and the last
    one line above 450 template pixels: those of the selected link in
    [COLOR_NORMAL], the others in [COLOR_LINK_UNSELECTED]. *)
Definition link_prints (d : LegacyDialog) : list RenderCall :=
  let offset := to_int32 (lineHeight_ d * to_int32 (size (formattedLinks_ d))) in
  let base :=
    F32.to_int32
      (F32.sub (F32.mul (ScreenScale.y (screenScale_ d)) (F32.of_Z 450))
               (F32.of_Z offset)) in
  imap (fun k link =>
          ExtPrint (subFont_ d)
                   (if lineIndex link =? selectedLink_ d then COLOR_NORMAL
                    else COLOR_LINK_UNSELECTED)
                   (fontScale_ d)
                   (F32.to_int32
                      (F32.mul (ScreenScale.x (screenScale_ d)) (F32.of_Z 35)))
                   (line_y base (lineHeight_ d) k) (text link))
       (formattedLinks_ d).

(** The lines of the body text, from the top of the panel down; none when
    the raw text is empty. *)
Definition text_prints (d : LegacyDialog) : list RenderCall :=
  if string_empty (dialogText_ d) then []
  else
    let base :=
      F32.to_int32
        (F32.mul (ScreenScale.y (screenScale_ d))
                 (F32.of_Z (to_int32
                              (445 - to_int32 (textureLines_ d * 26))))) in
    imap (fun k text =>
            ExtPrint (mainFont_ d) COLOR_NORMAL (fontScale_ d)
                     (F32.to_int32
                        (F32.mul (ScreenScale.x (screenScale_ d)) (F32.of_Z 35)))
                     (line_y base (lineHeight_ d) k) text)
         (formattedDialogText_ d).

(** What a frame draws, in the order of the calls: the panel with its
    [textureLines_] filler rows, the bottom of the panel with the divider when
    there are links, the name, the links, the body text, and the overlay of the
    head. *)
Definition frame_draws (d : LegacyDialog) : list RenderCall :=
  background_calls d 2 (5 + textureLines_ d)
  ++ background_calls d 15 (if is_empty (formattedLinks_ d) then 1 else 2)
  ++ name_print d ++ link_prints d ++ text_prints d
  ++ background_calls d 0 2.

(** The frame rebuilds the mesh: the dirty flag is set, or the scale of the
    frame is away from the cached one. *)
Definition frame_rebuilds (h : Host) (d : LegacyDialog) : bool :=
  backNeedsUpdate_ d || scale_differs h (screenScale_ d).

(** [LegacyDialog::~LegacyDialog] *)
Definition Destructor (w : World) : World :=
  let w := set_timeScale F32.one w in
  if negb (interfaceTexture_ (dialog w) =? 0) then
    call (TextureRelease (interfaceTexture_ (dialog w))) w
  else w.

(** The textures released so far, oldest first. *)
Definition released (w : World) : list Z :=
  flat_map (fun c => match c with TextureRelease t => [t] | _ => [] end)
           (calls (render w)).

(** The handles of [n] textures created after the texture [t0]. *)
Definition handles (t0 : Z) (n : nat) : list Z :=
  map (fun i => t0 + 1 + Z.of_nat i) (seq 0 n).

(** *** The links *)

(** The texts of the links of an attribute tree: the values of the entries
    of its [Links] attribute, in their order. *)
Definition link_values (tree : ATTRIBUTES) : list string :=
  match GetAttributeClass tree "Links" with
  | Some links_attr => map GetValue (GetChildren links_attr)
  | None => []
  end.

(** The lines of one link: its text wrapped for the font of the links, every
    line with the position of the link. *)
Definition link_lines (h : Host) (d : LegacyDialog) (i : nat) (link_text : string)
  : list LinkEntry :=
  map (fun text => mkLinkEntry text (Z.of_nat i))
      (AddToStringArrayLimitedByWidth
         link_text (subFont_ d) (fontScale_ d) (text_width_limit h)).

(** The lines of all links, link after link. *)
Definition wrapped_links (h : Host) (d : LegacyDialog) : list LinkEntry :=
  concat (imap (link_lines h d) (link_values (AttributesPointer d))).

(** *** The layout *)

(** What the mesh is made from: the cached scale, the line height and the
    numbers of wrapped lines of the body and of the links. *)
Definition layout (d : LegacyDialog) : ScreenScale.t * Z * nat * nat :=
  (screenScale_ d, lineHeight_ d,
   length (formattedDialogText_ d), length (formattedLinks_ d)).

(** *** The greeting *)



(** The body of the loop of [UpdateLinks], for the link [i]. *)
Definition link_step (h : Host) (links_attr : ATTRIBUTES) (d : LegacyDialog)
  (i : nat) : LegacyDialog :=
  let link_text :=
    match GetAttributeClassAt links_attr (Z.of_nat i) with
    | Some a => GetValue a
    | None => ""
    end in
  let d := set_links_ (links_ d ++ [link_text]) d in
  let link_texts :=
    AddToStringArrayLimitedByWidth
      link_text (subFont_ d) (fontScale_ d) (text_width_limit h) in
  set_formattedLinks_
    (formattedLinks_ d
     ++ map (fun text => mkLinkEntry text (to_int32 (Z.of_nat i))) link_texts) d.

(** The lists [UpdateLinks] builds, before it looks at the dirty flag. *)
Definition links_read (h : Host) (d : LegacyDialog) : LegacyDialog :=
  let d0 := set_formattedLinks_ [] (set_links_ [] d) in
  match GetAttributeClass (AttributesPointer d) "Links" with
  | Some links_attr =>
      foldl (link_step h links_attr) d0
            (seq 0 (Z.to_nat (GetAttributesNum links_attr)))
  | None => d0
  end.

(** *** What is drawn *)

(** Every vertex of the mesh has been written. *)
Definition mesh_written (w : World) : Prop :=
  Forall (fun v => is_Some v) (back_vertices w).

(** A call that draws reads the indices from [startIndex] on, three for a
    triangle, within the first [n] indices. *)
Definition reads_within (n : Z) (c : RenderCall) : Prop :=
  match c with
  | DrawBuffer _ _ _ _ _ startIndex numTriangles _ =>
      0 <= startIndex /\ startIndex + 3 * numTriangles <= n
  | _ => True
  end.

(** *** Further hosts and nodes of the examples *)

(** A host whose frame took 250 ms. *)
Definition quarter : Host := host 800 600 800 600 [] 250.

(** Another dialog node with one line of text and three choices. *)
Definition node_xyz : ATTRIBUTES :=
  ATTR "dialog" None [
    ATTR "Text" (Some "Where to?") [];
    ATTR "Links" None [
      ATTR "l1" (Some "X") [ATTR "go" (Some "node_x") []];
      ATTR "l2" (Some "Y") [ATTR "go" (Some "node_y") []];
      ATTR "l3" (Some "Z") [ATTR "go" (Some "node_z") []]
    ]
  ].
(** ** Properties *)

Lemma to_int32_id z : INT32_MIN <= z <= INT32_MAX -> to_int32 z = z.
Proof.
  unfold to_int32, INT32_MIN, INT32_MAX. intros Hz.
  rewrite Z.mod_small by lia. lia.
Qed.

Lemma to_size_t_id z : 0 <= z < 2 ^ 64 -> to_size_t z = z.
Proof. intros Hz. unfold to_size_t. now rewrite Z.mod_small. Qed.

Lemma to_uint32_id z : 0 <= z < 2 ^ 32 -> to_uint32 z = z.
Proof. intros Hz. unfold to_uint32. now rewrite Z.mod_small. Qed.

Lemma SFto_int32_range x : INT32_MIN <= SFto_int32 x <= INT32_MAX.
Proof.
  unfold SFto_int32.
  destruct (SFtrunc x) as [z|]; [|unfold INT32_MIN, INT32_MAX; lia].
  destruct ((INT32_MIN <=? z) && (z <=? INT32_MAX)) eqn:E;
    [|unfold INT32_MIN, INT32_MAX; lia].
  apply andb_true_iff in E as [E1 E2]. apply Z.leb_le in E1, E2. lia.
Qed.

Lemma size_length {A} (l : list A) :
  Z.of_nat (length l) < 2 ^ 64 -> size l = Z.of_nat (length l).
Proof. intros Hl. unfold size. apply to_size_t_id. lia. Qed.

(** *** The link selector *)

Lemma ProcessControls_blocks h w :
  ProcessControls h w =
  let w := doDown h (doUp h w) in
  if bDoAction h then
    let w := PlayTick w in
    match selected_entry (dialog w) with
    | Some selected_attr => confirm selected_attr w
    | None => w
    end
  else w.
Proof.
  unfold ProcessControls, doDown, doUp, selected_entry, confirm.
  fold (bDoUp h) (bDoDown h) (bDoAction h). cbv zeta.
  destruct (bDoAction h); [|reflexivity].
  match goal with |- context [GetAttributeClass ?a ?n] =>
    destruct (GetAttributeClass a n) end; reflexivity.
Qed.

Lemma PlayTick_dialog w : dialog (PlayTick w) = dialog w.
Proof. unfold PlayTick. now destruct (soundService_ (dialog w)). Qed.

Lemma PlayTick_events w : events (PlayTick w) = events w.
Proof. unfold PlayTick. now destruct (soundService_ (dialog w)). Qed.

Lemma PlayTick_sounds w :
  sounds (PlayTick w) =
  if soundService_ (dialog w) then (sounds w ++ [TICK_SOUND])%list
  else sounds w.
Proof. unfold PlayTick. now destruct (soundService_ (dialog w)). Qed.

Lemma doUp_inactive h w : bDoUp h = false -> doUp h w = w.
Proof. intros Hu. unfold doUp. now rewrite Hu. Qed.

Lemma doDown_inactive h w : bDoDown h = false -> doDown h w = w.
Proof. intros Hd. unfold doDown. now rewrite Hd. Qed.

Lemma doUp_at_top h w : selectedLink_ (dialog w) = 0 -> doUp h w = w.
Proof. intros H0. unfold doUp. rewrite H0. now rewrite andb_false_r. Qed.

Lemma doUp_attributes h w :
  AttributesPointer (dialog (doUp h w)) = AttributesPointer (dialog w)
  /\ events (doUp h w) = events w
  /\ links_ (dialog (doUp h w)) = links_ (dialog w).
Proof.
  unfold doUp. destruct (_ && _); cbn; rewrite ?PlayTick_dialog, ?PlayTick_events; auto.
Qed.

Lemma doDown_attributes h w :
  AttributesPointer (dialog (doDown h w)) = AttributesPointer (dialog w)
  /\ events (doDown h w) = events w
  /\ links_ (dialog (doDown h w)) = links_ (dialog w).
Proof.
  unfold doDown. destruct (_ && _); cbn; rewrite ?PlayTick_dialog, ?PlayTick_events; auto.
Qed.

Lemma iEquals_refl a : iEquals a a = true.
Proof. unfold iEquals. apply String.eqb_refl. Qed.

Lemma GetAttribute_SetAttribute a n v :
  GetAttribute (SetAttribute a n v) n = v.
Proof.
  destruct a as [n0 v0 cs]. unfold GetAttribute, GetAttributeClass. cbn.
  induction cs as [|[n' v' cs'] rest IH]; cbn.
  - now rewrite iEquals_refl.
  - destruct (iEquals n' n) eqn:E; cbn; rewrite E; [reflexivity | exact IH].
Qed.

(** Moving up from the first line: the selection stays and no tick is
    played. *)
Lemma up_at_first_line h w :
  selectedLink_ (dialog w) = 0 -> bDoDown h = false -> bDoAction h = false ->
  ProcessControls h w = w.
Proof.
  intros H0 Hd Ha. rewrite ProcessControls_blocks. cbv zeta.
  rewrite Ha, (doUp_at_top _ _ H0). now apply doDown_inactive.
Qed.

(** Moving down from the last line of a list that is not empty: the selection
    stays and no tick is played. *)
Lemma down_at_last_line h w :
  links_ (dialog w) <> [] ->
  Z.of_nat (length (links_ (dialog w))) < 2 ^ 31 ->
  selectedLink_ (dialog w) = Z.of_nat (length (links_ (dialog w))) - 1 ->
  bDoUp h = false -> bDoAction h = false ->
  ProcessControls h w = w.
Proof.
  intros Hne Hlen Hsel Hu Ha. rewrite ProcessControls_blocks. cbv zeta.
  rewrite Ha, (doUp_inactive _ _ Hu). unfold doDown.
  destruct (links_ (dialog w)) as [|l ls] eqn:El; [easy|].
  rewrite Hsel, size_length by lia.
  rewrite Z.ltb_irrefl. now rewrite andb_false_r.
Qed.

(** On a list that is not empty the controls keep the selection on a line of
    the list. *)
Lemma selection_stays_in_range h w :
  Z.of_nat (length (links_ (dialog w))) < 2 ^ 31 ->
  selection_in_range (dialog w) ->
  selection_in_range (dialog (ProcessControls h w)).
Proof.
  intros Hlen [Hlo Hhi]. rewrite ProcessControls_blocks. cbv zeta.
  assert (Hup : selection_in_range (dialog (doUp h w))
                /\ links_ (dialog (doUp h w)) = links_ (dialog w)).
  { split; [|apply doUp_attributes].
    unfold doUp, selection_in_range.
    destruct (bDoUp h && (0 <? selectedLink_ (dialog w))) eqn:E; cbn.
    - rewrite PlayTick_dialog. apply andb_true_iff in E as [_ E].
      apply Z.ltb_lt in E. rewrite to_int32_id; unfold INT32_MIN, INT32_MAX; lia.
    - lia. }
  destruct Hup as [[Hlo1 Hhi1] Hl1].
  set (w1 := doUp h w) in *.
  assert (Hdown : selection_in_range (dialog (doDown h w1))
                  /\ links_ (dialog (doDown h w1)) = links_ (dialog w)).
  { split; [|rewrite <- Hl1; apply doDown_attributes].
    unfold doDown, selection_in_range.
    destruct (bDoDown h && _) eqn:E; cbn.
    - rewrite PlayTick_dialog. apply andb_true_iff in E as [_ E].
      apply Z.ltb_lt in E. rewrite Hl1 in *.
      rewrite size_length in E by lia.
      rewrite !to_size_t_id in E by lia.
      rewrite to_int32_id; unfold INT32_MIN, INT32_MAX; lia.
    - lia. }
  destruct Hdown as [Hr2 Hl2].
  set (w2 := doDown h w1) in *.
  destruct (bDoAction h); [|exact Hr2].
  rewrite PlayTick_dialog.
  destruct (selected_entry (dialog w2)); cbn.
  - unfold selection_in_range in *. cbn. rewrite PlayTick_dialog. lia.
  - rewrite PlayTick_dialog. exact Hr2.
Qed.

(** C2, on the empty list: the test of the block of [DlgDown] compares the
    selection with [links_.size() - 1], which wraps to the largest [size_t]
    when the list is empty, so that a press moves the selection from 0 to 1,
    off the list, and plays the tick. *)
Theorem down_on_empty_list h w :
  links_ (dialog w) = [] ->
  selectedLink_ (dialog w) = 0 ->
  bDoDown h = true ->
  bDoAction h = false ->
  let w' := ProcessControls h w in
  selectedLink_ (dialog w') = 1
  /\ sounds w' =
     (if soundService_ (dialog w) then (sounds w ++ [TICK_SOUND])%list
  else sounds w).
Proof.
  intros Hl Hs Hd Ha. cbv zeta. rewrite ProcessControls_blocks. cbv zeta.
  rewrite Ha, (doUp_at_top _ _ Hs). unfold doDown.
  rewrite Hd, Hl, Hs.
  assert (Hwrap : (to_size_t 0 <? to_size_t (@size string [] - 1)) = true)
    by reflexivity.
  rewrite Hwrap. cbn.
  rewrite PlayTick_dialog, Hs, PlayTick_sounds. split; reflexivity.
Qed.

(** C4: when confirm is activated and the entry of the [Links] attribute at
    the selection exists, the [go] attribute of that entry is written to the
    attribute [CurrentNode], the event [DialogEvent] is raised, and the
    selection returns to 0.  The selection is the one the blocks of up and
    down of the same frame leave. *)
Theorem confirm_goes_to_target h w selected_attr :
  bDoAction h = true ->
  selected_entry (dialog (doDown h (doUp h w))) = Some selected_attr ->
  let w' := ProcessControls h w in
  AttributesPointer (dialog w') =
    SetAttribute (AttributesPointer (dialog w)) "CurrentNode"
                 (GetAttribute selected_attr "go")
  /\ GetAttribute (AttributesPointer (dialog w')) "CurrentNode" =
       GetAttribute selected_attr "go"
  /\ events w' = (events w ++ ["DialogEvent"])%list
  /\ selectedLink_ (dialog w') = 0.
Proof.
  intros Ha Hsel. cbv zeta. rewrite ProcessControls_blocks. cbv zeta.
  rewrite Ha, PlayTick_dialog, Hsel.
  destruct (doDown_attributes h (doUp h w)) as (Ha2 & He2 & _).
  destruct (doUp_attributes h w) as (Ha1 & He1 & _).
  unfold confirm. cbn. rewrite !PlayTick_dialog, PlayTick_events.
  rewrite Ha2, Ha1, He2, He1, GetAttribute_SetAttribute. auto.
Qed.

(** C6, amended: when confirm is activated while the list of choices is
    empty, the attributes are as before and no event is raised; when neither
    up nor down is activated with it, the whole effect is the tick: the
    component is as before, and the tick is played if there is a sound
    service. *)
Theorem confirm_on_empty_list h w :
  choices_empty (dialog w) ->
  bDoAction h = true ->
  let w' := ProcessControls h w in
  AttributesPointer (dialog w') = AttributesPointer (dialog w)
  /\ events w' = events w
  /\ (bDoUp h = false -> bDoDown h = false ->
      w' = PlayTick w
      /\ dialog w' = dialog w
      /\ sounds w' =
         (if soundService_ (dialog w) then (sounds w ++ [TICK_SOUND])%list
          else sounds w)).
Proof.
  intros Hempty Ha. cbv zeta. rewrite ProcessControls_blocks. cbv zeta.
  rewrite Ha, PlayTick_dialog.
  destruct (doDown_attributes h (doUp h w)) as (Ha2 & He2 & _).
  destruct (doUp_attributes h w) as (Ha1 & He1 & _).
  assert (Hnone : selected_entry (dialog (doDown h (doUp h w))) = None).
  { unfold selected_entry, choices_empty in *. rewrite Ha2, Ha1.
    destruct (GetAttributeClass _ _) as [la|]; [|reflexivity].
    unfold GetAttributeClassAt. rewrite Hempty.
    destruct (_ <? 0); [reflexivity | apply lookup_nil]. }
  rewrite Hnone, ?PlayTick_dialog, ?PlayTick_events.
  split; [congruence|]. split; [congruence|].
  intros Hu Hd. rewrite (doUp_inactive _ _ Hu), (doDown_inactive _ _ Hd).
  now rewrite ?PlayTick_dialog, PlayTick_sounds.
Qed.

(** *** The phases of a frame *)

Lemma Realize_phases h w :
  Realize h w =
  hush h (draw (rebuild_if_needed
                  (ProcessControls h
                     (upd (UpdateScreenSize h) (greet h (Unfade h w)))))).
Proof.
  unfold Realize, hush, draw, rebuild_if_needed, greet. reflexivity.
Qed.

Lemma aside_refl w : aside w w.
Proof. reflexivity. Qed.

Lemma aside_trans w1 w2 w3 : aside w1 w2 -> aside w2 w3 -> aside w1 w3.
Proof. unfold aside. congruence. Qed.

Lemma aside_call c w : is_draw c = true -> aside w (call c w).
Proof.
  intros Hc. unfold aside, core_view, call. cbn.
  rewrite List.filter_app. cbn. rewrite Hc. cbn. now rewrite app_nil_r.
Qed.

Lemma aside_upd (g : LegacyDialog -> LegacyDialog) w :
  (forall d, steady_dialog (g d) = steady_dialog d) -> aside w (upd g w).
Proof. intros Hg. unfold aside, core_view, upd. cbn. now rewrite Hg. Qed.

Lemma aside_set_sounds snd w : aside w (set_sounds snd w).
Proof. reflexivity. Qed.

Lemma aside_set_animations an w : aside w (set_animations an w).
Proof. reflexivity. Qed.

Lemma aside_SetAction a w : aside w (SetAction a w).
Proof.
  unfold SetAction.
  destruct (_ =? 0); [apply aside_refl | apply aside_set_animations].
Qed.

Lemma aside_greet h w : aside w (greet h w).
Proof.
  unfold greet. destruct (_ && _ && _); [|apply aside_refl].
  cbv zeta.
  set (w1 := set_sounds _ w).
  set (w2 := upd _ w1).
  assert (H2 : aside w w2).
  { apply (aside_trans _ w1); [apply aside_set_sounds|].
    apply aside_upd. reflexivity. }
  destruct (negb _); [|exact H2].
  apply (aside_trans _ _ _ H2).
  eapply aside_trans; [apply aside_SetAction|].
  apply aside_upd. reflexivity.
Qed.

Lemma aside_hush h w : aside w (hush h w).
Proof.
  unfold hush. destruct (_ && _ && _); [|apply aside_refl].
  eapply aside_trans; [apply aside_SetAction|].
  apply aside_upd. reflexivity.
Qed.

Lemma aside_DrawBackground s c w : aside w (DrawBackground s c w).
Proof.
  unfold DrawBackground.
  eapply aside_trans; apply aside_call; reflexivity.
Qed.

Lemma aside_fold {A} (g : World * Z -> A -> World * Z) (l : list A) w z :
  (forall w z a, aside w (fst (g (w, z) a))) ->
  aside w (fst (foldl g (w, z) l)).
Proof.
  intros Hg. revert w z.
  induction l as [|a l IH]; intros w z; [apply aside_refl|].
  cbn. specialize (Hg w z a). destruct (g (w, z) a) as [w1 z1].
  eapply aside_trans; [exact Hg | apply IH].
Qed.

Lemma aside_DrawLinks w : aside w (DrawLinks w).
Proof.
  unfold DrawLinks. destruct (negb _); [|apply aside_refl].
  apply aside_fold. intros w0 z a. cbn. apply aside_call. reflexivity.
Qed.

Lemma aside_DrawDialogText w : aside w (DrawDialogText w).
Proof.
  unfold DrawDialogText. destruct (negb _); [|apply aside_refl].
  apply aside_fold. intros w0 z a. cbn. apply aside_call. reflexivity.
Qed.

Lemma aside_draw w : aside w (draw w).
Proof.
  unfold draw. cbv zeta.
  match goal with |- context [DrawLinks ?x] => set (w3 := x) end.
  assert (H3 : aside w w3).
  { subst w3.
    eapply aside_trans; [apply aside_DrawBackground|].
    eapply aside_trans; [apply aside_DrawBackground|].
    destruct (negb _); [apply aside_call; reflexivity | apply aside_refl]. }
  apply (aside_trans _ _ _ H3).
  eapply aside_trans; [apply aside_DrawLinks|].
  eapply aside_trans; [apply aside_DrawDialogText|].
  apply aside_DrawBackground.
Qed.

(** What [aside] keeps. *)
Lemma aside_field {A} (f : LegacyDialog -> A) w w' :
  (forall d, f (steady_dialog d) = f d) ->
  aside w w' -> f (dialog w') = f (dialog w).
Proof.
  intros Hf H. rewrite <- (Hf (dialog w')), <- (Hf (dialog w)).
  unfold aside, core_view in H. congruence.
Qed.

Lemma aside_buffers w w' :
  aside w w' ->
  vertexBuffers (render w') = vertexBuffers (render w)
  /\ indexBuffers (render w') = indexBuffers (render w).
Proof. unfold aside, core_view. intros H. split; congruence. Qed.

Lemma aside_timeScale w w' : aside w w' -> timeScale w' = timeScale w.
Proof. unfold aside, core_view. congruence. Qed.

Lemma aside_events w w' : aside w w' -> events w' = events w.
Proof. unfold aside, core_view. congruence. Qed.

Lemma rebuilds_filter cs :
  List.filter is_rebuild (List.filter (fun c => negb (is_draw c)) cs) =
  List.filter is_rebuild cs.
Proof.
  induction cs as [|c cs IH]; [reflexivity|].
  destruct c; cbn; rewrite ?IH; reflexivity.
Qed.

Lemma aside_rebuilds w w' : aside w w' -> rebuilds w' = rebuilds w.
Proof.
  unfold aside, core_view, rebuilds. intros H.
  rewrite <- (rebuilds_filter (calls (render w'))).
  rewrite <- (rebuilds_filter (calls (render w))). congruence.
Qed.

(** *** The steps of the component *)

Lemma UpdateScreenSize_eq h d :
  UpdateScreenSize h d =
  let fontScale := F32.div (F32.of_Z (vpHeight h)) (F32.of_Z 600) in
  set_lineHeight_
    (if differ fontScale (fontScale_ d) then line_height d fontScale
     else lineHeight_ d)
    (set_fontScale_ fontScale
       (set_backNeedsUpdate_
          (backNeedsUpdate_ d || scale_differs h (screenScale_ d))
          (set_screenScale_ (next_scale h (screenScale_ d)) d))).
Proof.
  unfold UpdateScreenSize, next_scale, scale_differs, line_height.
  fold (hScale h) (vScale h).
  destruct d. cbn.
  destruct (_ || _); cbn; destruct (differ _ _); cbn;
    rewrite ?orb_true_r, ?orb_false_r; reflexivity.
Qed.

(** The loop of [UpdateLinks] writes [links_] and [formattedLinks_]. *)
Lemma UpdateLinks_loop h links_attr (l : list nat) d :
  let r :=
    foldl (fun d i =>
             let link_text :=
               match GetAttributeClassAt links_attr (Z.of_nat i) with
               | Some a => GetValue a
               | None => ""
               end in
             let d := set_links_ (links_ d ++ [link_text]) d in
             let link_texts :=
               AddToStringArrayLimitedByWidth
                 link_text (subFont_ d) (fontScale_ d) (text_width_limit h) in
             set_formattedLinks_
               (formattedLinks_ d
                ++ map (fun text => mkLinkEntry text (to_int32 (Z.of_nat i)))
                       link_texts) d) d l in
  r = set_formattedLinks_ (formattedLinks_ r) (set_links_ (links_ r) d).
Proof.
  revert d. induction l as [|i l IH]; intros d; cbn.
  - now destruct d.
  - cbv zeta in IH. rewrite IH at 1. reflexivity.
Qed.

Lemma UpdateLinks_eq h d :
  let d' := UpdateLinks h d in
  d' = set_backNeedsUpdate_
         (backNeedsUpdate_ d
          || bool_decide (size (formattedLinks_ d) ≠ size (formattedLinks_ d')))
         (set_formattedLinks_ (formattedLinks_ d') (set_links_ (links_ d') d)).
Proof.
  cbv zeta. unfold UpdateLinks. cbv zeta.
  match goal with
  | |- context [bool_decide (?a ≠ size (formattedLinks_ ?r))] =>
      set (r0 := r);
      assert (Hr : r0 = set_formattedLinks_ (formattedLinks_ r0)
                                            (set_links_ (links_ r0) d))
  end.
  { subst r0. destruct (GetAttributeClass _ _) as [links_attr|].
    - match goal with |- foldl ?f ?d0 ?l = _ =>
        pose proof (UpdateLinks_loop h links_attr l d0) as E end.
      cbv zeta in E. rewrite E at 1. reflexivity.
    - now destruct d. }
  destruct (bool_decide (size (formattedLinks_ d) ≠ size (formattedLinks_ r0)))
    eqn:E.
  - cbn [formattedLinks_ links_ set_backNeedsUpdate_].
    rewrite E, orb_true_r. rewrite Hr at 1. reflexivity.
  - rewrite E, orb_false_r. rewrite Hr at 1. now destruct d.
Qed.

Lemma UpdateDialogText_eq h d :
  let text := default (dialogText_ d) (GetAttribute (AttributesPointer d) "Text") in
  let lines := wrapped_text h (set_dialogText_ text d) in
  UpdateDialogText h d =
  set_backNeedsUpdate_
    (backNeedsUpdate_ d
     || bool_decide (size (formattedDialogText_ d) ≠ size lines))
    (set_formattedDialogText_ lines (set_dialogText_ text d)).
Proof.
  unfold UpdateDialogText, wrapped_text. destruct d. cbn.
  destruct (GetAttribute _ _); cbn;
    destruct (string_empty _); cbn;
    destruct (bool_decide _); cbn;
    rewrite ?orb_true_r, ?orb_false_r; reflexivity.
Qed.

Lemma AttributeChanged_node h a w :
  is_node_attribute (GetThisName a) = true ->
  AttributeChanged h a w = upd (UpdateDialogText h) (upd (UpdateLinks h) w).
Proof.
  unfold is_node_attribute, AttributeChanged. intros H.
  apply andb_true_iff in H as [H H4]. apply andb_true_iff in H as [H H3].
  apply andb_true_iff in H as [H1 H2].
  apply negb_true_iff in H1, H2, H3, H4. now rewrite H1, H2, H3, H4.
Qed.

(** A change of one of the four attributes the component knows leaves the
    layout alone. *)
Lemma AttributeChanged_other h a w :
  is_node_attribute (GetThisName a) = false ->
  aside w (AttributeChanged h a w).
Proof.
  unfold is_node_attribute, AttributeChanged. intros H.
  destruct (iEquals _ "texture").
  { unfold DoTextureCreate.
    set (w1 := call (TextureRelease _) w).
    assert (H1 : aside w w1) by (apply aside_call; reflexivity).
    apply (aside_trans _ _ _ H1).
    eapply aside_trans; [|apply aside_upd; reflexivity].
    eapply aside_trans; [|apply aside_call; reflexivity].
    unfold aside, core_view. reflexivity. }
  destruct (iEquals _ "headModel").
  { unfold UpdateHeadModel. destruct (bool_decide _); [|apply aside_refl].
    eapply aside_trans; [|apply aside_SetAction].
    eapply aside_trans; apply aside_upd; reflexivity. }
  destruct (iEquals _ "mood"); [apply aside_upd; reflexivity|].
  destruct (iEquals _ "greeting").
  { eapply aside_trans; apply aside_upd; reflexivity. }
  discriminate H.
Qed.

Lemma ProcessMessage_aside c n l w : aside w (ProcessMessage c n l w).
Proof.
  unfold ProcessMessage.
  destruct (c =? 1); [apply aside_upd; reflexivity | apply aside_refl].
Qed.

(** [ProcessControls] writes the selection, the attribute [CurrentNode], the
    sounds and the events. *)
Lemma ProcessControls_frame h w :
  let w' := ProcessControls h w in
  w' =
  set_events (events w')
    (set_sounds (sounds w')
       (upd (set_AttributesPointer (AttributesPointer (dialog w')))
            (upd (set_selectedLink_ (selectedLink_ (dialog w'))) w))).
Proof.
  cbv zeta. rewrite ProcessControls_blocks.
  unfold doUp, doDown, PlayTick, confirm, selected_entry.
  destruct w as [d r ts ev snd an]. destruct d. cbn.
  repeat match goal with
         | |- context [if ?b then _ else _] => destruct b; cbn
         | |- context [match ?o with Some _ => _ | None => _ end] =>
             destruct o; cbn
         end;
    reflexivity.
Qed.

(** [Unfade] writes the counter and the time scale. *)
Lemma Unfade_frame h w :
  let w' := Unfade h w in
  w' = set_timeScale (timeScale w') (upd (set_fadeTime_ (fadeTime_ (dialog w'))) w).
Proof.
  cbv zeta. unfold Unfade. destruct w as [d r ts ev snd an]. destruct d. cbn.
  destruct (_ <=? _); reflexivity.
Qed.

(** *** The invalidation of the mesh *)

Lemma mesh_state_flag w :
  fst (fst (fst (fst (mesh_state w)))) = backNeedsUpdate_ (dialog w).
Proof. reflexivity. Qed.

Lemma mesh_state_scale w :
  snd (fst (fst (fst (mesh_state w)))) = screenScale_ (dialog w).
Proof. reflexivity. Qed.

Lemma mesh_state_counts w :
  (snd (fst (fst (mesh_state w))), snd (fst (mesh_state w))) = line_counts w.
Proof. reflexivity. Qed.

Lemma mesh_state_rebuilds w : snd (mesh_state w) = rebuilds w.
Proof. reflexivity. Qed.

Lemma mesh_frame_rebuilds h m :
  snd (mesh_frame h m) =
  if fst (fst (fst (fst m))) || scale_differs h (snd (fst (fst (fst m))))
  then S (snd m) else snd m.
Proof. now destruct m as [[[[dirty s] links] body] n]. Qed.

Lemma mesh_frame_flag h m : fst (fst (fst (fst (mesh_frame h m)))) = false.
Proof. now destruct m as [[[[dirty s] links] body] n]. Qed.

Lemma mesh_frame_scale h m :
  snd (fst (fst (fst (mesh_frame h m)))) =
  next_scale h (snd (fst (fst (fst m)))).
Proof. now destruct m as [[[[dirty s] links] body] n]. Qed.

Lemma mesh_frame_counts h m :
  (snd (fst (fst (mesh_frame h m))), snd (fst (mesh_frame h m))) =
  (snd (fst (fst m)), snd (fst m)).
Proof. now destruct m as [[[[dirty s] links] body] n]. Qed.

Lemma mesh_state_aside w w' : aside w w' -> mesh_state w' = mesh_state w.
Proof.
  intros H. unfold mesh_state.
  rewrite (aside_rebuilds _ _ H).
  rewrite (aside_field backNeedsUpdate_ _ _ (fun _ => eq_refl) H).
  rewrite (aside_field screenScale_ _ _ (fun _ => eq_refl) H).
  rewrite (aside_field formattedLinks_ _ _ (fun _ => eq_refl) H).
  rewrite (aside_field formattedDialogText_ _ _ (fun _ => eq_refl) H).
  reflexivity.
Qed.

Lemma mesh_state_Unfade h w : mesh_state (Unfade h w) = mesh_state w.
Proof. rewrite Unfade_frame. reflexivity. Qed.

Lemma mesh_state_ProcessControls h w :
  mesh_state (ProcessControls h w) = mesh_state w.
Proof.
  rewrite ProcessControls_frame. reflexivity.
Qed.

Lemma mesh_state_UpdateScreenSize h w :
  mesh_state (upd (UpdateScreenSize h) w) =
  let '(dirty, s, links, body, n) := mesh_state w in
  (dirty || scale_differs h s, next_scale h s, links, body, n).
Proof.
  unfold mesh_state, upd. cbn [dialog set_dialog].
  rewrite UpdateScreenSize_eq. reflexivity.
Qed.

Lemma rebuilds_UpdateBackBuffers w :
  rebuilds (UpdateBackBuffers w) = S (rebuilds w).
Proof.
  unfold rebuilds, UpdateBackBuffers. cbn.
  rewrite <- app_assoc, List.filter_app, length_app. cbn. lia.
Qed.

Lemma mesh_state_rebuild_if_needed w :
  mesh_state (rebuild_if_needed w) =
  let '(dirty, s, links, body, n) := mesh_state w in
  (false, s, links, body, if dirty then S n else n).
Proof.
  unfold rebuild_if_needed, mesh_state.
  destruct (backNeedsUpdate_ (dialog w)) eqn:E.
  - rewrite rebuilds_UpdateBackBuffers. reflexivity.
  - rewrite E. reflexivity.
Qed.

(** A frame rebuilds the mesh when the dirty flag is set or the screen scale
    is away from the cached one, and leaves the flag cleared. *)
Lemma mesh_state_Realize h w :
  mesh_state (Realize h w) = mesh_frame h (mesh_state w).
Proof.
  rewrite Realize_phases.
  rewrite (mesh_state_aside _ _ (aside_hush _ _)).
  rewrite (mesh_state_aside _ _ (aside_draw _)).
  rewrite mesh_state_rebuild_if_needed, mesh_state_ProcessControls.
  rewrite mesh_state_UpdateScreenSize.
  rewrite (mesh_state_aside _ _ (aside_greet _ _)), mesh_state_Unfade.
  unfold mesh_frame. now destruct (mesh_state w) as [[[[dirty s] links] body] n].
Qed.

Lemma UpdateLinks_field {A} (f : LegacyDialog -> A) h d :
  (forall d a b c,
     f (set_backNeedsUpdate_ a (set_formattedLinks_ b (set_links_ c d))) = f d) ->
  f (UpdateLinks h d) = f d.
Proof. intros Hf. rewrite UpdateLinks_eq. apply Hf. Qed.

Lemma UpdateLinks_flag h d :
  backNeedsUpdate_ (UpdateLinks h d) =
  backNeedsUpdate_ d
  || bool_decide (size (formattedLinks_ d) ≠ size (formattedLinks_ (UpdateLinks h d))).
Proof. rewrite UpdateLinks_eq at 1. reflexivity. Qed.

(** A change of an attribute of the dialog node sets the dirty flag when a
    line count changes, and only then. *)
Lemma mesh_state_node_attribute h a w :
  is_node_attribute (GetThisName a) = true ->
  let w' := AttributeChanged h a w in
  mesh_state w' =
  (backNeedsUpdate_ (dialog w)
   || bool_decide (size (formattedLinks_ (dialog w))
                   ≠ size (formattedLinks_ (dialog w')))
   || bool_decide (size (formattedDialogText_ (dialog w))
                   ≠ size (formattedDialogText_ (dialog w'))),
   screenScale_ (dialog w),
   size (formattedLinks_ (dialog w')), size (formattedDialogText_ (dialog w')),
   rebuilds w).
Proof.
  intros Hn. cbv zeta. rewrite (AttributeChanged_node _ _ _ Hn).
  unfold mesh_state, upd, rebuilds. cbn [dialog set_dialog render].
  set (dl := UpdateLinks h (dialog w)).
  rewrite UpdateDialogText_eq. cbn.
  subst dl.
  rewrite (UpdateLinks_field formattedDialogText_) by reflexivity.
  rewrite (UpdateLinks_field screenScale_) by reflexivity.
  rewrite UpdateLinks_flag. reflexivity.
Qed.

Lemma differ_refl a : differ a a = false.
Proof.
  unfold differ, F32.gtb, F32.fabs, F32.sub, SFsub.
  destruct a as [[|]|[|]| |s m e]; try reflexivity.
  rewrite Z.sub_diag. reflexivity.
Qed.

Lemma scale_differs_next h s : scale_differs h (next_scale h s) = false.
Proof.
  unfold next_scale. destruct (scale_differs h s) eqn:E; [|exact E].
  unfold scale_differs. cbn. now rewrite !differ_refl.
Qed.

(** C10: when the host changes an attribute while the tree has no [Text]
    attribute, the raw text of the dialog is kept; for an attribute of the
    dialog node the wrapped lines are computed again from the text kept, and
    for [texture], [headModel], [mood] and [greeting] the wrapped lines are
    kept as well. *)
Theorem dialog_text_persists h tree a w :
  GetAttribute tree "Text" = None ->
  let w' := step w (EvAttributeChanged h tree a) in
  dialogText_ (dialog w') = dialogText_ (dialog w)
  /\ (is_node_attribute (GetThisName a) = true ->
      formattedDialogText_ (dialog w') = wrapped_text h (dialog w))
  /\ (is_node_attribute (GetThisName a) = false ->
      formattedDialogText_ (dialog w') = formattedDialogText_ (dialog w)).
Proof.
  intros Htext. cbv zeta. unfold step.
  set (w0 := upd (set_AttributesPointer tree) w).
  destruct (is_node_attribute (GetThisName a)) eqn:Hn.
  - rewrite (AttributeChanged_node _ _ _ Hn).
    subst w0. unfold upd. cbn [dialog set_dialog].
    set (d0 := set_AttributesPointer tree (dialog w)).
    rewrite UpdateDialogText_eq. cbv zeta.
    rewrite (UpdateLinks_field AttributesPointer) by reflexivity.
    change (AttributesPointer d0) with tree. rewrite Htext.
    cbn [default dialogText_ formattedDialogText_ set_backNeedsUpdate_
         set_formattedDialogText_ set_dialogText_].
    unfold wrapped_text.
    cbn [dialogText_ mainFont_ fontScale_ set_dialogText_].
    rewrite (UpdateLinks_field dialogText_) by reflexivity.
    rewrite (UpdateLinks_field mainFont_) by reflexivity.
    rewrite (UpdateLinks_field fontScale_) by reflexivity.
    split; [reflexivity|]. split; [reflexivity | discriminate].
  - pose proof (AttributeChanged_other h a w0 Hn) as Ha.
    rewrite (aside_field dialogText_ _ _ (fun _ => eq_refl) Ha).
    rewrite (aside_field formattedDialogText_ _ _ (fun _ => eq_refl) Ha).
    split; [reflexivity|]. split; [discriminate | reflexivity].
Qed.

(** C5, amended: a change of an attribute of the dialog node, as when the
    host replaces the list of choices, keeps the selection where it is; when
    it changes the number of wrapped lines of the links, the dirty flag is
    set and the next frame rebuilds the mesh. *)
Theorem links_replaced h tree a w :
  is_node_attribute (GetThisName a) = true ->
  let w' := step w (EvAttributeChanged h tree a) in
  selectedLink_ (dialog w') = selectedLink_ (dialog w)
  /\ (size (formattedLinks_ (dialog w')) <> size (formattedLinks_ (dialog w)) ->
      backNeedsUpdate_ (dialog w') = true
      /\ forall h', rebuilds (Realize h' w') = S (rebuilds w')).
Proof.
  intros Hn. cbv zeta. unfold step.
  set (w0 := upd (set_AttributesPointer tree) w).
  split.
  - rewrite (AttributeChanged_node _ _ _ Hn).
    subst w0. unfold upd. cbn [dialog set_dialog].
    rewrite UpdateDialogText_eq. cbv zeta.
    cbn [selectedLink_ set_backNeedsUpdate_ set_formattedDialogText_
         set_dialogText_].
    rewrite (UpdateLinks_field selectedLink_) by reflexivity. reflexivity.
  - intros Hc.
    assert (Hflag : backNeedsUpdate_ (dialog (AttributeChanged h a w0)) = true).
    { rewrite <- mesh_state_flag, (mesh_state_node_attribute h a w0 Hn).
      cbn [fst]. rewrite (bool_decide_eq_true_2 _); [|intros E; apply Hc; exact (eq_sym E)].
      now rewrite orb_true_r. }
    split; [exact Hflag|]. intros h'.
    rewrite <- !mesh_state_rebuilds, mesh_state_Realize.
    rewrite (mesh_frame_rebuilds h'), mesh_state_flag, Hflag. reflexivity.
Qed.

Lemma pair_differs (a b c d : Z) :
  bool_decide ((a, b) ≠ (c, d)) = bool_decide (a ≠ c) || bool_decide (b ≠ d).
Proof.
  destruct (decide (a = c)) as [->|Ha], (decide (b = d)) as [->|Hb].
  - rewrite !bool_decide_eq_false_2; [reflexivity | | |]; intros H; now apply H.
  - rewrite (bool_decide_eq_true_2 (b ≠ d)) by exact Hb.
    rewrite orb_true_r. apply bool_decide_eq_true_2. congruence.
  - rewrite (bool_decide_eq_true_2 (a ≠ c)) by exact Ha.
    apply bool_decide_eq_true_2. congruence.
  - rewrite (bool_decide_eq_true_2 (a ≠ c)) by exact Ha.
    apply bool_decide_eq_true_2. congruence.
Qed.

(** Between frames the dirty flag is set by a change of a line count, and by
    nothing else; the cached scale and the mesh are left alone. *)
Lemma mesh_state_event e w :
  (forall h, e <> EvRealize h) ->
  let w' := step w e in
  backNeedsUpdate_ (dialog w') =
    backNeedsUpdate_ (dialog w)
    || bool_decide (line_counts w' ≠ line_counts w)
  /\ screenScale_ (dialog w') = screenScale_ (dialog w)
  /\ rebuilds w' = rebuilds w.
Proof.
  intros He. cbv zeta.
  assert (Haside : forall w0 w', mesh_state w0 = mesh_state w -> aside w0 w' ->
            backNeedsUpdate_ (dialog w') =
              backNeedsUpdate_ (dialog w)
              || bool_decide (line_counts w' ≠ line_counts w)
            /\ screenScale_ (dialog w') = screenScale_ (dialog w)
            /\ rebuilds w' = rebuilds w).
  { intros w0 w' H0 H. pose proof (mesh_state_aside _ _ H) as Hm.
    rewrite <- !mesh_state_flag, <- !mesh_state_scale, <- !mesh_state_rebuilds,
      <- !mesh_state_counts, Hm, H0.
    rewrite bool_decide_eq_false_2 by (intros F; now apply F).
    now rewrite orb_false_r. }
  destruct e as [h|h tree a|c n l].
  - now destruct (He h).
  - unfold step. set (w0 := upd (set_AttributesPointer tree) w).
    destruct (is_node_attribute (GetThisName a)) eqn:Hn.
    + pose proof (mesh_state_node_attribute h a w0 Hn) as Hm. cbv zeta in Hm.
      rewrite <- !mesh_state_flag, <- !mesh_state_scale, <- !mesh_state_rebuilds,
        <- !mesh_state_counts, Hm.
      cbn [fst snd]. rewrite pair_differs.
      rewrite (bool_decide_ext (size (formattedLinks_ (dialog w0))
                                ≠ size (formattedLinks_ (dialog (AttributeChanged h a w0))))
                               (size (formattedLinks_ (dialog (AttributeChanged h a w0)))
                                ≠ size (formattedLinks_ (dialog w))))
        by (subst w0; cbn; split; intros F E; apply F; now rewrite E).
      rewrite (bool_decide_ext (size (formattedDialogText_ (dialog w0))
                                ≠ size (formattedDialogText_ (dialog (AttributeChanged h a w0))))
                               (size (formattedDialogText_ (dialog (AttributeChanged h a w0)))
                                ≠ size (formattedDialogText_ (dialog w))))
        by (subst w0; cbn; split; intros F E; apply F; now rewrite E).
      rewrite orb_assoc. repeat split; reflexivity.
    + apply (Haside w0); [reflexivity | apply AttributeChanged_other, Hn].
  - apply (Haside w); [reflexivity | apply ProcessMessage_aside].
Qed.

Lemma scale_differs_same h h0 s :
  hScale h = hScale h0 -> vScale h = vScale h0 ->
  scale_differs h s = scale_differs h0 s.
Proof. unfold scale_differs. now intros -> ->. Qed.

(** While the scale and the line counts are held, no frame rebuilds. *)
Lemma steady_run h0 es : forall w,
  backNeedsUpdate_ (dialog w) = false ->
  scale_differs h0 (screenScale_ (dialog w)) = false ->
  steady h0 w es ->
  rebuilds (run w es) = rebuilds w
  /\ backNeedsUpdate_ (dialog (run w es)) = false.
Proof.
  induction es as [|e es IH]; intros w Hf Hs Hst; [now split|].
  destruct Hst as [He Hst].
  assert (Hstep : rebuilds (step w e) = rebuilds w
                  /\ backNeedsUpdate_ (dialog (step w e)) = false
                  /\ scale_differs h0 (screenScale_ (dialog (step w e))) = false).
  { assert (Hother : (forall h, e <> EvRealize h) ->
                     line_counts (step w e) = line_counts w ->
                     rebuilds (step w e) = rebuilds w
                     /\ backNeedsUpdate_ (dialog (step w e)) = false
                     /\ scale_differs h0 (screenScale_ (dialog (step w e))) = false).
    { intros Hn Hc.
      destruct (mesh_state_event e w Hn) as (Hflag & Hscale & Hreb).
      rewrite Hflag, Hscale, Hreb, Hf, Hs, Hc.
      rewrite bool_decide_eq_false_2 by (intros F; now apply F). auto. }
    destruct e as [h|h tree a|c n l].
    - destruct He as [Hx Hy]. unfold step.
      rewrite <- !mesh_state_rebuilds, <- mesh_state_flag, <- mesh_state_scale.
      rewrite mesh_state_Realize.
      rewrite mesh_frame_rebuilds, mesh_frame_flag, mesh_frame_scale.
      rewrite mesh_state_flag, mesh_state_scale, Hf.
      unfold next_scale. rewrite (scale_differs_same _ _ _ Hx Hy), Hs.
      now rewrite Hs.
    - apply Hother; [discriminate | exact He].
    - apply Hother; [discriminate | exact He]. }
  destruct Hstep as (Hr1 & Hf1 & Hs1).
  destruct (IH (step w e) Hf1 Hs1 Hst) as [Hr Hf'].
  change (run w (e :: es)) with (run (step w e) es).
  split; [congruence | exact Hf'].
Qed.

(** While the scale and the line counts are held, the cached scale stays. *)
Lemma steady_scale h0 es : forall w,
  backNeedsUpdate_ (dialog w) = false ->
  scale_differs h0 (screenScale_ (dialog w)) = false ->
  steady h0 w es ->
  screenScale_ (dialog (run w es)) = screenScale_ (dialog w).
Proof.
  induction es as [|e es IH]; intros w Hf Hs Hst; [reflexivity|].
  destruct Hst as [He Hst].
  assert (Hstep : backNeedsUpdate_ (dialog (step w e)) = false
                  /\ screenScale_ (dialog (step w e)) = screenScale_ (dialog w)).
  { destruct e as [h|h tree a|c n l].
    - destruct He as [Hx Hy]. unfold step.
      rewrite <- mesh_state_flag, <- !mesh_state_scale.
      rewrite mesh_state_Realize.
      rewrite mesh_frame_flag, mesh_frame_scale.
      rewrite mesh_state_scale.
      unfold next_scale. rewrite (scale_differs_same _ _ _ Hx Hy), Hs. auto.
    - destruct (mesh_state_event (EvAttributeChanged h tree a) w)
        as (Hflag & Hscale & _); [discriminate|].
      rewrite Hflag, Hscale, Hf, He.
      rewrite bool_decide_eq_false_2 by (intros F; now apply F). auto.
    - destruct (mesh_state_event (EvProcessMessage c n l) w)
        as (Hflag & Hscale & _); [discriminate|].
      rewrite Hflag, Hscale, Hf, He.
      rewrite bool_decide_eq_false_2 by (intros F; now apply F). auto. }
  destruct Hstep as (Hf1 & Hs1).
  change (run w (e :: es)) with (run (step w e) es).
  rewrite IH; [exact Hs1 | exact Hf1 | now rewrite Hs1 | exact Hst].
Qed.

Lemma differ_apart a b : differ a b = apart a b.
Proof. unfold differ, apart. f_equal. Qed.

Lemma scale_differs_apart h s : scale_differs h s = scale_apart h s.
Proof. unfold scale_differs, scale_apart. now rewrite !differ_apart. Qed.

(** C1, amended.  A frame rebuilds the mesh exactly when the dirty flag is
    set as the frame begins or the screen scale of the frame is apart from the
    cached scale, by more than the epsilon [1e-3f], horizontally or
    vertically.  The frame sets the cached scale to the scale of the frame when
    the two are apart and keeps it when they are not, and between frames
    nothing writes it: the cached scale is the scale of the last frame that
    was apart from its cache, not the scale of the frame before.  The frame
    leaves the flag cleared.  Between frames the flag is set exactly by a step
    of the host that changes the number of wrapped lines of the links or of
    the body, and stays set until the next frame.  [ProcessControls], the one
    place where the selection changes, touches neither the flag, nor the
    cached scale, nor the line counts, nor the mesh.  And after a frame, as
    long as the screen scale and both line counts are held constant, no
    further rebuild runs and the flag stays cleared: at most one rebuild in
    all, on the first frame. *)
Theorem rebuild_gating h w :
  let cached := screenScale_ (dialog w) in
  rebuilt h w = backNeedsUpdate_ (dialog w) || scale_apart h cached
  /\ screenScale_ (dialog (Realize h w)) =
       (if scale_apart h cached then ScreenScale.mk (hScale h) (vScale h)
        else cached)
  /\ backNeedsUpdate_ (dialog (Realize h w)) = false
  /\ (forall e, (forall h', e <> EvRealize h') ->
      backNeedsUpdate_ (dialog (step w e)) =
        backNeedsUpdate_ (dialog w)
        || bool_decide (line_counts (step w e) ≠ line_counts w)
      /\ screenScale_ (dialog (step w e)) = cached)
  /\ mesh_state (ProcessControls h w) = mesh_state w
  /\ (forall es, steady h (Realize h w) es ->
      let w' := run (Realize h w) es in
      rebuilds w' = rebuilds (Realize h w)
      /\ (rebuilds w' <= S (rebuilds w))%nat
      /\ backNeedsUpdate_ (dialog w') = false
      /\ screenScale_ (dialog w') = screenScale_ (dialog (Realize h w))).
Proof.
  cbv zeta. rewrite <- scale_differs_apart.
  assert (Hreb : rebuilds (Realize h w) =
                 if backNeedsUpdate_ (dialog w)
                    || scale_differs h (screenScale_ (dialog w))
                 then S (rebuilds w) else rebuilds w).
  { rewrite <- !mesh_state_rebuilds, mesh_state_Realize, mesh_frame_rebuilds.
    now rewrite mesh_state_flag, mesh_state_scale. }
  assert (Hflag : backNeedsUpdate_ (dialog (Realize h w)) = false).
  { now rewrite <- mesh_state_flag, mesh_state_Realize, mesh_frame_flag. }
  assert (Hscale : screenScale_ (dialog (Realize h w)) =
                   next_scale h (screenScale_ (dialog w))).
  { now rewrite <- mesh_state_scale, mesh_state_Realize, mesh_frame_scale,
      mesh_state_scale. }
  split; [|split; [|split; [exact Hflag|split; [|split]]]].
  - unfold rebuilt. rewrite Hreb.
    destruct (_ || _); [apply Nat.ltb_lt; lia | apply Nat.ltb_irrefl].
  - rewrite Hscale. reflexivity.
  - intros e He. destruct (mesh_state_event e w He) as (Hf & Hs & _). auto.
  - apply mesh_state_ProcessControls.
  - intros es Hst.
    assert (Hs : scale_differs h (screenScale_ (dialog (Realize h w))) = false).
    { rewrite Hscale. apply scale_differs_next. }
    destruct (steady_run h es _ Hflag Hs Hst) as [Hr Hf].
    split; [exact Hr|]. split; [|split; [exact Hf|]].
    + rewrite Hr, Hreb. destruct (_ || _); lia.
    + exact (steady_scale h es _ Hflag Hs Hst).
Qed.

(** *** The mesh of the panel *)

Lemma write_mesh_length m c : length (fst (write_mesh m c)) = length (fst c).
Proof.
  destruct m as [[[m0 m1] m2] m3], c as [pV vi]. cbn.
  now rewrite !length_insert.
Qed.

Lemma write_meshes_length {A} (f : A -> Mesh) (l : list A) c :
  length (fst (foldl (fun c i => write_mesh (f i) c) c l)) = length (fst c).
Proof.
  revert c. induction l as [|a l IH]; intros c; [reflexivity|].
  cbn. now rewrite IH, write_mesh_length.
Qed.

Lemma UpdateBackBuffers_vertices_length w :
  exists b,
    vertexBuffers (render (UpdateBackBuffers w)) =
    store_buffer (vertexBuffers (render w)) (backVertexBuffer_ (dialog w)) b
    /\ length b = length (back_vertices w).
Proof.
  unfold UpdateBackBuffers. cbv zeta.
  eexists. split; [reflexivity|].
  rewrite !write_mesh_length.
  rewrite (write_meshes_length
             (fun i => createSpriteMesh _ _ (shift_up (sprite 7) _))).
  rewrite (write_meshes_length (fun i => createSpriteMesh _ _ (sprite i))).
  reflexivity.
Qed.

Lemma buffer_at_store {A} (bs : list (list A)) h b :
  buffer_at bs h <> [] -> buffer_at (store_buffer bs h b) h = b.
Proof.
  unfold buffer_at, store_buffer. destruct (h <? 0); [easy|].
  destruct (bs !! Z.to_nat h) as [b0|] eqn:E; [|easy]. intros _.
  rewrite list_lookup_insert_eq; [reflexivity|].
  now apply lookup_lt_Some in E.
Qed.

Lemma length_68 {A} (l : list A) :
  length l = 68%nat ->
  exists a0 a1 a2 a3 a4 a5 a6 a7 a8 a9 a10 a11 a12 a13 a14 a15 a16 a17 a18 a19
         a20 a21 a22 a23 a24 a25 a26 a27 a28 a29 a30 a31 a32 a33 a34 a35 a36
         a37 a38 a39 a40 a41 a42 a43 a44 a45 a46 a47 a48 a49 a50 a51 a52 a53
         a54 a55 a56 a57 a58 a59 a60 a61 a62 a63 a64 a65 a66 a67,
    l = [a0; a1; a2; a3; a4; a5; a6; a7; a8; a9; a10; a11; a12; a13; a14; a15;
         a16; a17; a18; a19; a20; a21; a22; a23; a24; a25; a26; a27; a28; a29;
         a30; a31; a32; a33; a34; a35; a36; a37; a38; a39; a40; a41; a42; a43;
         a44; a45; a46; a47; a48; a49; a50; a51; a52; a53; a54; a55; a56; a57;
         a58; a59; a60; a61; a62; a63; a64; a65; a66; a67].
Proof.
  intros H.
  do 68 (destruct l as [|? l]; [discriminate H|]).
  destruct l; [|discriminate H].
  repeat eexists.
Qed.

(** What a rebuild writes: the four vertices of each sprite of the panel, one
    sprite after the other, over the whole of the buffer. *)
Lemma UpdateBackBuffers_vertices w :
  length (back_vertices w) = 68%nat ->
  let d := dialog w in
  let w' := UpdateBackBuffers w in
  back_vertices w' =
  map Some
    (flat_map (quad (ScreenScale.x (screenScale_ d)) (ScreenScale.y (screenScale_ d)))
       (panel (top_offset (textureLines_ (dialog w')))
              (divider_offset (size (formattedLinks_ d)) (lineHeight_ d)
                              (ScreenScale.y (screenScale_ d))))).
Proof.
  intros Hlen. cbv zeta. unfold back_vertices at 1.
  change (backVertexBuffer_ (dialog (UpdateBackBuffers w)))
    with (backVertexBuffer_ (dialog w)).
  unfold UpdateBackBuffers. cbv zeta.
  cbn [render dialog upd call set_vertexBuffers set_render set_dialog
       vertexBuffers textureLines_ set_textureLines_ set_backNeedsUpdate_].
  rewrite buffer_at_store
    by (fold (back_vertices w); intros E; now rewrite E in Hlen).
  fold (back_vertices w).
  destruct (length_68 _ Hlen) as
    (a0 & a1 & a2 & a3 & a4 & a5 & a6 & a7 & a8 & a9 & a10 & a11 & a12 & a13
     & a14 & a15 & a16 & a17 & a18 & a19 & a20 & a21 & a22 & a23 & a24 & a25
     & a26 & a27 & a28 & a29 & a30 & a31 & a32 & a33 & a34 & a35 & a36 & a37
     & a38 & a39 & a40 & a41 & a42 & a43 & a44 & a45 & a46 & a47 & a48 & a49
     & a50 & a51 & a52 & a53 & a54 & a55 & a56 & a57 & a58 & a59 & a60 & a61
     & a62 & a63 & a64 & a65 & a66 & a67 & ->).
  reflexivity.
Qed.

Lemma buffer_at_new {A} (bs : list (list A)) b :
  buffer_at (bs ++ [b]) (Z.of_nat (length bs)) = b.
Proof.
  unfold buffer_at. destruct (_ <? 0) eqn:E; [apply Z.ltb_lt in E; lia|].
  rewrite Nat2Z.id, lookup_app_r, Nat.sub_diag by lia. reflexivity.
Qed.

Lemma store_buffer_new {A} (bs : list (list A)) b b' :
  store_buffer (bs ++ [b]) (Z.of_nat (length bs)) b' = (bs ++ [b'])%list.
Proof.
  unfold store_buffer. destruct (_ <? 0) eqn:E; [apply Z.ltb_lt in E; lia|].
  rewrite Nat2Z.id, insert_app_r_alt, Nat.sub_diag by lia. reflexivity.
Qed.

Lemma map_length_store {A} (bs : list (list A)) h b :
  length b = length (buffer_at bs h) ->
  map length (store_buffer bs h b) = map length bs.
Proof.
  unfold buffer_at, store_buffer. destruct (h <? 0); [reflexivity|].
  intros Hb. rewrite list_fmap_insert.
  destruct (bs !! Z.to_nat h) as [b0|] eqn:E.
  - apply list_insert_id. rewrite list_lookup_fmap, E. cbn in *. now rewrite Hb.
  - apply list_insert_ge. rewrite length_map. now apply lookup_ge_None.
Qed.

Lemma store_buffer_twice {A} (bs : list (list A)) h b b' :
  store_buffer (store_buffer bs h b) h b' = store_buffer bs h b'.
Proof.
  unfold store_buffer. destruct (h <? 0); [reflexivity|].
  apply list_insert_insert_eq.
Qed.

Lemma length_buffer_at {A} (bs : list (list A)) h :
  length (buffer_at bs h) =
  if h <? 0 then 0%nat else default 0%nat (map length bs !! Z.to_nat h).
Proof.
  unfold buffer_at. destruct (h <? 0); [reflexivity|].
  rewrite list_lookup_fmap. now destruct (bs !! Z.to_nat h).
Qed.

(** [CreateBackBuffers] allocates the two buffers, of 17 sprites, and fills
    the index buffer. *)
Lemma CreateBackBuffers_spec w :
  let w' := CreateBackBuffers w in
  vertexBuffers (render w') =
    (vertexBuffers (render w) ++ [replicate (SPRITE_COUNT * 4) None])%list
  /\ indexBuffers (render w') =
       (indexBuffers (render w)
        ++ [map Some (flat_map quad_indices (seq 0 SPRITE_COUNT))])%list
  /\ backVertexBuffer_ (dialog w') = Z.of_nat (length (vertexBuffers (render w)))
  /\ backIndexBuffer_ (dialog w') = Z.of_nat (length (indexBuffers (render w))).
Proof.
  cbv zeta.
  unfold CreateBackBuffers, CreateVertexBuffer, CreateIndexBuffer,
    FillIndexBuffer.
  cbn [render dialog upd call set_vertexBuffers set_indexBuffers set_render
       set_dialog vertexBuffers indexBuffers backVertexBuffer_
       backIndexBuffer_ set_backVertexBuffer_ set_backIndexBuffer_].
  rewrite buffer_at_new, store_buffer_new.
  repeat split.
Qed.

Lemma Init_buffers h w :
  let w' := Init h w in
  vertexBuffers (render w') =
    (vertexBuffers (render w) ++ [replicate (SPRITE_COUNT * 4) None])%list
  /\ indexBuffers (render w') =
       (indexBuffers (render w)
        ++ [map Some (flat_map quad_indices (seq 0 SPRITE_COUNT))])%list
  /\ backVertexBuffer_ (dialog w') = Z.of_nat (length (vertexBuffers (render w)))
  /\ backIndexBuffer_ (dialog w') = Z.of_nat (length (indexBuffers (render w))).
Proof.
  cbv zeta. unfold Init. cbv zeta.
  match goal with |- context [DoTextureCreate ?p ?w0] =>
    destruct (DoTextureCreate p w0) as [t w1] eqn:E end.
  unfold DoTextureCreate in E. injection E as _ <-.
  match goal with |- context [CreateBackBuffers ?w0] =>
    destruct (CreateBackBuffers_spec w0) as (Hv & Hi & Hvb & Hib) end.
  rewrite Hv, Hi, Hvb, Hib. repeat split.
Qed.

(** **** The storage is kept by every step of the component *)

Lemma storage_aside w w' : aside w w' -> storage w' = storage w.
Proof.
  intros H. unfold storage.
  destruct (aside_buffers _ _ H) as [-> ->].
  rewrite (aside_field backVertexBuffer_ _ _ (fun _ => eq_refl) H).
  rewrite (aside_field backIndexBuffer_ _ _ (fun _ => eq_refl) H).
  reflexivity.
Qed.

Lemma storage_upd (g : LegacyDialog -> LegacyDialog) w :
  backVertexBuffer_ (g (dialog w)) = backVertexBuffer_ (dialog w) ->
  backIndexBuffer_ (g (dialog w)) = backIndexBuffer_ (dialog w) ->
  storage (upd g w) = storage w.
Proof. unfold storage, upd. cbn. now intros -> ->. Qed.

Lemma storage_Unfade h w : storage (Unfade h w) = storage w.
Proof. rewrite Unfade_frame. reflexivity. Qed.

Lemma storage_ProcessControls h w : storage (ProcessControls h w) = storage w.
Proof. rewrite ProcessControls_frame. reflexivity. Qed.

Lemma storage_UpdateBackBuffers w : storage (UpdateBackBuffers w) = storage w.
Proof.
  destruct (UpdateBackBuffers_vertices_length w) as (b & Hb & Hl).
  unfold storage. rewrite Hb.
  change (backVertexBuffer_ (dialog (UpdateBackBuffers w)))
    with (backVertexBuffer_ (dialog w)).
  change (backIndexBuffer_ (dialog (UpdateBackBuffers w)))
    with (backIndexBuffer_ (dialog w)).
  change (indexBuffers (render (UpdateBackBuffers w)))
    with (indexBuffers (render w)).
  rewrite map_length_store by exact Hl.
  now rewrite store_buffer_twice.
Qed.

Lemma storage_Realize h w : storage (Realize h w) = storage w.
Proof.
  rewrite Realize_phases.
  rewrite (storage_aside _ _ (aside_hush _ _)).
  rewrite (storage_aside _ _ (aside_draw _)).
  unfold rebuild_if_needed.
  match goal with |- context [if ?b then _ else _] => destruct b end;
    rewrite ?storage_UpdateBackBuffers, storage_ProcessControls;
    (rewrite storage_upd by (rewrite UpdateScreenSize_eq; reflexivity));
    now rewrite (storage_aside _ _ (aside_greet _ _)), storage_Unfade.
Qed.

Lemma storage_step e w : storage (step w e) = storage w.
Proof.
  destruct e as [h|h tree a|c n l]; unfold step.
  - apply storage_Realize.
  - transitivity (storage (upd (set_AttributesPointer tree) w));
      [|now apply storage_upd].
    destruct (is_node_attribute (GetThisName a)) eqn:Hn.
    + rewrite (AttributeChanged_node _ _ _ Hn).
      rewrite storage_upd by (rewrite UpdateDialogText_eq; reflexivity).
      apply storage_upd; now apply UpdateLinks_field.
    + apply storage_aside, AttributeChanged_other, Hn.
  - apply storage_aside, ProcessMessage_aside.
Qed.

Lemma storage_run es : forall w, storage (run w es) = storage w.
Proof.
  induction es as [|e es IH]; intros w; [reflexivity|].
  change (run w (e :: es)) with (run (step w e) es).
  now rewrite IH, storage_step.
Qed.

Lemma storage_inj w w' :
  storage w' = storage w ->
  backVertexBuffer_ (dialog w') = backVertexBuffer_ (dialog w)
  /\ backIndexBuffer_ (dialog w') = backIndexBuffer_ (dialog w)
  /\ indexBuffers (render w') = indexBuffers (render w)
  /\ map length (vertexBuffers (render w')) = map length (vertexBuffers (render w))
  /\ store_buffer (vertexBuffers (render w')) (backVertexBuffer_ (dialog w')) [] =
     store_buffer (vertexBuffers (render w)) (backVertexBuffer_ (dialog w)) [].
Proof. unfold storage. intros H. injection H as H1 H2 H3 H4 H5. auto. Qed.

(** What the storage fixes. *)
Lemma storage_back_vertices w w' :
  storage w' = storage w -> length (back_vertices w') = length (back_vertices w).
Proof.
  unfold storage, back_vertices. intros H. rewrite !length_buffer_at.
  injection H as Hvb _ _ Hl _. now rewrite Hvb, Hl.
Qed.

Lemma storage_back_indices w w' :
  storage w' = storage w -> back_indices w' = back_indices w.
Proof.
  unfold storage, back_indices. intros H.
  injection H as _ Hib Hi _ _. now rewrite Hib, Hi.
Qed.

(** After [Init] and whatever the host does then, the vertex buffer of the
    component has its 68 slots and the index buffer its contents. *)
Lemma back_buffers_after_Init h w0 es :
  let w := run (Init h w0) es in
  length (back_vertices w) = 68%nat
  /\ back_indices w = map Some (flat_map quad_indices (seq 0 SPRITE_COUNT)).
Proof.
  cbv zeta.
  pose proof (storage_run es (Init h w0)) as Hs.
  rewrite (storage_back_vertices _ _ Hs), (storage_back_indices _ _ Hs).
  destruct (Init_buffers h w0) as (Hv & Hi & Hvb & Hib).
  unfold back_vertices, back_indices.
  rewrite Hv, Hi, Hvb, Hib, !buffer_at_new. split; reflexivity.
Qed.

(** C7: after [Init] and whatever the host does then, a rebuild writes, for
    every sprite of the panel in turn, four vertices: top-left, top-right,
    bottom-left and bottom-right, at the local position of the corner scaled
    by the screen scale, with depth 1, rhw 1/2 and the colour [COLOR_NORMAL],
    which is opaque white.  The index buffer holds, for every sprite [n] in
    turn, the six indices [4n + 0, 4n + 2, 4n + 1, 4n + 1, 4n + 2, 4n + 3].
    There are 17 sprites, and each buffer is written in full. *)
Theorem mesh_layout h w0 es :
  let w := run (Init h w0) es in
  let w' := UpdateBackBuffers w in
  let d := dialog w in
  let sx := ScreenScale.x (screenScale_ d) in
  let sy := ScreenScale.y (screenScale_ d) in
  let sprites :=
    panel (top_offset (textureLines_ (dialog w')))
          (divider_offset (size (formattedLinks_ d)) (lineHeight_ d) sy) in
  back_vertices w' = map Some (flat_map (quad sx sy) sprites)
  /\ back_indices w' = map Some (flat_map quad_indices (seq 0 SPRITE_COUNT))
  /\ length sprites = SPRITE_COUNT
  /\ (forall s,
         quad sx sy s =
         [vertex_at sx sy (FRECT.left (position s)) (FRECT.top (position s))
                    (FRECT.left (uv s)) (FRECT.top (uv s));
          vertex_at sx sy (FRECT.right (position s)) (FRECT.top (position s))
                    (FRECT.right (uv s)) (FRECT.top (uv s));
          vertex_at sx sy (FRECT.left (position s)) (FRECT.bottom (position s))
                    (FRECT.left (uv s)) (FRECT.bottom (uv s));
          vertex_at sx sy (FRECT.right (position s)) (FRECT.bottom (position s))
                    (FRECT.right (uv s)) (FRECT.bottom (uv s))])
  /\ (forall x y u v,
         vertex_at sx sy x y u v =
         XI_TEX_VERTEX.mk (CVECTOR.mk (F32.mul sx x) (F32.mul sy y) (F32.of_Z 1))
                          (F32.div (F32.of_Z 1) (F32.of_Z 2)) 0xFFFFFFFF u v).
Proof.
  cbv zeta.
  destruct (back_buffers_after_Init h w0 es) as [Hlen Hidx].
  split; [apply UpdateBackBuffers_vertices, Hlen|].
  split.
  { rewrite (storage_back_indices _ _ (storage_UpdateBackBuffers _)).
    exact Hidx. }
  repeat split.
Qed.

(** C8: [Init] allocates the storage of the mesh, one vertex buffer of
    (10 + (8 - 1)) * 4 = 68 vertices and one index buffer of
    (10 + (8 - 1)) * 6 = 102 indices, and writes the index buffer.  Whatever
    the host does then, the component allocates no buffer, keeps its two
    handles, and leaves every index buffer as it is; the vertex buffers keep
    their sizes, and those of others their contents: a rebuild writes into
    the vertex buffer of the component, and nowhere else. *)
Theorem mesh_storage h w0 es :
  let w := Init h w0 in
  let w' := run w es in
  (vertexBuffers (render w) =
     (vertexBuffers (render w0)
      ++ [replicate ((10 + (DIALOG_MAX_LINES - 1)) * 4) None])%list
   /\ indexBuffers (render w) =
        (indexBuffers (render w0)
         ++ [map Some (flat_map quad_indices
                         (seq 0 (10 + (DIALOG_MAX_LINES - 1))))])%list
   /\ length (back_vertices w) = ((10 + (DIALOG_MAX_LINES - 1)) * 4)%nat
   /\ length (back_indices w) = ((10 + (DIALOG_MAX_LINES - 1)) * 6)%nat)
  /\ (length (vertexBuffers (render w')) = S (length (vertexBuffers (render w0)))
      /\ length (indexBuffers (render w')) = S (length (indexBuffers (render w0))))
  /\ (backVertexBuffer_ (dialog w') = backVertexBuffer_ (dialog w)
      /\ backIndexBuffer_ (dialog w') = backIndexBuffer_ (dialog w))
  /\ indexBuffers (render w') = indexBuffers (render w)
  /\ map length (vertexBuffers (render w')) = map length (vertexBuffers (render w))
  /\ (forall j, Z.of_nat j <> backVertexBuffer_ (dialog w) ->
      vertexBuffers (render w') !! j = vertexBuffers (render w) !! j).
Proof.
  cbv zeta.
  destruct (Init_buffers h w0) as (Hv & Hi & Hvb & Hib).
  destruct (storage_inj _ _ (storage_run es (Init h w0)))
    as (Hsvb & Hsib & Hsi & Hsl & Hso).
  split; [|split; [|split; [|split; [|split]]]].
  - split; [exact Hv|]. split; [exact Hi|].
    unfold back_vertices, back_indices.
    rewrite Hv, Hi, Hvb, Hib, !buffer_at_new. split; reflexivity.
  - split.
    + apply (f_equal length) in Hsl. rewrite !length_map in Hsl.
      rewrite Hsl, Hv, length_app. cbn. lia.
    + rewrite Hsi, Hi, length_app. cbn. lia.
  - split; assumption.
  - exact Hsi.
  - exact Hsl.
  - intros j Hj. rewrite Hsvb in Hso.
    apply (f_equal (fun l => l !! j)) in Hso. unfold store_buffer in Hso.
    destruct (_ <? 0); [exact Hso|].
    rewrite !list_lookup_insert_ne in Hso by lia. exact Hso.
Qed.

(** C3, amended: a rebuild sets [textureLines_] to the lines of body and
    links times the line height, over the vertical scale and over 26, rounded
    down, plus one when there is a wrapped line of a link, which is when
    [formattedLinks_] is not empty; a list of links that is not empty adds
    nothing when its links wrap to no line.  It writes the top of the panel,
    the sprite 15 of the mesh, moved up by 26 times [textureLines_] template
    pixels, and the divider, the sprite 16, moved up by the lines of the links
    times the line height over the vertical scale: the top and the bottom of
    the tile are less by that much, its sides and its texture coordinates are
    those of the template.  The line height is not negative, the line counts
    fit 32 bits, and [textureLines_] fits [int32_t]. *)
Theorem texture_lines_of_rebuild w :
  let d := dialog w in
  let bodyLines := Z.of_nat (length (formattedDialogText_ d)) in
  let linkLines := Z.of_nat (length (formattedLinks_ d)) in
  let sx := ScreenScale.x (screenScale_ d) in
  let sy := ScreenScale.y (screenScale_ d) in
  let textureLines := texture_lines bodyLines linkLines (lineHeight_ d) sy in
  0 <= lineHeight_ d <= INT32_MAX ->
  bodyLines + linkLines < 2 ^ 32 ->
  textureLines <= INT32_MAX ->
  length (back_vertices w) = 68%nat ->
  let w' := UpdateBackBuffers w in
  textureLines_ (dialog w') = textureLines
  /\ textureLines_ (dialog w') =
       F64.to_int32
         (F64.floor
            (F64.div
               (F64.of_float
                  (F32.div (F32.of_Z ((bodyLines + linkLines) * lineHeight_ d))
                           sy))
               (F64.of_Z 26)))
       + (if is_empty (formattedLinks_ d) then 0 else 1)
  /\ take 4 (drop 60 (back_vertices w')) =
     map Some (tile_up sx sy (sprite 8)
                 (F32.mul (F32.of_Z 26) (F32.of_Z textureLines)))
  /\ take 4 (drop 64 (back_vertices w')) =
     map Some (tile_up sx sy (sprite 9)
                 (F32.div (F32.mul (F32.of_Z linkLines)
                                   (F32.of_Z (lineHeight_ d))) sy)).
Proof.
  cbv zeta. intros Hlh Hcount Hfit Hlen.
  assert (Hbody : size (formattedDialogText_ (dialog w)) =
                  Z.of_nat (length (formattedDialogText_ (dialog w))))
    by (apply size_length; lia).
  assert (Hlinks : size (formattedLinks_ (dialog w)) =
                   Z.of_nat (length (formattedLinks_ (dialog w))))
    by (apply size_length; lia).
  assert (Htl : textureLines_ (dialog (UpdateBackBuffers w)) =
                texture_lines (Z.of_nat (length (formattedDialogText_ (dialog w))))
                              (Z.of_nat (length (formattedLinks_ (dialog w))))
                              (lineHeight_ (dialog w))
                              (ScreenScale.y (screenScale_ (dialog w)))).
  { unfold UpdateBackBuffers. cbv zeta.
    cbn [render dialog upd call set_vertexBuffers set_render set_dialog
         textureLines_ set_textureLines_ set_backNeedsUpdate_].
    unfold texture_lines in *. rewrite Hbody, Hlinks.
    rewrite (to_size_t_id (_ + _)) by lia.
    rewrite (to_size_t_id (lineHeight_ _)) by (unfold INT32_MAX in Hlh; lia).
    rewrite (to_size_t_id (_ * _)) by (unfold INT32_MAX in Hlh; nia).
    change (F64.of_Z DIALOG_LINE_HEIGHT) with (F64.of_Z 26).
    destruct (formattedLinks_ (dialog w)) as [|l ls];
      cbn [is_empty length] in Hfit, Hcount |- *.
    - change (Z.of_nat 0 =? 0) with true. cbv iota. lia.
    - assert (Hne : (Z.of_nat (S (length ls)) =? 0) = false)
        by (apply Z.eqb_neq; lia).
      rewrite Hne in Hfit |- *.
      apply to_int32_id.
      match goal with |- _ <= F64.to_int32 ?x + 1 <= _ =>
        pose proof (SFto_int32_range x) as Hr; unfold F64.to_int32 in * end.
      unfold INT32_MIN, INT32_MAX in *. lia. }
  split; [exact Htl|]. split.
  { rewrite Htl. unfold texture_lines. f_equal.
    now destruct (formattedLinks_ (dialog w)). }
  rewrite (UpdateBackBuffers_vertices w Hlen). cbv zeta.
  rewrite Htl, Hlinks. split; reflexivity.
Qed.

(** *** Binary32 numbers *)

Lemma digits2_bounds p :
  2 ^ (Zpos (digits2_pos p) - 1) <= Zpos p < 2 ^ Zpos (digits2_pos p).
Proof.
  induction p as [p IH|p IH|]; cbn [digits2_pos].
  - rewrite Pos2Z.inj_succ, (Pos2Z.inj_xI p).
    replace (Z.succ (Zpos (digits2_pos p)) - 1)
      with (Z.succ (Zpos (digits2_pos p) - 1)) by lia.
    rewrite !Z.pow_succ_r by lia. lia.
  - rewrite Pos2Z.inj_succ, (Pos2Z.inj_xO p).
    replace (Z.succ (Zpos (digits2_pos p)) - 1)
      with (Z.succ (Zpos (digits2_pos p) - 1)) by lia.
    rewrite !Z.pow_succ_r by lia. lia.
  - cbn. lia.
Qed.

Lemma digits2_unique p k :
  2 ^ (k - 1) <= Zpos p < 2 ^ k -> Zpos (digits2_pos p) = k.
Proof.
  intros [Hlo Hhi]. destruct (digits2_bounds p) as [Blo Bhi].
  set (d := Zpos (digits2_pos p)) in *.
  assert (Hd : 0 < d) by (subst d; lia).
  destruct (Z.lt_trichotomy d k) as [Hlt|[Heq|Hgt]]; [|exact Heq|].
  - assert (2 ^ d <= 2 ^ (k - 1)) by (apply Z.pow_le_mono_r; lia). lia.
  - destruct (Z.le_gt_cases 0 k) as [Hk|Hk].
    + assert (2 ^ k <= 2 ^ (d - 1)) by (apply Z.pow_le_mono_r; lia). lia.
    + rewrite Z.pow_neg_r in Hhi by lia. lia.
Qed.

Lemma shr_m_shr_1 mrs : 0 <= shr_m mrs -> shr_m (shr_1 mrs) = shr_m mrs / 2.
Proof.
  destruct mrs as [m r s]. cbn [shr_m]. intros Hm.
  destruct m as [|p|p]; [reflexivity | | lia].
  destruct p as [p|p|]; cbn [shr_1 shr_m].
  - rewrite (Pos2Z.inj_xI p). apply Z.div_unique with 1; lia.
  - rewrite (Pos2Z.inj_xO p). apply Z.div_unique with 0; lia.
  - reflexivity.
Qed.

Lemma shr_m_iter n : forall mrs,
  0 <= shr_m mrs -> shr_m (SpecFloat.iter_pos shr_1 n mrs) = shr_m mrs / 2 ^ Zpos n.
Proof.
  induction n as [n IH|n IH|]; intros mrs Hm; cbn [SpecFloat.iter_pos].
  - assert (H1 : 0 <= shr_m (shr_1 mrs))
      by (rewrite shr_m_shr_1 by lia; apply Z.div_pos; lia).
    assert (H2 : 0 <= shr_m (SpecFloat.iter_pos shr_1 n (shr_1 mrs)))
      by (rewrite IH by lia; apply Z.div_pos; lia).
    rewrite IH, IH, shr_m_shr_1 by lia.
    rewrite !Z.div_div by lia.
    rewrite (Pos2Z.inj_xI n). f_equal.
    replace (2 * Zpos n + 1) with (1 + Zpos n + Zpos n) by lia.
    rewrite !Z.pow_add_r by lia. lia.
  - assert (H2 : 0 <= shr_m (SpecFloat.iter_pos shr_1 n mrs))
      by (rewrite IH by lia; apply Z.div_pos; lia).
    rewrite IH, IH by lia.
    rewrite !Z.div_div by lia.
    rewrite (Pos2Z.inj_xO n). f_equal.
    replace (2 * Zpos n) with (Zpos n + Zpos n) by lia.
    rewrite !Z.pow_add_r by lia. lia.
  - rewrite shr_m_shr_1 by lia. reflexivity.
Qed.

Lemma shr_m_of_loc m l : shr_m (shr_record_of_loc m l) = m.
Proof. destruct l as [|[| |]]; reflexivity. Qed.

(** The first step of rounding: a mantissa of 24 digits or more is cut to 24
    digits. *)
Lemma shr_fexp_normal p e l :
  let d := Zpos (digits2_pos p) in
  24 <= d -> -149 <= d + e - 24 ->
  exists mrs,
    shr_fexp 24 128 (Zpos p) e l = (mrs, d + e - 24)
    /\ 2 ^ 23 <= shr_m mrs < 2 ^ 24.
Proof.
  cbv zeta. intros Hd He.
  destruct (digits2_bounds p) as [Blo Bhi].
  set (d := Zpos (digits2_pos p)) in *.
  unfold shr_fexp, fexp, emin. cbn [Zdigits2]. fold d.
  replace (Z.max (d + e - 24) (3 - 128 - 24) - e) with (d - 24) by lia.
  unfold shr. destruct (d - 24) as [|k|k] eqn:Ek; [| |lia].
  - eexists. split; [f_equal; lia|].
    rewrite shr_m_of_loc. replace d with 24 in * by lia. cbn in *. lia.
  - eexists. split; [f_equal; lia|].
    rewrite shr_m_iter, shr_m_of_loc by (rewrite shr_m_of_loc; lia).
    rewrite <- Ek.
    assert (Hp : 2 ^ (d - 1) = 2 ^ 23 * 2 ^ (d - 24))
      by (rewrite <- Z.pow_add_r by lia; f_equal; lia).
    assert (Hq : 2 ^ d = 2 ^ 24 * 2 ^ (d - 24))
      by (rewrite <- Z.pow_add_r by lia; f_equal; lia).
    assert (H0 : 0 < 2 ^ (d - 24)) by (apply Z.pow_pos_nonneg; lia).
    split.
    + apply Z.div_le_lower_bound; lia.
    + apply Z.div_lt_upper_bound; lia.
Qed.

Lemma round_nearest_even_range m l :
  m <= round_nearest_even m l <= m + 1.
Proof.
  destruct l as [|[| |]]; cbn; try lia. destruct (Z.even m); lia.
Qed.

(** Rounding to binary32 of a positive number with a mantissa of 24 digits
    or more, in the range of the normal numbers: the result is a normal
    number, with the exponent of the mantissa cut to 24 digits, or one
    more. *)
Lemma binary_round_aux_normal p e l :
  let d := Zpos (digits2_pos p) in
  24 <= d -> -149 <= d + e - 24 -> d + e - 23 <= 104 ->
  exists m e',
    binary_round_aux 24 128 false (Zpos p) e l = S754_finite false m e'
    /\ 2 ^ 23 <= Zpos m < 2 ^ 24
    /\ d + e - 24 <= e' <= d + e - 23.
Proof.
  cbv zeta. intros Hd He Hmax.
  destruct (shr_fexp_normal p e l Hd He) as (mrs & E1 & Hm).
  unfold binary_round_aux. rewrite E1.
  set (e1 := Zpos (digits2_pos p) + e - 24) in *.
  pose proof (round_nearest_even_range (shr_m mrs) (loc_of_shr_record mrs)) as Hr.
  set (m1 := round_nearest_even (shr_m mrs) (loc_of_shr_record mrs)) in *.
  destruct m1 as [|p1|p1] eqn:Em1; [lia| |lia].
  destruct (Z.eq_dec (Zpos p1) 16777216) as [Hfull|Hnot].
  - (* the mantissa rounds up to 2^24: one more shift *)
    injection Hfull as ->.
    unfold shr_fexp, fexp, emin.
    change (Zdigits2 16777216) with 25.
    replace (Z.max (25 + e1 - 24) (3 - 128 - 24) - e1) with 1 by lia.
    cbn [shr SpecFloat.iter_pos shr_record_of_loc shr_1 shr_m].
    replace (e1 + 1 <=? 128 - 24) with true by (symmetry; apply Z.leb_le; lia).
    do 2 eexists. split; [reflexivity|]. split; [cbn; lia | lia].
  - assert (Hd1 : Zpos (digits2_pos p1) = 24)
      by (apply digits2_unique; cbn in *; lia).
    unfold shr_fexp, fexp, emin. cbn [Zdigits2]. rewrite Hd1.
    replace (Z.max (24 + e1 - 24) (3 - 128 - 24) - e1) with 0 by lia.
    cbn [shr shr_record_of_loc shr_m].
    replace (e1 <=? 128 - 24) with true by (symmetry; apply Z.leb_le; lia).
    do 2 eexists. split; [reflexivity|]. split; [cbn in *; lia | lia].
Qed.

Lemma digits2_iter_xO p k :
  digits2_pos (Pos.iter xO p k) = (digits2_pos p + k)%positive.
Proof.
  induction k as [|k IH] using Pos.peano_ind.
  - cbn. now rewrite Pos.add_1_r.
  - rewrite Pos.iter_succ. cbn [digits2_pos]. rewrite IH. lia.
Qed.

(** The conversion of a positive integer below [2^32] is a normal number. *)
Lemma of_Z_normal p :
  let d := Zpos (digits2_pos p) in
  d <= 32 ->
  exists m e,
    F32.of_Z (Zpos p) = S754_finite false m e
    /\ 2 ^ 23 <= Zpos m < 2 ^ 24
    /\ d - 24 <= e <= d - 23.
Proof.
  cbv zeta. intros Hd.
  unfold F32.of_Z, binary_normalize, binary_round, shl_align, fexp, emin,
    F32.prec, F32.emax.
  set (d := Zpos (digits2_pos p)) in *.
  assert (H0 : 0 < d) by (subst d; lia).
  replace (Z.max (d + 0 - 24) (3 - 128 - 24) - 0) with (d - 24) by lia.
  destruct (d - 24) as [|k|k] eqn:Ek.
  - destruct (binary_round_aux_normal p 0 loc_Exact) as (m & e & E & Hm & He);
      fold d; try lia.
    exists m, e. fold d in He. split; [exact E|]. split; [exact Hm | lia].
  - destruct (binary_round_aux_normal p 0 loc_Exact) as (m & e & E & Hm & He);
      fold d; try lia.
    exists m, e. fold d in He. split; [exact E|]. split; [exact Hm | lia].
  - replace (Z.max (d + 0 - 24) (3 - 128 - 24)) with (d - 24) by lia.
    assert (Hdk : Zpos (digits2_pos (Pos.iter xO p k)) = 24)
      by (rewrite digits2_iter_xO; fold d; lia).
    destruct (binary_round_aux_normal (Pos.iter xO p k) (d - 24) loc_Exact)
      as (m & e & E & Hm & He); rewrite ?Hdk; try lia.
    exists m, e. rewrite Hdk in He. split; [exact E|]. split; [exact Hm | lia].
Qed.

(** The quotient of a normal number by 1000 is a normal number, with an
    exponent of 10 less, or more. *)
Lemma div_1000_normal m e :
  2 ^ 23 <= Zpos m < 2 ^ 24 -> -100 <= e <= 100 ->
  exists m' e',
    F32.div (S754_finite false m e) (F32.of_Z 1000) = S754_finite false m' e'
    /\ 2 ^ 23 <= Zpos m' < 2 ^ 24
    /\ e - 10 <= e'.
Proof.
  intros Hm He.
  change (F32.of_Z 1000) with (S754_finite false 16384000 (-14)).
  unfold F32.div, SFdiv, SFdiv_core_binary, F32.prec, F32.emax.
  cbn [Zdigits2 xorb].
  rewrite (digits2_unique m 24) by exact Hm.
  change (Zpos (digits2_pos 16384000)) with 24.
  unfold fexp, emin.
  replace (Z.min (Z.max (24 + e - (24 + -14) - 24) (3 - 128 - 24)) (e - -14))
    with (e - 10) by lia.
  replace (e - -14 - (e - 10)) with 24 by lia.
  cbv iota.
  rewrite Z.shiftl_mul_pow2 by lia.
  pose proof (Z_div_mod (Zpos m * 2 ^ 24) 16384000 eq_refl) as Hdiv.
  destruct (Z.div_eucl (Zpos m * 2 ^ 24) 16384000) as [q r].
  destruct Hdiv as [Hq Hr].
  change (2 ^ 24) with 16777216 in *. change (2 ^ 23) with 8388608 in *.
  assert (Hqb : 8388608 <= q < 33554432) by lia.
  destruct q as [|pq|pq]; [lia| |lia].
  assert (Hdq : Zpos (digits2_pos pq) = 24 \/ Zpos (digits2_pos pq) = 25).
  { destruct (Z.lt_ge_cases (Zpos pq) 16777216).
    - left. apply digits2_unique. cbn. lia.
    - right. apply digits2_unique. cbn. lia. }
  destruct (binary_round_aux_normal pq (e - 10) (new_location 16384000 r))
    as (m' & e' & E & Hm' & He'); try lia.
  exists m', e'. split; [exact E|]. split; [exact Hm' | lia].
Qed.

Lemma compare_with_one m e :
  SFcompare (S754_finite false m e) F32.one =
  Some match e ?= -23 with
       | Lt => Lt
       | Gt => Gt
       | Eq => Zpos m ?= 8388608
       end
  /\ SFcompare F32.one (S754_finite false m e) =
     Some match -23 ?= e with
          | Lt => Lt
          | Gt => Gt
          | Eq => 8388608 ?= Zpos m
          end.
Proof.
  unfold SFcompare, F32.one. rewrite !Pos.compare_cont_spec.
  cbn [Z.compare].
  split; do 2 f_equal.
  - now destruct (m ?= 8388608)%positive.
  - now destruct (8388608 ?= m)%positive.
Qed.

(** From 1024 on, the time scale is 1. *)
Lemma ramp_large c : 1024 <= c < 2 ^ 31 -> ramp c = F32.one.
Proof.
  intros Hc. destruct c as [|p|p]; try lia.
  assert (Hd : 11 <= Zpos (digits2_pos p) <= 31).
  { destruct (digits2_bounds p) as [Blo Bhi].
    set (d := Zpos (digits2_pos p)) in *.
    assert (H0 : 0 < d) by (subst d; lia).
    split.
    - destruct (Z.lt_ge_cases d 11) as [H|H]; [|exact H].
      assert (H1 : 2 ^ d <= 2 ^ 10) by (apply Z.pow_le_mono_r; lia).
      change (2 ^ 10) with 1024 in *. lia.
    - destruct (Z.lt_ge_cases 31 d) as [H|H]; [|lia].
      assert (H1 : 2 ^ 31 <= 2 ^ (d - 1)) by (apply Z.pow_le_mono_r; lia).
      lia. }
  destruct (of_Z_normal p) as (m & e & E & Hm & He); [lia|].
  destruct (div_1000_normal m e Hm) as (m' & e' & E' & Hm' & He'); [lia|].
  unfold ramp. change UNFADE_TIME with 1000. rewrite E, E'.
  unfold F32.min, SFltb. rewrite (proj1 (compare_with_one m' e')).
  assert (He23 : -23 <= e') by lia.
  assert (Hm23 : 8388608 <= Zpos m') by (apply Hm').
  clear - He23 Hm23.
  destruct (Z.compare_spec e' (-23)) as [->|Hlt|Hgt]; [|lia|reflexivity].
  destruct (Z.compare_spec (Zpos m') 8388608) as [Heq|Hlt|Hgt];
    try reflexivity.
  lia.
Qed.

Lemma digits2_below p k : 0 <= k -> Zpos p < 2 ^ k -> Zpos (digits2_pos p) <= k.
Proof.
  intros Hk Hp. destruct (digits2_bounds p) as [Blo _].
  destruct (Z.le_gt_cases (Zpos (digits2_pos p)) k) as [H|H]; [exact H|].
  assert (H1 : 2 ^ k <= 2 ^ (Zpos (digits2_pos p) - 1))
    by (apply Z.pow_le_mono_r; lia).
  lia.
Qed.

Lemma clamp_finite m e :
  (if F32.gtb (S754_finite false m e) F32.one then F32.one
   else S754_finite false m e) =
  F32.min F32.one (S754_finite false m e).
Proof.
  unfold F32.gtb, F32.min, SFltb.
  destruct (compare_with_one m e) as [-> ->].
  rewrite (Z.compare_antisym e (-23)), (Z.compare_antisym (Zpos m) 8388608).
  destruct (Z.compare_spec e (-23)) as [->|Hlt|Hgt]; cbn [CompOpp];
    try reflexivity.
  destruct (Z.compare_spec (Zpos m) 8388608) as [Heq|Hlt|Hgt];
    try reflexivity.
  injection Heq as ->. reflexivity.
Qed.

(** The test of [Unfade] against 1 gives the minimum of 1 and the quotient:
    the quotient of an integer by 1000 is a number. *)
Lemma clamp_is_ramp c :
  0 <= c < 2 ^ 31 ->
  (let timeK := F32.div (F32.of_Z c) (F32.of_Z UNFADE_TIME) in
   if F32.gtb timeK F32.one then F32.one else timeK) = ramp c.
Proof.
  intros Hc. cbv zeta. unfold ramp. change UNFADE_TIME with 1000.
  destruct c as [|p|p]; [vm_compute; reflexivity | | lia].
  pose proof (digits2_below p 31 ltac:(lia) ltac:(lia)) as Hd.
  destruct (of_Z_normal p) as (m & e & E & Hm & He); [lia|].
  destruct (div_1000_normal m e Hm) as (m' & e' & E' & Hm' & He'); [lia|].
  rewrite E, E'. apply clamp_finite.
Qed.

Lemma lookup_In {A} (l : list A) i x : l !! i = Some x -> In x l.
Proof.
  revert i. induction l as [|a l IH]; intros i H; [now rewrite lookup_nil in H|].
  destruct i as [|i]; cbn in H; [injection H as <-; now left | right; eauto].
Qed.

Lemma ascending_lookup l :
  ascending l = true ->
  forall i j x y, (i <= j)%nat -> l !! i = Some x -> l !! j = Some y ->
  F32.leb x y = true.
Proof.
  induction l as [|a l IH]; intros H i j x y Hij Hi Hj;
    [now rewrite lookup_nil in Hi|].
  cbn [ascending] in H. apply andb_true_iff in H as [Hh Ht].
  destruct i as [|i].
  - cbn in Hi. injection Hi as <-.
    rewrite forallb_forall in Hh. apply Hh. eapply lookup_In, Hj.
  - destruct j as [|j]; [lia|]. cbn in Hi, Hj.
    apply (IH Ht i j); [lia | exact Hi | exact Hj].
Qed.

Lemma map_seq_lookup {A} (f : nat -> A) (n : nat) (c : Z) :
  0 <= c < Z.of_nat n ->
  map f (seq 0 n) !! Z.to_nat c = Some (f (Z.to_nat c)).
Proof.
  intros Hc. change (map f (seq 0 n)) with (f <$> seq 0 n).
  rewrite list_lookup_fmap, lookup_seq_lt by lia. reflexivity.
Qed.

(** The time scales of the counters 0 to 1023, one after the other. *)
Lemma ramp_table :
  ascending (map (fun i => ramp (Z.of_nat i)) (seq 0 1024)) = true.
Proof. vm_compute. reflexivity. Qed.

Lemma ramp_mono_small a b :
  0 <= a <= b -> b < 1024 -> F32.leb (ramp a) (ramp b) = true.
Proof.
  intros Hab Hb.
  assert (Hn : Z.of_nat 1024 = 1024) by (vm_compute; reflexivity).
  pose proof (map_seq_lookup (fun i => ramp (Z.of_nat i)) 1024 a) as Ha.
  pose proof (map_seq_lookup (fun i => ramp (Z.of_nat i)) 1024 b) as Hb'.
  rewrite Hn in Ha, Hb'. specialize (Ha ltac:(lia)). specialize (Hb' ltac:(lia)).
  cbv beta in Ha, Hb'. rewrite Z2Nat.id in Ha, Hb' by lia.
  assert (Hn' : (Z.to_nat a <= Z.to_nat b)%nat) by lia.
  exact (ascending_lookup _ ramp_table _ _ _ _ Hn' Ha Hb').
Qed.

Lemma ramp_1023 : ramp 1023 = F32.one.
Proof. vm_compute. reflexivity. Qed.

(** The time scale grows with the counter. *)
Lemma ramp_mono c1 c2 :
  0 <= c1 <= c2 -> c2 < 2 ^ 31 -> F32.leb (ramp c1) (ramp c2) = true.
Proof.
  intros Hc H2.
  destruct (Z.lt_ge_cases c2 1024) as [Hlt|Hge]; [now apply ramp_mono_small|].
  rewrite (ramp_large c2) by lia.
  destruct (Z.lt_ge_cases c1 1024) as [Hlt1|Hge1].
  - rewrite <- ramp_1023. apply ramp_mono_small; lia.
  - rewrite (ramp_large c1) by lia. reflexivity.
Qed.

(** *** The unfade ramp *)

Lemma ramp_state_aside w w' : aside w w' -> ramp_state w' = ramp_state w.
Proof.
  intros H. unfold ramp_state.
  rewrite (aside_field fadeTime_ _ _ (fun _ => eq_refl) H).
  now rewrite (aside_timeScale _ _ H).
Qed.

Lemma ramp_state_upd (g : LegacyDialog -> LegacyDialog) w :
  fadeTime_ (g (dialog w)) = fadeTime_ (dialog w) ->
  ramp_state (upd g w) = ramp_state w.
Proof. unfold ramp_state, upd. cbn. now intros ->. Qed.

Lemma ramp_state_ProcessControls h w :
  ramp_state (ProcessControls h w) = ramp_state w.
Proof. rewrite ProcessControls_frame. reflexivity. Qed.

Lemma ramp_state_UpdateBackBuffers w :
  ramp_state (UpdateBackBuffers w) = ramp_state w.
Proof.
  unfold UpdateBackBuffers, ramp_state. cbv zeta.
  cbn [dialog timeScale upd call set_vertexBuffers set_render set_dialog
       fadeTime_ set_textureLines_ set_backNeedsUpdate_].
  reflexivity.
Qed.

(** Of a frame, [Unfade] alone moves the counter and the time scale. *)
Lemma ramp_state_Realize h w : ramp_state (Realize h w) = ramp_state (Unfade h w).
Proof.
  rewrite Realize_phases.
  rewrite (ramp_state_aside _ _ (aside_hush _ _)).
  rewrite (ramp_state_aside _ _ (aside_draw _)).
  unfold rebuild_if_needed.
  match goal with |- context [if ?b then _ else _] => destruct b end;
    rewrite ?ramp_state_UpdateBackBuffers, ramp_state_ProcessControls;
    (rewrite ramp_state_upd by (rewrite UpdateScreenSize_eq; reflexivity));
    now rewrite (ramp_state_aside _ _ (aside_greet _ _)).
Qed.

(** Between frames nothing moves them. *)
Lemma ramp_state_event e w :
  (forall h, e <> EvRealize h) -> ramp_state (step w e) = ramp_state w.
Proof.
  intros He. destruct e as [h|h tree a|c n l]; unfold step.
  - now destruct (He h).
  - transitivity (ramp_state (upd (set_AttributesPointer tree) w));
      [|now apply ramp_state_upd].
    destruct (is_node_attribute (GetThisName a)) eqn:Hn.
    + rewrite (AttributeChanged_node _ _ _ Hn).
      rewrite ramp_state_upd by (rewrite UpdateDialogText_eq; reflexivity).
      apply ramp_state_upd; now apply UpdateLinks_field.
    + apply ramp_state_aside, AttributeChanged_other, Hn.
  - apply ramp_state_aside, ProcessMessage_aside.
Qed.

Lemma Unfade_ramp h w :
  0 <= fadeTime_ (dialog w) <= 1000 ->
  0 <= GetRDeltaTime h < 2 ^ 31 - 1000 ->
  ramp_state (Unfade h w) =
  (fadeTime_ (dialog w) + GetRDeltaTime h,
   ramp (fadeTime_ (dialog w) + GetRDeltaTime h)).
Proof.
  intros Hf Hd. unfold Unfade, ramp_state.
  rewrite to_uint32_id by lia.
  replace (fadeTime_ (dialog w) <=? UNFADE_TIME) with true
    by (symmetry; apply Z.leb_le; unfold UNFADE_TIME; lia).
  cbn [dialog upd set_dialog set_timeScale timeScale fadeTime_ set_fadeTime_].
  rewrite (to_int32_id (GetRDeltaTime h)) by (unfold INT32_MIN, INT32_MAX; lia).
  rewrite to_int32_id by (unfold INT32_MIN, INT32_MAX; lia).
  rewrite <- clamp_is_ramp by lia. reflexivity.
Qed.

Lemma Unfade_done h w :
  1000 < fadeTime_ (dialog w) < 2 ^ 31 -> Unfade h w = w.
Proof.
  intros Hf. unfold Unfade. rewrite to_uint32_id by lia.
  replace (fadeTime_ (dialog w) <=? UNFADE_TIME) with false; [reflexivity|].
  symmetry. apply Z.leb_gt. unfold UNFADE_TIME. lia.
Qed.

Lemma ramp_state_inj w c t :
  ramp_state w = (c, t) -> fadeTime_ (dialog w) = c /\ timeScale w = t.
Proof. unfold ramp_state. intros E. injection E as -> ->. auto. Qed.

(** A step keeps the time scale the one of the counter, and the counter does
    not go back. *)
Lemma ramp_ok_step e w :
  ramp_ok w -> frame_time_ok e ->
  ramp_ok (step w e)
  /\ fadeTime_ (dialog w) <= fadeTime_ (dialog (step w e)).
Proof.
  intros [Hr Ht] He. unfold ramp_ok.
  assert (Hsame : ramp_state (step w e) = ramp_state w ->
                  (0 <= fadeTime_ (dialog (step w e)) < 2 ^ 31
                   /\ timeScale (step w e) = ramp (fadeTime_ (dialog (step w e))))
                  /\ fadeTime_ (dialog w) <= fadeTime_ (dialog (step w e))).
  { intros E. apply ramp_state_inj in E as [-> ->].
    split; [split|]; auto; lia. }
  destruct e as [h|h tree a|c n l].
  - cbn [frame_time_ok] in He.
    destruct (Z.le_gt_cases (fadeTime_ (dialog w)) 1000) as [Hle|Hgt].
    + pose proof (ramp_state_Realize h w) as E.
      rewrite Unfade_ramp in E by lia.
      apply ramp_state_inj in E as [E1 E2].
      change (step w (EvRealize h)) with (Realize h w).
      rewrite E1, E2. split; [split|]; [lia | reflexivity | lia].
    + apply Hsame. change (step w (EvRealize h)) with (Realize h w).
      now rewrite ramp_state_Realize, Unfade_done by lia.
  - apply Hsame, ramp_state_event. discriminate.
  - apply Hsame, ramp_state_event. discriminate.
Qed.

(** Along a run the time scales are those of counters that do not go
    back. *)
Lemma time_scales_counters es : forall w,
  ramp_ok w -> Forall frame_time_ok es ->
  fadeTime_ (dialog w) <= fadeTime_ (dialog (run w es))
  /\ ramp_ok (run w es)
  /\ Forall (fun y => exists c, y = ramp c
                      /\ fadeTime_ (dialog w) <= c < 2 ^ 31)
            (time_scales w es).
Proof.
  induction es as [|e es IH]; intros w Hw Hes.
  - split; [cbn; lia|]. split; [exact Hw | constructor].
  - pose proof (Forall_inv Hes) as He. pose proof (Forall_inv_tail Hes) as Hes'.
    destruct (ramp_ok_step e w Hw He) as [Hw1 Hle].
    destruct (IH (step w e) Hw1 Hes') as (Hle1 & Hok & Hall).
    change (run w (e :: es)) with (run (step w e) es).
    cbn [time_scales].
    split; [lia|]. split; [exact Hok|]. constructor.
    + exists (fadeTime_ (dialog (step w e))).
      destruct Hw1 as [Hr1 Ht1]. split; [exact Ht1 | lia].
    + eapply Forall_impl; [exact Hall|]. cbv beta.
      intros y (c & -> & Hc). exists c. split; [reflexivity | lia].
Qed.

Lemma time_scales_ascending es : forall w,
  ramp_ok w -> Forall frame_time_ok es ->
  ascending (timeScale w :: time_scales w es) = true.
Proof.
  induction es as [|e es IH]; intros w Hw Hes.
  - cbn. destruct Hw as [Hr ->]. rewrite ramp_mono by lia. reflexivity.
  - pose proof (Forall_inv Hes) as He. pose proof (Forall_inv_tail Hes) as Hes'.
    destruct (ramp_ok_step e w Hw He) as [Hw1 Hle].
    destruct (time_scales_counters (e :: es) w Hw Hes) as (_ & _ & Hall).
    cbn [ascending]. apply andb_true_iff. split.
    + cbn [forallb]. destruct Hw as [Hr Ht].
      apply andb_true_iff. split; [rewrite Ht; apply ramp_mono; lia|].
      apply forallb_forall. intros y Hy.
      rewrite Forall_forall in Hall. apply list_elem_of_In in Hy.
      destruct (Hall y Hy) as (c & -> & Hc).
      rewrite Ht. apply ramp_mono; lia.
    + cbn [time_scales]. apply IH; assumption.
Qed.

(** The time scales of the quarters of the ramp. *)
Lemma ramp_quarters :
  ramp 250 = F32.div (F32.of_Z 1) (F32.of_Z 4)
  /\ ramp 500 = F32.div (F32.of_Z 1) (F32.of_Z 2)
  /\ ramp 750 = F32.div (F32.of_Z 3) (F32.of_Z 4)
  /\ ramp 1000 = F32.of_Z 1
  /\ ramp 1250 = F32.of_Z 1.
Proof. vm_compute. repeat split; reflexivity. Qed.

(** C9: [Unfade] adds the time of the frame to a counter, as long as the
    counter is not above 1000, and sets the time scale to
    [min (1, counter / 1000)]; nothing else writes the counter or the time
    scale, so that the ramp is never reset, and once the counter is above 1000
    it stays, with the time scale.  Along any run from a state in which the
    time scale is the one of the counter, as after [Init], the time scales
    are ascending.  From the counter 0, five frames of 250 ms give the time
    scales 0.25, 0.5, 0.75, 1 and 1.  The time of a frame is not negative and
    below [2^31 - 1000] ms. *)
Theorem unfade_ramp w :
  (forall h,
      0 <= fadeTime_ (dialog w) <= 1000 ->
      0 <= GetRDeltaTime h < 2 ^ 31 - 1000 ->
      fadeTime_ (dialog (Realize h w)) = fadeTime_ (dialog w) + GetRDeltaTime h
      /\ timeScale (Realize h w) =
           F32.min F32.one
             (F32.div (F32.of_Z (fadeTime_ (dialog (Realize h w))))
                      (F32.of_Z 1000)))
  /\ (forall h,
        1000 < fadeTime_ (dialog w) < 2 ^ 31 ->
        fadeTime_ (dialog (Realize h w)) = fadeTime_ (dialog w)
        /\ timeScale (Realize h w) = timeScale w)
  /\ (forall e,
        (forall h, e <> EvRealize h) ->
        fadeTime_ (dialog (step w e)) = fadeTime_ (dialog w)
        /\ timeScale (step w e) = timeScale w)
  /\ (forall es,
        ramp_ok w -> Forall frame_time_ok es ->
        ascending (timeScale w :: time_scales w es) = true
        /\ fadeTime_ (dialog w) <= fadeTime_ (dialog (run w es)))
  /\ (forall h1 h2 h3 h4 h5,
        fadeTime_ (dialog w) = 0 ->
        Forall (fun h => GetRDeltaTime h = 250) [h1; h2; h3; h4; h5] ->
        time_scales w (map EvRealize [h1; h2; h3; h4; h5]) =
        [F32.div (F32.of_Z 1) (F32.of_Z 4); F32.div (F32.of_Z 1) (F32.of_Z 2);
         F32.div (F32.of_Z 3) (F32.of_Z 4); F32.of_Z 1; F32.of_Z 1]).
Proof.
  assert (Hstep : forall w h,
             0 <= fadeTime_ (dialog w) <= 1000 ->
             0 <= GetRDeltaTime h < 2 ^ 31 - 1000 ->
             fadeTime_ (dialog (Realize h w)) =
               fadeTime_ (dialog w) + GetRDeltaTime h
             /\ timeScale (Realize h w) =
                  ramp (fadeTime_ (dialog w) + GetRDeltaTime h)).
  { intros w0 h Hf Hd. apply ramp_state_inj.
    now rewrite ramp_state_Realize, Unfade_ramp. }
  split; [|split; [|split; [|split]]].
  - intros h Hf Hd. destruct (Hstep w h Hf Hd) as [E1 E2].
    split; [exact E1|]. rewrite E2, E1. reflexivity.
  - intros h Hf. apply ramp_state_inj.
    now rewrite ramp_state_Realize, Unfade_done.
  - intros e He. apply ramp_state_inj. now apply ramp_state_event.
  - intros es Hw Hes. split; [now apply time_scales_ascending|].
    now destruct (time_scales_counters es w Hw Hes).
  - intros h1 h2 h3 h4 h5 H0 Hall.
    destruct ramp_quarters as (Q1 & Q2 & Q3 & Q4 & Q5).
    pose proof (Forall_inv Hall) as D1.
    pose proof (Forall_inv (Forall_inv_tail Hall)) as D2.
    pose proof (Forall_inv (Forall_inv_tail (Forall_inv_tail Hall))) as D3.
    pose proof (Forall_inv (Forall_inv_tail (Forall_inv_tail
                  (Forall_inv_tail Hall)))) as D4.
    pose proof (Forall_inv (Forall_inv_tail (Forall_inv_tail
                  (Forall_inv_tail (Forall_inv_tail Hall))))) as D5.
    cbv beta in D1, D2, D3, D4, D5.
    cbn [map time_scales step].
    set (w1 := Realize h1 w). set (w2 := Realize h2 w1).
    set (w3 := Realize h3 w2). set (w4 := Realize h4 w3).
    set (w5 := Realize h5 w4).
    destruct (Hstep w h1) as [F1 T1]; [lia | lia|]. fold w1 in F1, T1.
    rewrite H0, D1 in F1, T1. change (0 + 250) with 250 in F1, T1.
    destruct (Hstep w1 h2) as [F2 T2]; [lia | lia|]. fold w2 in F2, T2.
    rewrite F1, D2 in F2, T2. change (250 + 250) with 500 in F2, T2.
    destruct (Hstep w2 h3) as [F3 T3]; [lia | lia|]. fold w3 in F3, T3.
    rewrite F2, D3 in F3, T3. change (500 + 250) with 750 in F3, T3.
    destruct (Hstep w3 h4) as [F4 T4]; [lia | lia|]. fold w4 in F4, T4.
    rewrite F3, D4 in F4, T4. change (750 + 250) with 1000 in F4, T4.
    destruct (Hstep w4 h5) as [F5 T5]; [lia | lia|]. fold w5 in F5, T5.
    rewrite F4, D5 in F5, T5. change (1000 + 250) with 1250 in F5, T5.
    rewrite T1, T2, T3, T4, T5, Q1, Q2, Q3, Q4, Q5. reflexivity.
Qed.


(** ** Further properties *)

(** *** What a frame leaves alone *)

Lemma dialog_SetAction a w : dialog (SetAction a w) = dialog w.
Proof. unfold SetAction. now destruct (_ =? 0). Qed.

Lemma dialog_DrawBackground s c w : dialog (DrawBackground s c w) = dialog w.
Proof. reflexivity. Qed.

Lemma dialog_fold {A} (g : World * Z -> A -> World * Z) (l : list A) w z :
  (forall w z a, dialog (fst (g (w, z) a)) = dialog w) ->
  dialog (fst (foldl g (w, z) l)) = dialog w.
Proof.
  intros Hg. revert w z.
  induction l as [|a l IH]; intros w z; [reflexivity|].
  cbn. specialize (Hg w z a). destruct (g (w, z) a) as [w1 z1].
  rewrite IH. exact Hg.
Qed.

Lemma dialog_DrawLinks w : dialog (DrawLinks w) = dialog w.
Proof.
  unfold DrawLinks. destruct (negb _); [|reflexivity].
  apply dialog_fold. reflexivity.
Qed.

Lemma dialog_DrawDialogText w : dialog (DrawDialogText w) = dialog w.
Proof.
  unfold DrawDialogText. destruct (negb _); [|reflexivity].
  apply dialog_fold. reflexivity.
Qed.

(** The drawing reads the component and writes nothing of it. *)
Lemma dialog_draw w : dialog (draw w) = dialog w.
Proof.
  unfold draw. cbv zeta.
  rewrite dialog_DrawBackground, dialog_DrawDialogText, dialog_DrawLinks.
  match goal with |- context [if ?b then _ else _] => destruct b end;
    reflexivity.
Qed.

Lemma frame_constants_upd (g : LegacyDialog -> LegacyDialog) w :
  (forall d, frame_constants (g d) = frame_constants d) ->
  frame_constants (dialog (upd g w)) = frame_constants (dialog w).
Proof. intros Hg. apply Hg. Qed.

Lemma frame_constants_greet h w :
  frame_constants (dialog (greet h w)) = frame_constants (dialog w).
Proof.
  unfold greet. destruct (_ && _ && _); [|reflexivity].
  cbv zeta. destruct (negb _); [|reflexivity].
  unfold upd at 1. cbn [dialog set_dialog].
  rewrite dialog_SetAction. reflexivity.
Qed.

Lemma frame_constants_hush h w :
  frame_constants (dialog (hush h w)) = frame_constants (dialog w).
Proof.
  unfold hush. destruct (_ && _ && _); [|reflexivity].
  unfold upd. cbn [dialog set_dialog]. rewrite dialog_SetAction. reflexivity.
Qed.

Lemma frame_constants_UpdateBackBuffers w :
  frame_constants (dialog (UpdateBackBuffers w)) = frame_constants (dialog w).
Proof. reflexivity. Qed.

Lemma frame_constants_ProcessControls h w :
  frame_constants (dialog (ProcessControls h w)) = frame_constants (dialog w).
Proof. rewrite ProcessControls_frame. reflexivity. Qed.

Lemma frame_constants_Unfade h w :
  frame_constants (dialog (Unfade h w)) = frame_constants (dialog w).
Proof. cbv zeta. rewrite Unfade_frame. reflexivity. Qed.

Lemma frame_constants_Realize h w :
  frame_constants (dialog (Realize h w)) = frame_constants (dialog w).
Proof.
  rewrite Realize_phases, frame_constants_hush, dialog_draw.
  transitivity (frame_constants
                  (dialog (ProcessControls h
                             (upd (UpdateScreenSize h) (greet h (Unfade h w)))))).
  { unfold rebuild_if_needed.
    match goal with |- context [if ?b then _ else _] => destruct b end;
      [apply frame_constants_UpdateBackBuffers | reflexivity]. }
  rewrite frame_constants_ProcessControls.
  rewrite frame_constants_upd by (intros d; rewrite UpdateScreenSize_eq; reflexivity).
  now rewrite frame_constants_greet, frame_constants_Unfade.
Qed.

(** X1: a frame reads the texts, the fonts, the texture, the handles of the
    buffers, the head model and the name of the greeting, and writes none of
    them: of the component it writes the counter of the ramp, the state of
    the greeting with the handle of its sound, the cached scales with the line
    height, the dirty flag with [textureLines_], the selection and the
    attribute tree. *)
Theorem frame_keeps_constants h w :
  frame_constants (dialog (Realize h w)) = frame_constants (dialog w).
Proof. apply frame_constants_Realize. Qed.

(** *** The selection along frames *)

(** Of a frame, only the controls touch the selection and the links. *)
Lemma selection_before_controls h w :
  let w1 := upd (UpdateScreenSize h) (greet h (Unfade h w)) in
  selectedLink_ (dialog w1) = selectedLink_ (dialog w)
  /\ links_ (dialog w1) = links_ (dialog w).
Proof.
  cbv zeta.
  pose proof (aside_field selectedLink_ _ _ (fun _ => eq_refl)
                (aside_greet h (Unfade h w))) as Hs.
  pose proof (aside_field links_ _ _ (fun _ => eq_refl)
                (aside_greet h (Unfade h w))) as Hl.
  assert (Hs0 : selectedLink_ (dialog (Unfade h w)) = selectedLink_ (dialog w))
    by (rewrite Unfade_frame; reflexivity).
  assert (Hl0 : links_ (dialog (Unfade h w)) = links_ (dialog w))
    by (rewrite Unfade_frame; reflexivity).
  rewrite <- Hs0, <- Hl0, <- Hs, <- Hl.
  unfold upd. cbn [dialog set_dialog].
  rewrite UpdateScreenSize_eq. split; reflexivity.
Qed.

Lemma selection_after_controls h w :
  let w' := hush h (draw (rebuild_if_needed w)) in
  selectedLink_ (dialog w') = selectedLink_ (dialog w)
  /\ links_ (dialog w') = links_ (dialog w).
Proof.
  cbv zeta.
  rewrite (aside_field selectedLink_ _ _ (fun _ => eq_refl) (aside_hush h _)).
  rewrite (aside_field links_ _ _ (fun _ => eq_refl) (aside_hush h _)).
  rewrite dialog_draw. unfold rebuild_if_needed.
  destruct (backNeedsUpdate_ (dialog w)); split; reflexivity.
Qed.

Lemma selection_in_range_frame h w :
  Z.of_nat (length (links_ (dialog w))) < 2 ^ 31 ->
  selection_in_range (dialog w) ->
  selection_in_range (dialog (Realize h w))
  /\ links_ (dialog (Realize h w)) = links_ (dialog w).
Proof.
  intros Hlen Hsel. rewrite Realize_phases.
  destruct (selection_before_controls h w) as [Hs1 Hl1].
  set (w1 := upd (UpdateScreenSize h) (greet h (Unfade h w))) in *.
  destruct (selection_after_controls h (ProcessControls h w1)) as [Hs2 Hl2].
  assert (Hl : links_ (dialog (ProcessControls h w1)) = links_ (dialog w1)).
  { rewrite ProcessControls_frame. reflexivity. }
  assert (Hin : selection_in_range (dialog (ProcessControls h w1))).
  { apply selection_stays_in_range.
    - now rewrite Hl1.
    - unfold selection_in_range in *. now rewrite Hs1, Hl1. }
  split.
  - unfold selection_in_range in *. now rewrite Hs2, Hl2.
  - now rewrite Hl2, Hl, Hl1.
Qed.

(** X2: over frames, as long as the host changes no attribute, a selection
    on a line of the list of links stays on a line of the list, whatever the
    controls, and the list stays as it is.  The list has fewer than 2^31
    links. *)
Theorem selection_stays_on_list hs : forall w,
  Z.of_nat (length (links_ (dialog w))) < 2 ^ 31 ->
  selection_in_range (dialog w) ->
  let w' := run w (map EvRealize hs) in
  selection_in_range (dialog w') /\ links_ (dialog w') = links_ (dialog w).
Proof.
  induction hs as [|h hs IH]; intros w Hlen Hsel; cbv zeta.
  - split; [exact Hsel | reflexivity].
  - destruct (selection_in_range_frame h w Hlen Hsel) as [Hsel1 Hl1].
    change (run w (map EvRealize (h :: hs)))
      with (run (Realize h w) (map EvRealize hs)).
    destruct (IH (Realize h w)) as [H1 H2]; [now rewrite Hl1 | exact Hsel1|].
    split; [exact H1 | now rewrite H2].
Qed.

(** *** The events *)

Lemma events_ProcessControls h w :
  events (ProcessControls h w) = events w
  \/ (bDoAction h = true
      /\ events (ProcessControls h w) = (events w ++ ["DialogEvent"])%list
      /\ selectedLink_ (dialog (ProcessControls h w)) = 0).
Proof.
  rewrite ProcessControls_blocks. cbv zeta.
  assert (He : events (doDown h (doUp h w)) = events w).
  { destruct (doDown_attributes h (doUp h w)) as (_ & E & _).
    destruct (doUp_attributes h w) as (_ & E' & _). congruence. }
  destruct (bDoAction h); [|now left].
  destruct (selected_entry _); [|left; now rewrite PlayTick_events].
  right. split; [reflexivity|]. unfold confirm.
  cbn [events set_events upd set_dialog dialog selectedLink_ set_selectedLink_].
  now rewrite PlayTick_events, He.
Qed.

(** X3: the one event the component raises is [DialogEvent], at most once in
    a frame and only in a frame in which a control of confirm is activated;
    the selection is then back on the first line.  A change of an attribute
    and a message raise none. *)
Theorem events_only_on_confirm e w :
  events (step w e) = events w
  \/ (exists h, e = EvRealize h /\ bDoAction h = true
       /\ events (step w e) = (events w ++ ["DialogEvent"])%list
       /\ selectedLink_ (dialog (step w e)) = 0).
Proof.
  destruct e as [h|h tree a|c n l].
  - change (step w (EvRealize h)) with (Realize h w).
    rewrite Realize_phases.
    set (w1 := upd (UpdateScreenSize h) (greet h (Unfade h w))).
    assert (E1 : events w1 = events w).
    { subst w1. unfold upd. cbn [events set_dialog].
      rewrite (aside_events _ _ (aside_greet h _)).
      rewrite Unfade_frame. reflexivity. }
    assert (E2 : events (hush h (draw (rebuild_if_needed (ProcessControls h w1))))
                 = events (ProcessControls h w1)).
    { rewrite (aside_events _ _ (aside_hush h _)).
      rewrite (aside_events _ _ (aside_draw _)).
      unfold rebuild_if_needed.
      now destruct (backNeedsUpdate_ (dialog (ProcessControls h w1))). }
    destruct (selection_after_controls h (ProcessControls h w1)) as [S2 _].
    rewrite E2, S2, <- E1.
    destruct (events_ProcessControls h w1) as [E|(Ha & E & S)]; [now left|].
    right. exists h. auto.
  - left. unfold step.
    transitivity (events (upd (set_AttributesPointer tree) w)); [|reflexivity].
    destruct (is_node_attribute (GetThisName a)) eqn:Hn.
    + rewrite (AttributeChanged_node _ _ _ Hn). reflexivity.
    + apply aside_events, AttributeChanged_other, Hn.
  - left. apply aside_events, ProcessMessage_aside.
Qed.

(** *** The screen size *)

(** X4: [UpdateScreenSize] is idempotent: called again with the same viewport
    and screen it changes nothing, whatever the sizes. *)
Theorem UpdateScreenSize_idempotent h d :
  UpdateScreenSize h (UpdateScreenSize h d) = UpdateScreenSize h d.
Proof.
  rewrite (UpdateScreenSize_eq h (UpdateScreenSize h d)).
  rewrite (UpdateScreenSize_eq h d). cbv zeta.
  cbn [fontScale_ lineHeight_ backNeedsUpdate_ screenScale_ set_lineHeight_
       set_fontScale_ set_backNeedsUpdate_ set_screenScale_].
  rewrite differ_refl, scale_differs_next, orb_false_r.
  unfold next_scale at 1. rewrite scale_differs_next.
  reflexivity.
Qed.

(** *** The name of the character *)

Lemma toupper_not_lower c : is_lower (toupper c) = false.
Proof. destruct c as [[] [] [] [] [] [] [] []]; reflexivity. Qed.

Lemma string_map_length f s : String.length (string_map f s) = String.length s.
Proof.
  induction s as [|c s IH]; [reflexivity|].
  change (S (String.length (string_map f s)) = S (String.length s)).
  now rewrite IH.
Qed.

Lemma string_app_length (a b : string) :
  String.length (a +:+ b) = (String.length a + String.length b)%nat.
Proof.
  induction a as [|c a IH]; [reflexivity|].
  change (S (String.length (a +:+ b)) =
          (S (String.length a) + String.length b)%nat).
  now rewrite IH.
Qed.

Lemma string_map_upper s :
  Forall (fun c => is_lower c = false)
         (list_ascii_of_string (string_map toupper s)).
Proof.
  induction s as [|c s IH]; cbn; constructor;
    [apply toupper_not_lower | exact IH].
Qed.

(** X5: the message 1 sets the name of the character to the name and the last
    name with a space between, in upper case: it has the length of both and
    one more, so that it is never empty, also when both attributes are
    missing, and no lower-case letter; every other message changes
    nothing. *)
Theorem character_name_of_message n l w :
  let name := characterName_ (dialog (ProcessMessage 1 n l w)) in
  name = string_map toupper (default "" n +:+ " " +:+ default "" l)
  /\ String.length name =
       (String.length (default "" n) + 1 + String.length (default "" l))%nat
  /\ string_empty name = false
  /\ Forall (fun c => is_lower c = false) (list_ascii_of_string name)
  /\ (forall code, code <> 1 -> ProcessMessage code n l w = w).
Proof.
  cbv zeta. unfold ProcessMessage. cbn [Z.eqb Pos.eqb].
  cbn [dialog upd set_dialog characterName_ set_characterName_].
  split; [reflexivity|]. split.
  { rewrite string_map_length, !string_app_length. cbn. lia. }
  split.
  { destruct (default "" n); reflexivity. }
  split; [apply string_map_upper|].
  intros code Hc. destruct (Z.eqb_spec code 1); [contradiction | reflexivity].
Qed.

(** *** The time scale *)

Lemma Init_ramp h w :
  timeScale (Init h w) = F32.zero
  /\ fadeTime_ (dialog (Init h w)) = fadeTime_ (dialog w).
Proof.
  unfold Init, DoTextureCreate, CreateBackBuffers, CreateVertexBuffer,
    CreateIndexBuffer, FillIndexBuffer, LoadIni. cbv zeta.
  cbn [render dialog timeScale upd call set_vertexBuffers set_indexBuffers
       set_render set_dialog set_timeScale fadeTime_ set_backVertexBuffer_
       set_backIndexBuffer_ set_interfaceTexture_ set_soundService_
       set_mainFont_ set_nameFont_ set_subFont_].
  split; [reflexivity|].
  rewrite UpdateScreenSize_eq. reflexivity.
Qed.

Lemma ramp_zero : ramp 0 = F32.zero.
Proof. vm_compute. reflexivity. Qed.

Lemma ramp_bounds c :
  0 <= c < 2 ^ 31 ->
  F32.leb F32.zero (ramp c) = true /\ F32.leb (ramp c) F32.one = true.
Proof.
  intros Hc. split.
  - rewrite <- ramp_zero. apply ramp_mono; lia.
  - rewrite <- (ramp_large (2 ^ 31 - 1)) by lia. apply ramp_mono; lia.
Qed.

(** X6: after [Init] of a component whose counter is 0, the time scale is
    0, and whatever the host does then it stays between 0 and 1.  The time of
    a frame is not negative and below [2^31 - 1000] ms. *)
Theorem time_scale_in_unit_interval h w0 es :
  fadeTime_ (dialog w0) = 0 ->
  Forall frame_time_ok es ->
  timeScale (Init h w0) = F32.zero
  /\ F32.leb F32.zero (timeScale (run (Init h w0) es)) = true
  /\ F32.leb (timeScale (run (Init h w0) es)) F32.one = true.
Proof.
  intros H0 Hes. destruct (Init_ramp h w0) as [Ht Hf].
  split; [exact Ht|].
  assert (Hok : ramp_ok (Init h w0)).
  { split; [rewrite Hf, H0; lia|]. now rewrite Ht, Hf, H0, ramp_zero. }
  destruct (time_scales_counters es _ Hok Hes) as (_ & [Hr ->] & _).
  now apply ramp_bounds.
Qed.

Lemma ramp_partial c :
  0 <= c < 1000 -> F32.leb F32.one (ramp c) = false.
Proof.
  intros Hc.
  assert (H : forallb (fun i => negb (F32.leb F32.one (ramp (Z.of_nat i))))
                      (seq 0 1000) = true) by (vm_compute; reflexivity).
  rewrite forallb_forall in H.
  specialize (H (Z.to_nat c)). rewrite Z2Nat.id in H by lia.
  apply negb_true_iff, H, in_seq. lia.
Qed.

Lemma ramp_full c : 1000 <= c < 2 ^ 31 -> ramp c = F32.one.
Proof.
  intros Hc. destruct (Z.lt_ge_cases c 1024) as [Hlt|Hge];
    [|apply ramp_large; lia].
  assert (H : Forall (fun i => ramp (Z.of_nat i) = F32.one) (seq 1000 24)).
  { repeat constructor; vm_compute; reflexivity. }
  rewrite Forall_forall in H.
  specialize (H (Z.to_nat c)). rewrite Z2Nat.id in H by lia.
  apply H, list_elem_of_In, in_seq. lia.
Qed.

(** The counter follows the frame time until it passes 1000. *)
Lemma counter_of_run es : forall w,
  ramp_ok w -> Forall frame_time_ok es ->
  0 <= elapsed es
  /\ (fadeTime_ (dialog w) + elapsed es < 1000 ->
      fadeTime_ (dialog (run w es)) = fadeTime_ (dialog w) + elapsed es)
  /\ (1000 <= fadeTime_ (dialog w) + elapsed es ->
      1000 <= fadeTime_ (dialog (run w es))).
Proof.
  induction es as [|e es IH]; intros w Hw Hes.
  - cbn [elapsed run foldl]. repeat split; lia.
  - pose proof (Forall_inv Hes) as He. pose proof (Forall_inv_tail Hes) as Hes'.
    destruct (ramp_ok_step e w Hw He) as [Hw1 Hle].
    destruct (IH (step w e) Hw1 Hes') as (Hpos & Hlt & Hge).
    change (run w (e :: es)) with (run (step w e) es).
    destruct Hw as [Hr _].
    assert (Hstep :
              elapsed (e :: es) =
                (match e with EvRealize h => GetRDeltaTime h | _ => 0 end)
                + elapsed es
              /\ 0 <= match e with EvRealize h => GetRDeltaTime h | _ => 0 end
              /\ (fadeTime_ (dialog w) <= 1000 ->
                  fadeTime_ (dialog (step w e)) =
                    fadeTime_ (dialog w)
                    + match e with EvRealize h => GetRDeltaTime h | _ => 0 end)).
    { destruct e as [h|h tree a|c n l]; cbn [elapsed frame_time_ok] in *.
      - split; [reflexivity|]. split; [lia|]. intros Hc.
        change (step w (EvRealize h)) with (Realize h w).
        pose proof (ramp_state_Realize h w) as E.
        rewrite Unfade_ramp in E by lia.
        now apply ramp_state_inj in E as [E _].
      - split; [lia|]. split; [lia|]. intros _. rewrite Z.add_0_r.
        now apply (ramp_state_inj _ _ (timeScale w)), ramp_state_event.
      - split; [lia|]. split; [lia|]. intros _. rewrite Z.add_0_r.
        now apply (ramp_state_inj _ _ (timeScale w)), ramp_state_event. }
    destruct Hstep as (Hel & Hd & Hadd).
    split; [lia|]. split.
    + intros H. rewrite Hlt; rewrite Hadd by lia; lia.
    + intros H. destruct (Z.le_gt_cases (fadeTime_ (dialog w)) 1000) as [Hc|Hc].
      * apply Hge. rewrite Hadd by lia. lia.
      * destruct (Z.le_gt_cases 1000 (fadeTime_ (dialog (step w e) ) + elapsed es));
          [now apply Hge | lia].
Qed.

(** X7: the ramp lasts 1000 ms of frame time.  After [Init] of a component
    whose counter is 0, while the times of the frames add up to less than
    1000 ms the time scale is that sum over 1000, below 1; from the frame on
    with which they add up to 1000 ms or more, the time scale is 1. *)
Theorem ramp_lasts_1000_ms h w0 es :
  fadeTime_ (dialog w0) = 0 ->
  Forall frame_time_ok es ->
  let w := run (Init h w0) es in
  (elapsed es < 1000 ->
   timeScale w = F32.div (F32.of_Z (elapsed es)) (F32.of_Z 1000)
   /\ F32.leb F32.one (timeScale w) = false)
  /\ (1000 <= elapsed es -> timeScale w = F32.one).
Proof.
  intros H0 Hes. cbv zeta. destruct (Init_ramp h w0) as [Ht Hf].
  assert (Hok : ramp_ok (Init h w0)).
  { split; [rewrite Hf, H0; lia|]. now rewrite Ht, Hf, H0, ramp_zero. }
  destruct (time_scales_counters es _ Hok Hes) as (_ & [Hr Hts] & _).
  destruct (counter_of_run es _ Hok Hes) as (Hpos & Hlt & Hge).
  rewrite Hf, H0, !Z.add_0_l in Hlt, Hge.
  split.
  - intros H. rewrite Hts, Hlt by exact H.
    split; [|apply ramp_partial; lia].
    pose proof (ramp_partial (elapsed es) ltac:(lia)) as Hp.
    rewrite <- (clamp_is_ramp (elapsed es)) in Hp |- * by lia.
    cbv zeta in Hp |- *. change UNFADE_TIME with 1000 in *.
    destruct (F32.gtb _ F32.one); [discriminate Hp | reflexivity].
  - intros H. rewrite Hts. apply ramp_full. lia.
Qed.

(** *** The calls of a frame *)

Lemma to_int32_add_l a b : to_int32 (to_int32 a + b) = to_int32 (a + b).
Proof.
  unfold to_int32. f_equal.
  replace ((a + 2 ^ 31) mod 2 ^ 32 - 2 ^ 31 + b + 2 ^ 31)
    with ((a + 2 ^ 31) mod 2 ^ 32 + b) by lia.
  rewrite Zplus_mod_idemp_l. f_equal. lia.
Qed.

Lemma log_nil w : log [] w = w.
Proof.
  unfold log. cbv zeta. rewrite app_nil_r.
  destruct w as [d [vb ib t cs] ts ev snd an]. reflexivity.
Qed.

Lemma log_log a b w : log b (log a w) = log (a ++ b) w.
Proof. unfold log. cbn. now rewrite app_assoc. Qed.

Lemma call_log c w : call c w = log [c] w.
Proof. reflexivity. Qed.

Lemma dialog_log cs w : dialog (log cs w) = dialog w.
Proof. reflexivity. Qed.

Lemma DrawBackground_log s c w :
  DrawBackground s c w = log (background_calls (dialog w) s c) w.
Proof. unfold DrawBackground. cbv zeta. now rewrite !call_log, log_log. Qed.

(** The loop of [DrawLinks] and of [DrawDialogText]. *)
Lemma print_fold {A} (p : Z -> A -> RenderCall) lh (l : list A) : forall w k0,
  fst (foldl (fun '(w, line_offset) a =>
                (call (p line_offset a) w, to_int32 (line_offset + lh)))
             (w, to_int32 (Z.of_nat k0 * lh)) l) =
  log (imap (fun k a => p (to_int32 (Z.of_nat (k0 + k) * lh)) a) l) w.
Proof.
  induction l as [|a l IH]; intros w k0.
  - cbn. now rewrite log_nil.
  - cbn [foldl imap].
    rewrite to_int32_add_l.
    replace (Z.of_nat k0 * lh + lh) with (Z.of_nat (S k0) * lh) by lia.
    rewrite IH, call_log, log_log. cbn [app].
    rewrite Nat.add_0_r. do 2 f_equal.
    apply imap_ext. intros k x _. cbn. do 3 f_equal. lia.
Qed.

Lemma print_fold0 {A} (p : Z -> A -> RenderCall) lh (l : list A) w :
  fst (foldl (fun '(w, line_offset) a =>
                (call (p line_offset a) w, to_int32 (line_offset + lh)))
             (w, 0) l) =
  log (imap (fun k a => p (to_int32 (Z.of_nat k * lh)) a) l) w.
Proof. exact (print_fold p lh l w 0%nat). Qed.

Lemma DrawLinks_log w : DrawLinks w = log (link_prints (dialog w)) w.
Proof.
  unfold DrawLinks, link_prints. cbv zeta.
  destruct (formattedLinks_ (dialog w)) as [|l ls] eqn:E.
  - cbn. now rewrite log_nil.
  - cbn [is_empty negb].
    rewrite (print_fold0
               (fun line_offset link =>
                  ExtPrint (subFont_ (dialog w))
                    (if lineIndex link =? selectedLink_ (dialog w)
                     then COLOR_NORMAL else COLOR_LINK_UNSELECTED)
                    (fontScale_ (dialog w))
                    (F32.to_int32
                       (F32.mul (ScreenScale.x (screenScale_ (dialog w)))
                                (F32.of_Z 35)))
                    (to_int32
                       (F32.to_int32
                          (F32.sub
                             (F32.mul (ScreenScale.y (screenScale_ (dialog w)))
                                      (F32.of_Z 450))
                             (F32.of_Z
                                (to_int32
                                   (lineHeight_ (dialog w)
                                    * to_int32 (size (l :: ls))))))
                        + line_offset))
                    (text link))).
    reflexivity.
Qed.

Lemma DrawDialogText_log w : DrawDialogText w = log (text_prints (dialog w)) w.
Proof.
  unfold DrawDialogText, text_prints. cbv zeta.
  destruct (string_empty (dialogText_ (dialog w))).
  - cbn. now rewrite log_nil.
  - cbn [negb].
    rewrite (print_fold0
               (fun line_offset text =>
                  ExtPrint (mainFont_ (dialog w)) COLOR_NORMAL
                    (fontScale_ (dialog w))
                    (F32.to_int32
                       (F32.mul (ScreenScale.x (screenScale_ (dialog w)))
                                (F32.of_Z 35)))
                    (to_int32
                       (F32.to_int32
                          (F32.mul (ScreenScale.y (screenScale_ (dialog w)))
                             (F32.of_Z
                                (to_int32
                                   (445 - to_int32 (textureLines_ (dialog w)
                                                    * DIALOG_LINE_HEIGHT)))))
                        + line_offset))
                    text)).
    reflexivity.
Qed.

Lemma draw_log w : draw w = log (frame_draws (dialog w)) w.
Proof.
  unfold draw, frame_draws, name_print. cbv zeta.
  rewrite !DrawBackground_log, DrawDialogText_log, DrawLinks_log.
  rewrite !dialog_log.
  destruct (string_empty (characterName_ (dialog w))); cbn [negb].
  - rewrite !log_log, !dialog_log.
    destruct (formattedLinks_ (dialog w)); cbn [is_empty negb app];
      now rewrite <- ?app_assoc.
  - rewrite call_log, !log_log, !dialog_log.
    destruct (formattedLinks_ (dialog w)); cbn [is_empty negb app];
      now rewrite <- ?app_assoc.
Qed.

Lemma render_SetAction a w : render (SetAction a w) = render w.
Proof. unfold SetAction. now destruct (_ =? 0). Qed.

Lemma render_greet h w : render (greet h w) = render w.
Proof.
  unfold greet. destruct (_ && _ && _); [|reflexivity].
  cbv zeta. destruct (negb _); [|reflexivity].
  unfold upd at 1. cbn [render set_dialog]. now rewrite render_SetAction.
Qed.

Lemma render_hush h w : render (hush h w) = render w.
Proof.
  unfold hush. destruct (_ && _ && _); [|reflexivity].
  unfold upd. cbn [render set_dialog]. now rewrite render_SetAction.
Qed.

Lemma render_Unfade h w : render (Unfade h w) = render w.
Proof. rewrite Unfade_frame. reflexivity. Qed.

Lemma render_ProcessControls h w : render (ProcessControls h w) = render w.
Proof. rewrite ProcessControls_frame. reflexivity. Qed.

Lemma render_before_rebuild h w :
  render (ProcessControls h (upd (UpdateScreenSize h) (greet h (Unfade h w))))
  = render w.
Proof.
  rewrite render_ProcessControls. unfold upd. cbn [render set_dialog].
  now rewrite render_greet, render_Unfade.
Qed.

(** The dirty flag as the rebuild finds it. *)
Lemma flag_before_rebuild h w :
  backNeedsUpdate_
    (dialog (ProcessControls h
               (upd (UpdateScreenSize h) (greet h (Unfade h w)))))
  = frame_rebuilds h (dialog w).
Proof.
  unfold frame_rebuilds.
  pose proof (aside_field backNeedsUpdate_ _ _ (fun _ => eq_refl)
                (aside_greet h (Unfade h w))) as Hb.
  pose proof (aside_field screenScale_ _ _ (fun _ => eq_refl)
                (aside_greet h (Unfade h w))) as Hs.
  assert (Hb0 : backNeedsUpdate_ (dialog (Unfade h w)) = backNeedsUpdate_ (dialog w))
    by (rewrite Unfade_frame; reflexivity).
  assert (Hs0 : screenScale_ (dialog (Unfade h w)) = screenScale_ (dialog w))
    by (rewrite Unfade_frame; reflexivity).
  rewrite <- Hb0, <- Hs0, <- Hb, <- Hs.
  rewrite ProcessControls_frame.
  cbn [dialog upd set_dialog set_events set_sounds backNeedsUpdate_
       set_AttributesPointer set_selectedLink_].
  rewrite UpdateScreenSize_eq. reflexivity.
Qed.

Lemma calls_UpdateBackBuffers w :
  calls (render (UpdateBackBuffers w)) =
    (calls (render w)
     ++ [LockVertexBuffer (backVertexBuffer_ (dialog w));
         UnLockVertexBuffer (backVertexBuffer_ (dialog w))])%list
  /\ textures (render (UpdateBackBuffers w)) = textures (render w).
Proof.
  unfold UpdateBackBuffers. cbv zeta.
  cbn [render dialog upd call set_vertexBuffers set_render set_dialog calls
       textures].
  now rewrite <- app_assoc.
Qed.

Lemma frame_draws_soundState s d :
  frame_draws (set_soundState_ s d) = frame_draws d.
Proof. reflexivity. Qed.

Lemma frame_draws_hush h w :
  frame_draws (dialog (hush h w)) = frame_draws (dialog w).
Proof.
  unfold hush. destruct (_ && _ && _); [|reflexivity].
  unfold upd. cbn [dialog set_dialog].
  now rewrite frame_draws_soundState, dialog_SetAction.
Qed.

Lemma frame_calls_aux h w :
  let w' := Realize h w in
  calls (render w') =
    (calls (render w)
     ++ (if frame_rebuilds h (dialog w)
         then [LockVertexBuffer (backVertexBuffer_ (dialog w));
               UnLockVertexBuffer (backVertexBuffer_ (dialog w))]
         else [])
     ++ frame_draws (dialog w'))%list
  /\ textures (render w') = textures (render w).
Proof.
  cbv zeta. rewrite Realize_phases.
  set (w2 := ProcessControls h (upd (UpdateScreenSize h) (greet h (Unfade h w)))).
  pose proof (render_before_rebuild h w) as Hr. fold w2 in Hr.
  pose proof (flag_before_rebuild h w) as Hf. fold w2 in Hf.
  assert (Hvb : backVertexBuffer_ (dialog w2) = backVertexBuffer_ (dialog w)).
  { pose proof (frame_constants_ProcessControls h
                  (upd (UpdateScreenSize h) (greet h (Unfade h w)))) as E.
    fold w2 in E.
    rewrite frame_constants_upd in E
      by (intros d; rewrite UpdateScreenSize_eq; reflexivity).
    rewrite frame_constants_greet, frame_constants_Unfade in E.
    unfold frame_constants in E. congruence. }
  rewrite render_hush, frame_draws_hush, draw_log, dialog_log.
  unfold log. cbn [render set_render calls textures].
  unfold rebuild_if_needed. rewrite Hf.
  destruct (frame_rebuilds h (dialog w)).
  - destruct (calls_UpdateBackBuffers w2) as [Hc Ht].
    rewrite Hc, Ht, Hr, Hvb. split; [|reflexivity].
    now rewrite <- !app_assoc.
  - rewrite Hr. split; reflexivity.
Qed.

(** X8: the calls of a frame to the render service that lock a buffer, set
    a texture, draw the mesh or print a text, those of [DrawHeadModel] for the
    head model apart.  When the dirty flag is set or
    the scale of the frame is away from the cached one, the vertex buffer is
    locked and unlocked, once.  Then come, drawn from the component as the
    frame leaves it, so with the selection and the scale of this frame: the
    panel, 5 + [textureLines_] sprites from the sprite 2 on; the bottom, with
    the divider when there are links; the name of the character unless it is
    empty; a line for every wrapped line of the links, those of the selected
    link in [COLOR_NORMAL] and the others in [COLOR_LINK_UNSELECTED]; a line
    for every wrapped line of the body text unless the raw text is empty; and
    the overlay of the head, the sprites 0 and 1.  No texture is created or
    released. *)
Theorem frame_calls h w :
  let w' := Realize h w in
  calls (render w') =
    (calls (render w)
     ++ (if frame_rebuilds h (dialog w)
         then [LockVertexBuffer (backVertexBuffer_ (dialog w));
               UnLockVertexBuffer (backVertexBuffer_ (dialog w))]
         else [])
     ++ frame_draws (dialog w'))%list
  /\ textures (render w') = textures (render w).
Proof. apply frame_calls_aux. Qed.

(** *** The texture of the panel *)

Lemma released_log cs w :
  released (log cs w) =
  (released w
   ++ flat_map (fun c => match c with TextureRelease t => [t] | _ => [] end) cs)%list.
Proof. unfold released, log. cbn. apply flat_map_app. Qed.

Lemma no_release_imap {A} (f : nat -> A -> RenderCall) (l : list A) :
  (forall k a, match f k a with TextureRelease _ => False | _ => True end) ->
  flat_map (fun c => match c with TextureRelease t => [t] | _ => [] end)
           (imap f l) = [].
Proof.
  revert f. induction l as [|a l IH]; intros f Hf; [reflexivity|].
  cbn. rewrite IH by (intros k b; apply Hf).
  specialize (Hf 0%nat a). now destruct (f 0%nat a).
Qed.

Lemma no_release_frame_draws d :
  flat_map (fun c => match c with TextureRelease t => [t] | _ => [] end)
           (frame_draws d) = [].
Proof.
  unfold frame_draws. rewrite !flat_map_app.
  assert (Hn : flat_map (fun c => match c with TextureRelease t => [t] | _ => [] end)
                        (name_print d) = []).
  { unfold name_print. now destruct (string_empty _). }
  assert (Hl : flat_map (fun c => match c with TextureRelease t => [t] | _ => [] end)
                        (link_prints d) = []).
  { unfold link_prints. cbv zeta. now apply no_release_imap. }
  assert (Ht : flat_map (fun c => match c with TextureRelease t => [t] | _ => [] end)
                        (text_prints d) = []).
  { unfold text_prints. destruct (string_empty _); [reflexivity|].
    cbv zeta. now apply no_release_imap. }
  rewrite Hn, Hl, Ht. reflexivity.
Qed.

(** A frame keeps the texture. *)
Lemma texture_Realize h w :
  released (Realize h w) = released w
  /\ textures (render (Realize h w)) = textures (render w)
  /\ interfaceTexture_ (dialog (Realize h w)) = interfaceTexture_ (dialog w).
Proof.
  destruct (frame_calls_aux h w) as [Hc Ht]. split; [|split; [exact Ht|]].
  - unfold released. rewrite Hc, !flat_map_app, no_release_frame_draws.
    destruct (frame_rebuilds h (dialog w)); cbn; now rewrite !app_nil_r.
  - pose proof (frame_constants_Realize h w) as E.
    unfold frame_constants in E. congruence.
Qed.

(** A change of the attribute [texture] releases the texture of the panel and
    creates the next one; no other attribute touches the textures. *)
Lemma texture_AttributeChanged h a w :
  let w' := AttributeChanged h a w in
  (released w' = (released w ++ [interfaceTexture_ (dialog w)])%list
   /\ textures (render w') = textures (render w) + 1
   /\ interfaceTexture_ (dialog w') = textures (render w) + 1)
  \/ (released w' = released w
      /\ textures (render w') = textures (render w)
      /\ interfaceTexture_ (dialog w') = interfaceTexture_ (dialog w)).
Proof.
  cbv zeta. unfold AttributeChanged.
  destruct (iEquals _ "texture").
  { left. unfold DoTextureCreate, released. cbn. rewrite !flat_map_app. cbn.
    now rewrite app_nil_r. }
  right.
  destruct (iEquals _ "headModel").
  { unfold UpdateHeadModel. destruct (bool_decide _); [|auto].
    unfold released. rewrite render_SetAction, dialog_SetAction. auto. }
  destruct (iEquals _ "mood"); [auto|].
  destruct (iEquals _ "greeting"); [auto|].
  unfold released, upd. cbn [render dialog set_dialog].
  rewrite UpdateDialogText_eq. cbv zeta.
  cbn [interfaceTexture_ set_backNeedsUpdate_ set_formattedDialogText_
       set_dialogText_].
  rewrite UpdateLinks_eq. auto.
Qed.

Lemma texture_Init h w :
  released (Init h w) = released w
  /\ textures (render (Init h w)) = textures (render w) + 1
  /\ interfaceTexture_ (dialog (Init h w)) = textures (render w) + 1.
Proof.
  unfold released, Init, DoTextureCreate, CreateBackBuffers, CreateVertexBuffer,
    CreateIndexBuffer, FillIndexBuffer. cbv zeta.
  cbn [render dialog upd call set_vertexBuffers set_indexBuffers
       set_render set_dialog set_timeScale textures calls interfaceTexture_
       set_backVertexBuffer_ set_backIndexBuffer_ set_interfaceTexture_].
  rewrite !flat_map_app. cbn. rewrite !app_nil_r. auto.
Qed.

Lemma handles_snoc t0 n :
  handles t0 (S n) = (handles t0 n ++ [t0 + 1 + Z.of_nat n])%list.
Proof. unfold handles. now rewrite seq_S, map_app. Qed.

(** The component holds the last texture it created and has released the
    earlier ones. *)
Lemma texture_run t0 R0 es : forall w n,
  textures (render w) = t0 + 1 + Z.of_nat n ->
  interfaceTexture_ (dialog w) = t0 + 1 + Z.of_nat n ->
  released w = (R0 ++ handles t0 n)%list ->
  exists n',
    textures (render (run w es)) = t0 + 1 + Z.of_nat n'
    /\ interfaceTexture_ (dialog (run w es)) = t0 + 1 + Z.of_nat n'
    /\ released (run w es) = (R0 ++ handles t0 n')%list.
Proof.
  induction es as [|e es IH]; intros w n Ht Hi Hr; [now exists n|].
  change (run w (e :: es)) with (run (step w e) es).
  destruct e as [h|h tree a|c nm l]; unfold step.
  - destruct (texture_Realize h w) as (E1 & E2 & E3).
    apply (IH _ n); congruence.
  - destruct (texture_AttributeChanged h a (upd (set_AttributesPointer tree) w))
      as [(E1 & E2 & E3)|(E1 & E2 & E3)]; cbv zeta in *.
    + apply (IH _ (S n)).
      * rewrite E2. change (textures (render (upd _ w))) with (textures (render w)).
        lia.
      * rewrite E3. change (textures (render (upd _ w))) with (textures (render w)).
        lia.
      * rewrite E1, handles_snoc.
        change (released (upd (set_AttributesPointer tree) w)) with (released w).
        change (interfaceTexture_ (dialog (upd (set_AttributesPointer tree) w)))
          with (interfaceTexture_ (dialog w)).
        now rewrite Hr, Hi, app_assoc.
    + apply (IH _ n).
      * now rewrite E2.
      * now rewrite E3.
      * now rewrite E1.
  - apply (IH _ n).
    + unfold ProcessMessage. now destruct (c =? 1).
    + unfold ProcessMessage. now destruct (c =? 1).
    + unfold ProcessMessage. now destruct (c =? 1).
Qed.

(** X9: the textures of the panel are released once each.  [Init] creates a
    texture; whatever the host does then, the component holds the last
    texture created and the textures released are the earlier ones, in the
    order of their creation, each once; the destructor releases the one held,
    and sets the time scale to 1.  The handles of the render service are not
    0: the textures are numbered from [t0 + 1] on, with [t0] not
    negative. *)
Theorem textures_released_once h w0 es :
  0 <= textures (render w0) ->
  let t0 := textures (render w0) in
  let w := run (Init h w0) es in
  exists n : nat,
    textures (render w) = t0 + 1 + Z.of_nat n
    /\ interfaceTexture_ (dialog w) = t0 + 1 + Z.of_nat n
    /\ released w = (released w0 ++ handles t0 n)%list
    /\ released (Destructor w) = (released w0 ++ handles t0 (S n))%list
    /\ timeScale (Destructor w) = F32.one.
Proof.
  intros H0. cbv zeta.
  destruct (texture_Init h w0) as (E1 & E2 & E3).
  destruct (texture_run (textures (render w0)) (released w0) es (Init h w0) 0%nat)
    as (n & Ht & Hi & Hr).
  { rewrite E2. lia. }
  { rewrite E3. lia. }
  { rewrite E1. unfold handles. cbn. now rewrite app_nil_r. }
  exists n. split; [exact Ht|]. split; [exact Hi|]. split; [exact Hr|].
  unfold Destructor. cbv zeta.
  change (interfaceTexture_ (dialog (set_timeScale F32.one ?w)))
    with (interfaceTexture_ (dialog w)).
  rewrite Hi.
  destruct (Z.eqb_spec (textures (render w0) + 1 + Z.of_nat n) 0) as [E|_];
    [lia|].
  cbn [negb]. split; [|reflexivity].
  rewrite call_log, released_log. cbn [flat_map app].
  change (released (set_timeScale F32.one ?w)) with (released w).
  now rewrite Hr, handles_snoc, app_assoc.
Qed.

(** *** The links *)

Lemma UpdateLinks_loop_closed h links_attr d0 n :
  (n <= length (GetChildren links_attr))%nat ->
  Z.of_nat n <= 2 ^ 31 ->
  let r :=
    foldl (fun d i =>
             let link_text :=
               match GetAttributeClassAt links_attr (Z.of_nat i) with
               | Some a => GetValue a
               | None => ""
               end in
             let d := set_links_ (links_ d ++ [link_text]) d in
             let link_texts :=
               AddToStringArrayLimitedByWidth
                 link_text (subFont_ d) (fontScale_ d) (text_width_limit h) in
             set_formattedLinks_
               (formattedLinks_ d
                ++ map (fun text => mkLinkEntry text (to_int32 (Z.of_nat i)))
                       link_texts) d) d0 (seq 0 n) in
  links_ r = (links_ d0 ++ map GetValue (take n (GetChildren links_attr)))%list
  /\ formattedLinks_ r =
       (formattedLinks_ d0
        ++ concat (imap (link_lines h d0)
                        (map GetValue (take n (GetChildren links_attr)))))%list
  /\ subFont_ r = subFont_ d0 /\ fontScale_ r = fontScale_ d0.
Proof.
  cbv zeta. induction n as [|n IH]; intros Hn Hn31.
  - cbn. rewrite !app_nil_r. auto.
  - rewrite seq_S, foldl_app. cbn [foldl Nat.add].
    destruct IH as (Hl & Hf & Hs & Hfs); [lia | lia|].
    set (r := foldl _ d0 (seq 0 n)) in *.
    destruct (lookup_lt_is_Some_2 (GetChildren links_attr) n ltac:(lia))
      as [a Ha].
    unfold GetAttributeClassAt.
    replace (Z.of_nat n <? 0) with false by (symmetry; apply Z.ltb_ge; lia).
    rewrite Nat2Z.id, Ha.
    cbn [links_ formattedLinks_ subFont_ fontScale_ set_links_
         set_formattedLinks_].
    rewrite (take_S_r _ _ _ Ha), map_app, imap_app, concat_app.
    cbn [map imap concat]. rewrite app_nil_r, length_map, length_take.
    rewrite Nat.min_l by lia. rewrite Nat.add_0_r.
    rewrite Hl, Hf, Hs, Hfs, <- !app_assoc.
    rewrite to_int32_id by (unfold INT32_MIN, INT32_MAX; lia).
    auto.
Qed.

Lemma concat_imap_indices {A} (f : nat -> A -> list LinkEntry) (l : list A) k0 n :
  (forall i a, Forall (fun e => lineIndex e = Z.of_nat (k0 + i)) (f i a)) ->
  (length l <= n)%nat ->
  Forall (fun e => Z.of_nat k0 <= lineIndex e < Z.of_nat (k0 + n))
         (concat (imap f l)).
Proof.
  revert f k0 n. induction l as [|a l IH]; intros f k0 n Hf Hn; [constructor|].
  cbn [imap concat]. apply Forall_app. split.
  - eapply Forall_impl; [apply Hf|]. cbv beta. cbn in Hn. intros e ->. lia.
  - cbn in Hn. destruct n as [|n]; [lia|].
    eapply Forall_impl; [apply (IH _ (S k0) n)|].
    + intros i b. eapply Forall_impl; [apply (Hf (S i) b)|].
      cbv beta. intros e ->. f_equal. lia.
    + lia.
    + cbv beta. intros e He. lia.
Qed.

(** X10: [UpdateLinks] reads the links from the attribute tree: [links_] gets
    the values of the entries of [Links] in their order, none when there is
    no [Links] attribute, and [formattedLinks_] the wrapped lines of every
    link in turn, each with the position of its link, so that every line
    points at a link of [links_].  There are fewer than 2^31 links. *)
Theorem UpdateLinks_wraps h d :
  Z.of_nat (length (link_values (AttributesPointer d))) < 2 ^ 31 ->
  let d' := UpdateLinks h d in
  links_ d' = link_values (AttributesPointer d)
  /\ formattedLinks_ d' = wrapped_links h d
  /\ Forall (fun e => 0 <= lineIndex e < Z.of_nat (length (links_ d')))
            (formattedLinks_ d').
Proof.
  intros Hlen. cbv zeta.
  assert (H : links_ (UpdateLinks h d) = link_values (AttributesPointer d)
              /\ formattedLinks_ (UpdateLinks h d) = wrapped_links h d).
  { unfold UpdateLinks, wrapped_links, link_values in *. cbv zeta.
    change (AttributesPointer (set_formattedLinks_ [] (set_links_ [] d)))
      with (AttributesPointer d).
    revert Hlen.
    destruct (GetAttributeClass (AttributesPointer d) "Links") as [la|];
      intros Hlen.
    - rewrite length_map in Hlen.
      unfold GetAttributesNum.
      rewrite (size_length (GetChildren la)) by lia. rewrite Nat2Z.id.
      match goal with |- context [foldl ?f ?d0 ?l] =>
        pose proof (UpdateLinks_loop_closed h la d0
                      (length (GetChildren la)) ltac:(lia) ltac:(lia)) as E;
        cbv zeta in E; destruct E as (El & Ef & _ & _);
        set (r := foldl f d0 l) in *
      end.
      rewrite firstn_all in El, Ef.
      destruct (bool_decide _); cbn [links_ formattedLinks_ set_backNeedsUpdate_];
        rewrite El, Ef; split; reflexivity.
    - destruct (bool_decide _); split; reflexivity. }
  destruct H as [Hl Hf]. split; [exact Hl|]. split; [exact Hf|].
  rewrite Hf, Hl. unfold wrapped_links.
  apply (concat_imap_indices (link_lines h d)
           (link_values (AttributesPointer d)) 0%nat
           (length (link_values (AttributesPointer d)))); [|reflexivity].
  intros i a. unfold link_lines. apply Forall_map, Forall_forall. reflexivity.
Qed.

(** *** The moves of the selection *)

(** X11: on a list of links that is not empty, with the selection on one of
    its lines and no confirm, a press of up alone moves the selection one line
    up and plays the tick, but on the first line it does nothing; a press
    of down alone moves it one line down and plays the tick, but on the last
    line it does nothing.  The selection never wraps around.  The list has
    fewer than 2^31 links. *)
Theorem selector_moves h w :
  Z.of_nat (length (links_ (dialog w))) < 2 ^ 31 ->
  selection_in_range (dialog w) ->
  bDoAction h = false ->
  let w' := ProcessControls h w in
  let sel := selectedLink_ (dialog w) in
  let last := Z.of_nat (length (links_ (dialog w))) - 1 in
  (bDoUp h = true -> bDoDown h = false ->
   selectedLink_ (dialog w') = Z.max 0 (sel - 1)
   /\ w' = if sel =? 0 then w
           else upd (set_selectedLink_ (sel - 1)) (PlayTick w))
  /\ (bDoUp h = false -> bDoDown h = true ->
      selectedLink_ (dialog w') = Z.min last (sel + 1)
      /\ w' = if sel =? last then w
              else upd (set_selectedLink_ (sel + 1)) (PlayTick w)).
Proof.
  intros Hlen [Hlo Hhi] Ha. cbv zeta. rewrite ProcessControls_blocks. cbv zeta.
  rewrite Ha. split.
  - intros Hu Hd. rewrite (doDown_inactive _ _ Hd). unfold doUp. rewrite Hu.
    cbn [andb].
    destruct (Z.eqb_spec (selectedLink_ (dialog w)) 0) as [E|E].
    + replace (0 <? selectedLink_ (dialog w)) with false
        by (symmetry; apply Z.ltb_ge; lia).
      split; [lia | reflexivity].
    + replace (0 <? selectedLink_ (dialog w)) with true
        by (symmetry; apply Z.ltb_lt; lia).
      rewrite PlayTick_dialog.
      rewrite to_int32_id by (unfold INT32_MIN, INT32_MAX; lia).
      split; [cbn; lia | reflexivity].
  - intros Hu Hd. rewrite (doUp_inactive _ _ Hu). unfold doDown. rewrite Hd.
    cbn [andb]. rewrite size_length by lia.
    rewrite !to_size_t_id by lia.
    destruct (Z.eqb_spec (selectedLink_ (dialog w))
                (Z.of_nat (length (links_ (dialog w))) - 1)) as [E|E].
    + rewrite <- E, Z.ltb_irrefl. split; [lia | reflexivity].
    + replace (selectedLink_ (dialog w)
               <? Z.of_nat (length (links_ (dialog w))) - 1) with true
        by (symmetry; apply Z.ltb_lt; lia).
      rewrite PlayTick_dialog.
      rewrite to_int32_id by (unfold INT32_MIN, INT32_MAX; lia).
      split; [cbn; lia | reflexivity].
Qed.

(** *** The mesh and the layout *)

Lemma is_empty_length {A} (l : list A) : is_empty l = Nat.eqb (length l) 0.
Proof. now destruct l. Qed.

Lemma dialog_UpdateBackBuffers w :
  dialog (UpdateBackBuffers w) =
  set_backNeedsUpdate_ false
    (set_textureLines_ (textureLines_ (dialog (UpdateBackBuffers w))) (dialog w)).
Proof. reflexivity. Qed.

Lemma layout_inj d1 d2 :
  layout d1 = layout d2 ->
  screenScale_ d1 = screenScale_ d2 /\ lineHeight_ d1 = lineHeight_ d2
  /\ size (formattedDialogText_ d1) = size (formattedDialogText_ d2)
  /\ size (formattedLinks_ d1) = size (formattedLinks_ d2)
  /\ is_empty (formattedLinks_ d1) = is_empty (formattedLinks_ d2).
Proof.
  unfold layout. intros H. injection H as H1 H2 H3 H4.
  rewrite !is_empty_length. unfold size. rewrite H3, H4. auto.
Qed.

Lemma textureLines_of_layout w1 w2 :
  layout (dialog w1) = layout (dialog w2) ->
  textureLines_ (dialog (UpdateBackBuffers w1)) =
  textureLines_ (dialog (UpdateBackBuffers w2)).
Proof.
  intros H. apply layout_inj in H as (Hs & Hh & Hb & Hl & He).
  unfold UpdateBackBuffers. cbv zeta.
  cbn [render dialog upd call set_vertexBuffers set_render set_dialog
       textureLines_ set_textureLines_ set_backNeedsUpdate_].
  now rewrite Hs, Hh, Hb, Hl, He.
Qed.

Lemma mesh_of_layout_aux w1 w2 :
  length (back_vertices w1) = 68%nat ->
  length (back_vertices w2) = 68%nat ->
  layout (dialog w1) = layout (dialog w2) ->
  back_vertices (UpdateBackBuffers w1) = back_vertices (UpdateBackBuffers w2).
Proof.
  intros H1 H2 H.
  rewrite (UpdateBackBuffers_vertices w1 H1), (UpdateBackBuffers_vertices w2 H2).
  rewrite (textureLines_of_layout _ _ H).
  apply layout_inj in H as (Hs & Hh & Hb & Hl & He).
  now rewrite Hs, Hh, Hl.
Qed.

Lemma set_same_flag_lines d :
  set_backNeedsUpdate_ (backNeedsUpdate_ d)
    (set_textureLines_ (textureLines_ d) d) = d.
Proof. now destruct d. Qed.

(** X12: the mesh is a function of the layout, which is the cached scale, the
    line height and the numbers of wrapped lines of the body and of the
    links.  After [Init] and whatever the host does then, two components with
    the same layout rebuild the same vertices and the same [textureLines_],
    whatever their texts, selections and buffers; and a rebuild right after a
    rebuild changes neither the vertices nor the component. *)
Theorem mesh_of_layout h1 v1 es1 h2 v2 es2 :
  let w1 := run (Init h1 v1) es1 in
  let w2 := run (Init h2 v2) es2 in
  (layout (dialog w1) = layout (dialog w2) ->
   back_vertices (UpdateBackBuffers w1) = back_vertices (UpdateBackBuffers w2)
   /\ textureLines_ (dialog (UpdateBackBuffers w1)) =
        textureLines_ (dialog (UpdateBackBuffers w2)))
  /\ back_vertices (UpdateBackBuffers (UpdateBackBuffers w1)) =
       back_vertices (UpdateBackBuffers w1)
  /\ dialog (UpdateBackBuffers (UpdateBackBuffers w1)) =
       dialog (UpdateBackBuffers w1).
Proof.
  cbv zeta.
  destruct (back_buffers_after_Init h1 v1 es1) as [L1 _].
  destruct (back_buffers_after_Init h2 v2 es2) as [L2 _].
  set (w1 := run (Init h1 v1) es1) in *. set (w2 := run (Init h2 v2) es2) in *.
  split.
  { intros H. split; [now apply mesh_of_layout_aux|].
    now apply textureLines_of_layout. }
  assert (L1' : length (back_vertices (UpdateBackBuffers w1)) = 68%nat).
  { rewrite (storage_back_vertices _ _ (storage_UpdateBackBuffers w1)).
    exact L1. }
  assert (H : layout (dialog (UpdateBackBuffers w1)) = layout (dialog w1))
    by reflexivity.
  split; [now apply mesh_of_layout_aux|].
  rewrite (dialog_UpdateBackBuffers (UpdateBackBuffers w1)).
  rewrite (textureLines_of_layout _ _ H).
  change false with (backNeedsUpdate_ (dialog (UpdateBackBuffers w1))) at 1.
  apply set_same_flag_lines.
Qed.

(** *** The greeting *)












(** *** A change of the dialog node, twice *)

(** The loop of [UpdateLinks] reads the component for the fonts only. *)
Lemma UpdateLinks_loop_congr h links_attr (l : list nat) : forall d e,
  links_ d = links_ e -> formattedLinks_ d = formattedLinks_ e ->
  subFont_ d = subFont_ e -> fontScale_ d = fontScale_ e ->
  links_ (foldl (link_step h links_attr) d l)
    = links_ (foldl (link_step h links_attr) e l)
  /\ formattedLinks_ (foldl (link_step h links_attr) d l)
      = formattedLinks_ (foldl (link_step h links_attr) e l).
Proof.
  induction l as [|i l IH]; intros d e Hl Hf Hs Hfs; [auto|].
  cbn [foldl]. apply IH; unfold link_step;
    cbn [links_ formattedLinks_ subFont_ fontScale_ set_links_
         set_formattedLinks_]; congruence.
Qed.

Lemma UpdateLinks_read h d :
  links_ (UpdateLinks h d) = links_ (links_read h d)
  /\ formattedLinks_ (UpdateLinks h d) = formattedLinks_ (links_read h d).
Proof.
  unfold UpdateLinks, links_read. cbv zeta.
  fold (link_step h).
  destruct (bool_decide _); split; reflexivity.
Qed.

Lemma UpdateLinks_congr h d e :
  AttributesPointer d = AttributesPointer e ->
  subFont_ d = subFont_ e -> fontScale_ d = fontScale_ e ->
  links_ (UpdateLinks h d) = links_ (UpdateLinks h e)
  /\ formattedLinks_ (UpdateLinks h d) = formattedLinks_ (UpdateLinks h e).
Proof.
  intros Ha Hs Hfs.
  destruct (UpdateLinks_read h d) as [-> ->].
  destruct (UpdateLinks_read h e) as [-> ->].
  unfold links_read. cbv zeta. rewrite Ha.
  destruct (GetAttributeClass (AttributesPointer e) "Links") as [la|];
    [|split; reflexivity].
  apply UpdateLinks_loop_congr;
    cbn [links_ formattedLinks_ subFont_ fontScale_ set_links_
         set_formattedLinks_]; auto.
Qed.

Lemma UpdateLinks_fixed h d :
  links_ (UpdateLinks h d) = links_ d ->
  formattedLinks_ (UpdateLinks h d) = formattedLinks_ d ->
  UpdateLinks h d = d.
Proof.
  intros Hl Hf. rewrite UpdateLinks_eq. cbv zeta. rewrite Hl, Hf.
  destruct (bool_decide_reflect
              (size (formattedLinks_ d) ≠ size (formattedLinks_ d)));
    [congruence|].
  rewrite orb_false_r. now destruct d.
Qed.

Lemma UpdateDialogText_fixed h d :
  default (dialogText_ d) (GetAttribute (AttributesPointer d) "Text")
    = dialogText_ d ->
  wrapped_text h d = formattedDialogText_ d ->
  UpdateDialogText h d = d.
Proof.
  intros Ht Hw. rewrite UpdateDialogText_eq. cbv zeta. rewrite Ht.
  assert (E : wrapped_text h (set_dialogText_ (dialogText_ d) d)
              = formattedDialogText_ d) by (rewrite <- Hw; now destruct d).
  rewrite E.
  destruct (bool_decide_reflect
              (size (formattedDialogText_ d) ≠ size (formattedDialogText_ d)));
    [congruence|].
  rewrite orb_false_r. now destruct d.
Qed.

(** X14: a change of an attribute of the dialog node is idempotent: when the
    host reports the same attribute again, with the tree and the viewport as
    they were, the component stays as the first report left it; the dirty flag
    is not set again. *)
Theorem AttributeChanged_twice h a w :
  is_node_attribute (GetThisName a) = true ->
  AttributeChanged h a (AttributeChanged h a w) = AttributeChanged h a w.
Proof.
  intros Hn. rewrite !(AttributeChanged_node _ _ _ Hn).
  unfold upd. cbn [dialog set_dialog].
  set (d := dialog w). set (d1 := UpdateLinks h d).
  set (d2 := UpdateDialogText h d1).
  assert (E2 : d2 =
               set_backNeedsUpdate_ (backNeedsUpdate_ d2)
                 (set_formattedDialogText_ (formattedDialogText_ d2)
                    (set_dialogText_ (dialogText_ d2) d1))).
  { subst d2. rewrite UpdateDialogText_eq. reflexivity. }
  assert (E1 : d1 =
               set_backNeedsUpdate_ (backNeedsUpdate_ d1)
                 (set_formattedLinks_ (formattedLinks_ d1)
                    (set_links_ (links_ d1) d))).
  { pose proof (UpdateLinks_eq h d) as E. cbv zeta in E. fold d1 in E.
    pose proof (f_equal backNeedsUpdate_ E) as Eb.
    cbn [backNeedsUpdate_ set_backNeedsUpdate_] in Eb.
    rewrite Eb. exact E. }
  assert (F : AttributesPointer d2 = AttributesPointer d
              /\ subFont_ d2 = subFont_ d /\ fontScale_ d2 = fontScale_ d
              /\ links_ d2 = links_ d1
              /\ formattedLinks_ d2 = formattedLinks_ d1).
  { rewrite E2. cbn. rewrite E1. cbn. auto. }
  destruct F as (Fa & Fs & Ff & Fl & Ffl).
  destruct (UpdateLinks_congr h d2 d Fa Fs Ff) as [Cl Cf]. fold d1 in Cl, Cf.
  assert (E3 : UpdateLinks h d2 = d2).
  { apply UpdateLinks_fixed; congruence. }
  rewrite E3.
  assert (E4 : UpdateDialogText h d2 = d2).
  { apply UpdateDialogText_fixed.
    - subst d2. rewrite UpdateDialogText_eq. cbv zeta.
      cbn [dialogText_ AttributesPointer set_backNeedsUpdate_
           set_formattedDialogText_ set_dialogText_].
      now destruct (GetAttribute (AttributesPointer d1) "Text").
    - subst d2. rewrite UpdateDialogText_eq. cbv zeta.
      unfold wrapped_text.
      cbn [dialogText_ mainFont_ fontScale_ formattedDialogText_
           set_backNeedsUpdate_ set_formattedDialogText_ set_dialogText_].
      reflexivity. }
  rewrite E4. destruct w. reflexivity.
Qed.

(** *** The index buffer *)

Lemma insert_six {A} (p l : list A) (x0 x1 x2 x3 x4 x5 : A) :
  (6 <= length l)%nat ->
  let m := length p in
  <[(m + 5)%nat := x5]>
    (<[(m + 4)%nat := x4]>
       (<[(m + 3)%nat := x3]>
          (<[(m + 2)%nat := x2]>
             (<[(m + 1)%nat := x1]> (<[(m + 0)%nat := x0]> (p ++ l)%list)))))
  = (p ++ [x0; x1; x2; x3; x4; x5] ++ drop 6 l)%list.
Proof.
  intros Hl. cbv zeta.
  rewrite !insert_app_r_alt by lia.
  replace (length p + 0 - length p)%nat with 0%nat by lia.
  replace (length p + 1 - length p)%nat with 1%nat by lia.
  replace (length p + 2 - length p)%nat with 2%nat by lia.
  replace (length p + 3 - length p)%nat with 3%nat by lia.
  replace (length p + 4 - length p)%nat with 4%nat by lia.
  replace (length p + 5 - length p)%nat with 5%nat by lia.
  destruct l as [|a0 [|a1 [|a2 [|a3 [|a4 [|a5 l]]]]]]; cbn in Hl; try lia.
  reflexivity.
Qed.

Lemma quad_indices_length n : length (flat_map quad_indices (seq 0 n)) = (6 * n)%nat.
Proof.
  induction n as [|n IH]; [reflexivity|].
  rewrite seq_S, flat_map_app, length_app, IH. cbn. lia.
Qed.

Lemma quad_indices_bound n :
  Forall (fun i => 0 <= i < 4 * Z.of_nat n) (flat_map quad_indices (seq 0 n)).
Proof.
  induction n as [|n IH]; [constructor|].
  rewrite seq_S, flat_map_app. apply Forall_app. split.
  - eapply Forall_impl; [exact IH|]. cbv beta. lia.
  - cbn. unfold quad_indices. repeat constructor; lia.
Qed.

(** The loop of [FillIndexBuffer] on a mapped buffer that is long enough. *)
Lemma FillIndexBuffer_loop (pI : list (option Z)) n :
  (6 * n <= length pI)%nat -> Z.of_nat n <= 16384 ->
  foldl (fun pI n =>
      let pI := <[(n * 6 + 0)%nat := Some (to_uint16 (Z.of_nat n * 4 + 0))]> pI in
      let pI := <[(n * 6 + 1)%nat := Some (to_uint16 (Z.of_nat n * 4 + 2))]> pI in
      let pI := <[(n * 6 + 2)%nat := Some (to_uint16 (Z.of_nat n * 4 + 1))]> pI in
      let pI := <[(n * 6 + 3)%nat := Some (to_uint16 (Z.of_nat n * 4 + 1))]> pI in
      let pI := <[(n * 6 + 4)%nat := Some (to_uint16 (Z.of_nat n * 4 + 2))]> pI in
      let pI := <[(n * 6 + 5)%nat := Some (to_uint16 (Z.of_nat n * 4 + 3))]> pI in
      pI) pI (seq 0 n)
  = (map Some (flat_map quad_indices (seq 0 n)) ++ drop (6 * n) pI)%list.
Proof.
  induction n as [|n IH]; intros Hl Hn; [reflexivity|].
  rewrite seq_S, foldl_app, IH by lia. cbn [foldl Nat.add]. cbv zeta.
  assert (Hm : length (map Some (flat_map quad_indices (seq 0 n))) = (n * 6)%nat).
  { rewrite length_map, quad_indices_length. lia. }
  rewrite <- Hm.
  rewrite insert_six by (rewrite length_drop; lia).
  rewrite drop_drop, flat_map_app, map_app, <- app_assoc.
  replace (6 * n + 6)%nat with (6 * S n)%nat by lia.
  f_equal. cbn [flat_map app map quad_indices].
  unfold to_uint16.
  rewrite !Z.mod_small by (change (2 ^ 16) with 65536; lia).
  reflexivity.
Qed.

(** X15: [FillIndexBuffer] for any number of sprites up to 16384, on an index
    buffer with room for them: it writes six indices for every sprite, the
    triangles (0, 2, 1) and (1, 2, 3) of the four vertices of the sprite, and
    nothing behind them; the other index buffers and the vertex buffers are
    as before.  No index wraps around in 16 bits: every index is below four
    times the number of sprites, the number of vertices. *)
Theorem FillIndexBuffer_indices indexBuffer spriteCount w :
  (6 * spriteCount <= length (buffer_at (indexBuffers (render w)) indexBuffer))%nat ->
  Z.of_nat spriteCount <= 16384 ->
  let w' := FillIndexBuffer indexBuffer spriteCount w in
  let written := flat_map quad_indices (seq 0 spriteCount) in
  buffer_at (indexBuffers (render w')) indexBuffer =
    (map Some written
     ++ drop (6 * spriteCount) (buffer_at (indexBuffers (render w)) indexBuffer))%list
  /\ Forall (fun i => 0 <= i < 4 * Z.of_nat spriteCount) written
  /\ (forall j, Z.of_nat j <> indexBuffer ->
      indexBuffers (render w') !! j = indexBuffers (render w) !! j)
  /\ vertexBuffers (render w') = vertexBuffers (render w)
  /\ dialog w' = dialog w.
Proof.
  intros Hl Hn. cbv zeta. unfold FillIndexBuffer. cbv zeta.
  cbn [render dialog call set_indexBuffers set_render indexBuffers
       vertexBuffers].
  rewrite FillIndexBuffer_loop by assumption.
  split; [|split; [apply quad_indices_bound|split; [|split; reflexivity]]].
  - destruct spriteCount as [|n].
    + cbn [seq flat_map map app Nat.mul drop].
      unfold buffer_at, store_buffer. destruct (indexBuffer <? 0); [reflexivity|].
      destruct (indexBuffers (render w) !! Z.to_nat indexBuffer) as [b|] eqn:E.
      * now rewrite list_insert_id, E.
      * rewrite list_insert_ge, E; [reflexivity|]. now apply lookup_ge_None.
    + apply buffer_at_store. intros E. rewrite E in Hl. cbn in Hl. lia.
  - intros j Hj. unfold store_buffer. destruct (indexBuffer <? 0) eqn:E;
      [reflexivity|].
    apply list_lookup_insert_ne. apply Z.ltb_ge in E. lia.
Qed.

(** *** What is drawn *)

Lemma back_vertices_eq w w' :
  vertexBuffers (render w') = vertexBuffers (render w) ->
  frame_constants (dialog w') = frame_constants (dialog w) ->
  back_vertices w' = back_vertices w.
Proof.
  intros Hv Hc. unfold back_vertices. rewrite Hv.
  unfold frame_constants in Hc. congruence.
Qed.

Lemma back_vertices_before_rebuild h w :
  back_vertices (ProcessControls h
                   (upd (UpdateScreenSize h) (greet h (Unfade h w))))
  = back_vertices w.
Proof.
  apply back_vertices_eq; [now rewrite render_before_rebuild|].
  rewrite frame_constants_ProcessControls.
  rewrite frame_constants_upd by (intros d; rewrite UpdateScreenSize_eq; reflexivity).
  now rewrite frame_constants_greet, frame_constants_Unfade.
Qed.

Lemma back_vertices_after_rebuild h w :
  back_vertices (hush h (draw w)) = back_vertices w.
Proof.
  apply back_vertices_eq.
  - rewrite render_hush, draw_log. reflexivity.
  - now rewrite frame_constants_hush, dialog_draw.
Qed.

Lemma mesh_written_UpdateBackBuffers w :
  length (back_vertices w) = 68%nat -> mesh_written (UpdateBackBuffers w).
Proof.
  intros Hl. unfold mesh_written.
  rewrite (UpdateBackBuffers_vertices w Hl).
  apply Forall_map, Forall_forall. intros v _. now exists v.
Qed.

(** The vertices after a frame: all written when the frame rebuilds, as
    before when it does not. *)
Lemma mesh_written_Realize h w :
  length (back_vertices w) = 68%nat ->
  frame_rebuilds h (dialog w) = true \/ mesh_written w ->
  mesh_written (Realize h w).
Proof.
  intros Hl H. unfold mesh_written. rewrite Realize_phases.
  rewrite back_vertices_after_rebuild.
  pose proof (flag_before_rebuild h w) as Hf.
  pose proof (back_vertices_before_rebuild h w) as Hb.
  set (w2 := ProcessControls h _) in *.
  unfold rebuild_if_needed. rewrite Hf.
  destruct (frame_rebuilds h (dialog w)).
  - apply mesh_written_UpdateBackBuffers. now rewrite Hb.
  - rewrite Hb. destruct H as [H|H]; [discriminate | exact H].
Qed.

(** Between frames the dirty flag is not cleared and no vertex is touched. *)
Lemma mesh_written_event e w :
  (forall h, e <> EvRealize h) ->
  (backNeedsUpdate_ (dialog w) = true ->
   backNeedsUpdate_ (dialog (step w e)) = true)
  /\ back_vertices (step w e) = back_vertices w.
Proof.
  intros He.
  assert (Hs : forall w0 w',
             backNeedsUpdate_ (dialog w0) = backNeedsUpdate_ (dialog w) ->
             back_vertices w0 = back_vertices w ->
             aside w0 w' ->
             (backNeedsUpdate_ (dialog w) = true ->
              backNeedsUpdate_ (dialog w') = true)
             /\ back_vertices w' = back_vertices w).
  { intros w0 w' Hb Hv Ha. split.
    - intros H.
      now rewrite (aside_field backNeedsUpdate_ _ _ (fun _ => eq_refl) Ha), Hb.
    - rewrite <- Hv. unfold back_vertices.
      destruct (aside_buffers _ _ Ha) as [-> _].
      now rewrite (aside_field backVertexBuffer_ _ _ (fun _ => eq_refl) Ha). }
  destruct e as [h|h tree a|c n l]; unfold step.
  - now destruct (He h).
  - destruct (is_node_attribute (GetThisName a)) eqn:Hn.
    + rewrite (AttributeChanged_node _ _ _ Hn).
      unfold upd, back_vertices. cbn [dialog set_dialog render].
      rewrite UpdateDialogText_eq. cbv zeta.
      cbn [backNeedsUpdate_ backVertexBuffer_ set_backNeedsUpdate_
           set_formattedDialogText_ set_dialogText_].
      rewrite UpdateLinks_eq. cbv zeta.
      cbn [backNeedsUpdate_ backVertexBuffer_ set_backNeedsUpdate_
           set_formattedLinks_ set_links_ set_AttributesPointer].
      split; [|reflexivity]. intros ->. reflexivity.
    + apply (Hs (upd (set_AttributesPointer tree) w)); [reflexivity..|].
      apply AttributeChanged_other, Hn.
  - apply (Hs w); [reflexivity..|]. apply ProcessMessage_aside.
Qed.

Lemma mesh_written_run es : forall w,
  length (back_vertices w) = 68%nat ->
  backNeedsUpdate_ (dialog w) = true \/ mesh_written w ->
  (backNeedsUpdate_ (dialog (run w es)) = true \/ mesh_written (run w es))
  /\ length (back_vertices (run w es)) = 68%nat.
Proof.
  induction es as [|e es IH]; intros w Hl H; [auto|].
  change (run w (e :: es)) with (run (step w e) es).
  assert (Hl1 : length (back_vertices (step w e)) = 68%nat).
  { now rewrite (storage_back_vertices _ _ (storage_step e w)). }
  apply IH; [exact Hl1|].
  destruct e as [h|h tree a|c n l].
  - right. apply mesh_written_Realize; [exact Hl|].
    destruct H as [H|H]; [left | now right].
    unfold frame_rebuilds. now rewrite H.
  - destruct (mesh_written_event (EvAttributeChanged h tree a) w) as [Hb Hv];
      [discriminate|].
    destruct H as [H|H]; [left; now apply Hb | right].
    unfold mesh_written. now rewrite Hv.
  - destruct (mesh_written_event (EvProcessMessage c n l) w) as [Hb Hv];
      [discriminate|].
    destruct H as [H|H]; [left; now apply Hb | right].
    unfold mesh_written. now rewrite Hv.
Qed.

Lemma Init_flag h w :
  backNeedsUpdate_ (dialog (Init h w)) = frame_rebuilds h (dialog w).
Proof.
  unfold Init, DoTextureCreate, CreateBackBuffers, CreateVertexBuffer,
    CreateIndexBuffer, FillIndexBuffer, LoadIni, frame_rebuilds. cbv zeta.
  cbn [render dialog upd call set_vertexBuffers set_indexBuffers
       set_render set_dialog set_timeScale backNeedsUpdate_
       set_backVertexBuffer_ set_backIndexBuffer_ set_interfaceTexture_].
  rewrite UpdateScreenSize_eq. reflexivity.
Qed.

(** X16: the mesh is written by the first frame.  When the component is
    initialised with the dirty flag set, or with a cached scale away from the
    scale of the screen, then after every frame, whatever the host did before
    it, all 68 vertices of the mesh are written: the first frame, whenever it
    comes, rebuilds the mesh, and [Realize] rebuilds before it draws. *)
Theorem mesh_written_before_drawn h0 w0 es h :
  frame_rebuilds h0 (dialog w0) = true ->
  let w := Realize h (run (Init h0 w0) es) in
  mesh_written w /\ length (back_vertices w) = 68%nat.
Proof.
  intros H0. cbv zeta.
  destruct (back_buffers_after_Init h0 w0 []) as [Hl _]. cbn [run foldl] in Hl.
  destruct (mesh_written_run es (Init h0 w0) Hl) as [H Hl'].
  { left. now rewrite Init_flag. }
  split.
  - apply mesh_written_Realize; [exact Hl'|].
    destruct H as [H|H]; [left | now right].
    unfold frame_rebuilds. now rewrite H.
  - now rewrite (storage_back_vertices _ _ (storage_Realize h _)).
Qed.

Lemma Forall_imap_all {A B} (P : B -> Prop) (f : nat -> A -> B) (l : list A) :
  (forall k a, P (f k a)) -> Forall P (imap f l).
Proof.
  revert f. induction l as [|a l IH]; intros f Hf; [constructor|].
  cbn. constructor; [apply Hf|]. apply IH. intros k b. apply Hf.
Qed.

Lemma prints_read_nothing n d :
  Forall (reads_within n) (name_print d ++ link_prints d ++ text_prints d).
Proof.
  rewrite !Forall_app. split; [|split].
  - unfold name_print. destruct (string_empty _); repeat constructor.
  - unfold link_prints. cbv zeta. now apply Forall_imap_all.
  - unfold text_prints. destruct (string_empty _); [constructor|].
    cbv zeta. now apply Forall_imap_all.
Qed.

Lemma frame_draws_within d :
  0 <= textureLines_ d < 2 ^ 60 ->
  Forall (reads_within 102) (frame_draws d) <-> textureLines_ d <= 10.
Proof.
  intros Ht. unfold frame_draws.
  rewrite Forall_app. unfold background_calls at 1.
  rewrite !Forall_cons. cbn [reads_within].
  rewrite !to_size_t_id by lia.
  split.
  - intros [(_ & (_ & H) & _) _]. lia.
  - intros H. split; [repeat split; try constructor; lia|].
    rewrite Forall_app. split.
    + unfold background_calls. rewrite !Forall_cons. cbn [reads_within].
      destruct (is_empty _); rewrite !to_size_t_id by lia;
        repeat split; try constructor; lia.
    + rewrite !app_assoc, Forall_app, <- !app_assoc. split.
      * apply prints_read_nothing.
      * unfold background_calls. rewrite !Forall_cons. cbn [reads_within].
        rewrite !to_size_t_id by lia. repeat split; try constructor; lia.
Qed.

(** X17: the draw calls of a frame and the index buffer.  A frame draws 5 +
    [textureLines_] sprites of the panel from the sprite 2 on, one or two
    sprites from the sprite 15 on, and the sprites 0 and 1; with
    [textureLines_] not negative, all the indices it reads are among the
    102 of the index buffer exactly when [textureLines_] is at most 10. *)
Theorem frame_reads_index_buffer h w :
  let w' := Realize h w in
  0 <= textureLines_ (dialog w') < 2 ^ 60 ->
  Forall (reads_within 102)
         (drop (length (calls (render w))) (calls (render w')))
  <-> textureLines_ (dialog w') <= 10.
Proof.
  cbv zeta. intros Ht. destruct (frame_calls_aux h w) as [Hc _].
  cbv zeta in Hc. rewrite Hc, drop_app_length, Forall_app.
  rewrite (frame_draws_within _ Ht).
  split; [now intros [_ H]|]. intros H. split; [|exact H].
  destruct (frame_rebuilds h (dialog w)); repeat constructor.
Qed.

End LegacyDialog.

(** ** Examples *)

(** The component of the examples, with the text metrics of the examples. *)
Local Abbreviation started' := (started char_height_20 font_of_key).
Local Abbreviation shown' := (shown char_height_20 one_line font_of_key tick).
Local Abbreviation run' := (run char_height_20 one_line tick).
Local Abbreviation Realize' := (Realize char_height_20 tick).

(** After [Init] on a node without links, a press on [DlgDown] moves the
    selection to 1 and plays the tick. *)
Lemma down_on_empty_list_witness :
  let h := frame ["DlgDown"] in
  let w := started' node_empty in
  (links_ (dialog w) = [] /\ selectedLink_ (dialog w) = 0
   /\ bDoDown h = true /\ bDoAction h = false)
  /\ let w' := ProcessControls tick h w in
     selectedLink_ (dialog w') = 1
     /\ sounds w' =
        (if soundService_ (dialog w) then (sounds w ++ [tick])%list
         else sounds w).
Proof.
  split.
  - repeat split; reflexivity.
  - apply (down_on_empty_list tick); reflexivity.
Defined.

Example down_on_empty_list_values :
  let w' := ProcessControls tick (frame ["DlgDown"]) (started' node_empty) in
  selectedLink_ (dialog w') = 1 /\ sounds w' = [tick]
  /\ links_ (dialog w') = [].
Proof. repeat split; reflexivity. Qed.

(** The choices A, B and C with the selection on C, reached with two presses
    on [DlgDown]; confirm then goes to the target of C. *)
Lemma confirm_goes_to_target_witness :
  let h := frame ["DlgAction"] in
  let w := run' (shown' node_abc)
                [EvRealize (frame ["DlgDown"]); EvRealize (frame ["DlgDown"])] in
  let entry_c := ATTR "l3" (Some "C") [ATTR "go" (Some "node_c") []] in
  (bDoAction h = true
   /\ selected_entry (dialog (doDown tick h (doUp tick h w))) = Some entry_c)
  /\ let w' := ProcessControls tick h w in
     AttributesPointer (dialog w') =
       SetAttribute (AttributesPointer (dialog w)) "CurrentNode"
                    (GetAttribute entry_c "go")
     /\ GetAttribute (AttributesPointer (dialog w')) "CurrentNode" =
          GetAttribute entry_c "go"
     /\ events w' = (events w ++ ["DialogEvent"])%list
     /\ selectedLink_ (dialog w') = 0.
Proof.
  split.
  - split; vm_compute; reflexivity.
  - apply (confirm_goes_to_target tick); vm_compute; reflexivity.
Defined.

Example confirm_on_C :
  let w := run' (shown' node_abc)
                [EvRealize (frame ["DlgDown"]); EvRealize (frame ["DlgDown"])] in
  let w' := ProcessControls tick (frame ["DlgAction"]) w in
  links_ (dialog w) = ["A"; "B"; "C"]
  /\ selectedLink_ (dialog w) = 2
  /\ GetAttribute (AttributesPointer (dialog w')) "CurrentNode" = Some "node_c"
  /\ events w' = ["DialogEvent"]
  /\ selectedLink_ (dialog w') = 0.
Proof. vm_compute. repeat split; reflexivity. Qed.

(** C6, as stated, fails: after [Init] on a node without links, confirm plays
    the tick. *)
Lemma confirm_on_empty_list_plays_tick :
  let h := frame ["DlgAction"] in
  let w := started' node_empty in
  choices_empty (dialog w) /\ bDoAction h = true
  /\ ~ confirm_is_silent_noop tick h w.
Proof.
  split; [exact I|]. split; [reflexivity|].
  intros (_ & _ & Hs). vm_compute in Hs. discriminate Hs.
Qed.

Lemma confirm_on_empty_list_witness :
  let h := frame ["DlgAction"] in
  let w := started' node_empty in
  (choices_empty (dialog w) /\ bDoAction h = true)
  /\ let w' := ProcessControls tick h w in
     AttributesPointer (dialog w') = AttributesPointer (dialog w)
     /\ events w' = events w
     /\ (bDoUp h = false -> bDoDown h = false ->
         w' = PlayTick tick w
         /\ dialog w' = dialog w
         /\ sounds w' =
            (if soundService_ (dialog w) then (sounds w ++ [tick])%list
             else sounds w)).
Proof.
  split.
  - split; [exact I | reflexivity].
  - apply (confirm_on_empty_list tick); [exact I | reflexivity].
Defined.

Local Abbreviation Init' := (Init char_height_20 font_of_key).
Local Abbreviation step' := (step char_height_20 one_line tick).

(** The choices A, B and C with the selection on C, when the host replaces
    the node by one with the choices Yes and No and without text. *)
Lemma dialog_text_persists_witness :
  let w := shown' node_abc in
  let e := EvAttributeChanged (frame []) node_yes_no (ATTR "Links" None []) in
  GetAttribute node_yes_no "Text" = None
  /\ let w' := step' w e in
     dialogText_ (dialog w') = dialogText_ (dialog w)
     /\ (is_node_attribute "Links" = true ->
         formattedDialogText_ (dialog w') =
         wrapped_text one_line (frame []) (dialog w))
     /\ (is_node_attribute "Links" = false ->
         formattedDialogText_ (dialog w') = formattedDialogText_ (dialog w)).
Proof.
  split; [reflexivity|].
  apply (dialog_text_persists char_height_20 one_line tick). reflexivity.
Defined.

Example dialog_text_persists_values :
  let w := shown' node_abc in
  let w' := step' w (EvAttributeChanged (frame []) node_yes_no
                                        (ATTR "Links" None [])) in
  dialogText_ (dialog w) = "Hello traveler"
  /\ dialogText_ (dialog w') = "Hello traveler"
  /\ formattedDialogText_ (dialog w') = ["Hello traveler"]
  /\ links_ (dialog w') = ["Yes"; "No"].
Proof. vm_compute. repeat split; reflexivity. Qed.

(** C5, as stated, fails: the selection is on C, the third choice, when the
    host replaces the choices by Yes and No; the selection stays at 2, which
    is no line of the new list. *)
Lemma links_replaced_keeps_selection :
  let w := run' (shown' node_abc)
                [EvRealize (frame ["DlgDown"]); EvRealize (frame ["DlgDown"])] in
  let w' := step' w (EvAttributeChanged (frame []) node_yes_no
                                        (ATTR "Links" None [])) in
  links_ (dialog w) = ["A"; "B"; "C"]
  /\ links_ (dialog w') = ["Yes"; "No"]
  /\ selectedLink_ (dialog w') = 2
  /\ selectedLink_ (dialog w') <> 0.
Proof. vm_compute. repeat split; try reflexivity. discriminate. Qed.

Lemma links_replaced_witness :
  let w := run' (shown' node_abc)
                [EvRealize (frame ["DlgDown"]); EvRealize (frame ["DlgDown"])] in
  let a := ATTR "Links" None [] in
  is_node_attribute (GetThisName a) = true
  /\ let w' := step' w (EvAttributeChanged (frame []) node_yes_no a) in
     selectedLink_ (dialog w') = selectedLink_ (dialog w)
     /\ (size (formattedLinks_ (dialog w')) <> size (formattedLinks_ (dialog w)) ->
         backNeedsUpdate_ (dialog w') = true
         /\ forall h', rebuilds (Realize' h' w') = S (rebuilds w')).
Proof.
  split; [reflexivity|].
  apply (links_replaced char_height_20 one_line tick). reflexivity.
Defined.

Example links_replaced_values :
  let w := run' (shown' node_abc)
                [EvRealize (frame ["DlgDown"]); EvRealize (frame ["DlgDown"])] in
  let w' := step' w (EvAttributeChanged (frame []) node_yes_no
                                        (ATTR "Links" None [])) in
  size (formattedLinks_ (dialog w)) = 3
  /\ size (formattedLinks_ (dialog w')) = 2
  /\ backNeedsUpdate_ (dialog w) = false
  /\ backNeedsUpdate_ (dialog w') = true
  /\ rebuilds (Realize' (frame []) w') = S (rebuilds w').
Proof. vm_compute. repeat split; reflexivity. Qed.

(** C1, as stated, fails: the window is widened by one pixel a frame.  The
    cache holds the scale 1 of the 1920 pixels; at 1921 pixels the scale is
    within [1e-3f] of the cache, which stays; at 1922 pixels the scale is
    within [1e-3f] of the scale of the frame before, and the line counts are
    the same, yet the frame rebuilds the mesh: the scale is away from the
    cache. *)
Lemma rebuild_on_slow_drift :
  let h0 := host 1920 1080 1920 1080 [] 16 in
  let h1 := host 1921 1080 1920 1080 [] 16 in
  let h2 := host 1922 1080 1920 1080 [] 16 in
  let w := Realize' h0 (Init' h0 (blank_world node_abc)) in
  ~ rebuild_exactly_on_change char_height_20 one_line tick w h1 [] h2.
Proof.
  cbv zeta. unfold rebuild_exactly_on_change. intros [H _].
  assert (Hr : rebuilt char_height_20 tick
                 (host 1922 1080 1920 1080 [] 16)
                 (run' (Realize' (host 1921 1080 1920 1080 [] 16)
                          (Realize' (host 1920 1080 1920 1080 [] 16)
                             (Init' (host 1920 1080 1920 1080 [] 16)
                                    (blank_world node_abc)))) []) = true)
    by (vm_compute; reflexivity).
  destruct (H Hr) as [Hs|Hc].
  - vm_compute in Hs. discriminate Hs.
  - apply Hc. vm_compute. reflexivity.
Qed.

Lemma rebuild_gating_witness :
  let h := frame [] in
  let w := shown' node_abc in
  let es := [EvRealize (frame ["DlgDown"]);
             EvAttributeChanged (frame []) node_abc (ATTR "mood" (Some "angry") []);
             EvProcessMessage 1 (Some "John") (Some "Doe");
             EvRealize (frame ["DlgAction"]);
             EvAttributeChanged (frame []) node_abc (ATTR "CurrentNode" None []);
             EvRealize (frame [])] in
  steady char_height_20 one_line tick h (Realize' h w) es
  /\ let w' := run' (Realize' h w) es in
     rebuilds w' = rebuilds (Realize' h w)
     /\ (rebuilds w' <= S (rebuilds w))%nat
     /\ backNeedsUpdate_ (dialog w') = false
     /\ screenScale_ (dialog w') = screenScale_ (dialog (Realize' h w)).
Proof.
  cbv zeta.
  assert (Hst : steady char_height_20 one_line tick (frame [])
                  (Realize' (frame []) (shown' node_abc))
                  [EvRealize (frame ["DlgDown"]);
                   EvAttributeChanged (frame []) node_abc
                                      (ATTR "mood" (Some "angry") []);
                   EvProcessMessage 1 (Some "John") (Some "Doe");
                   EvRealize (frame ["DlgAction"]);
                   EvAttributeChanged (frame []) node_abc
                                      (ATTR "CurrentNode" None []);
                   EvRealize (frame [])])
    by (vm_compute; repeat split; reflexivity).
  split; [exact Hst|].
  exact (proj2 (proj2 (proj2 (proj2 (proj2
           (rebuild_gating char_height_20 one_line tick
                           (frame []) (shown' node_abc)))))) _ Hst).
Defined.

Example rebuild_gating_values :
  let w := shown' node_abc in
  let w1 := Realize' (frame []) w in
  let w2 := Realize' (frame ["DlgDown"]) w1 in
  backNeedsUpdate_ (dialog w) = true
  /\ rebuilds w = 0%nat /\ rebuilds w1 = 1%nat /\ rebuilds w2 = 1%nat
  /\ selectedLink_ (dialog w1) = 0 /\ selectedLink_ (dialog w2) = 1.
Proof. vm_compute. repeat split; reflexivity. Qed.

(** The cached scale on the slow drift: it is 1 after the frame at 1920
    pixels, stays 1 at 1921 pixels, where the scale is within epsilon of it,
    and becomes the scale of the frame at 1922 pixels, which is apart from
    it. *)
Example cached_scale_on_slow_drift :
  let h0 := host 1920 1080 1920 1080 [] 16 in
  let h1 := host 1921 1080 1920 1080 [] 16 in
  let h2 := host 1922 1080 1920 1080 [] 16 in
  let w0 := Realize' h0 (Init' h0 (blank_world node_abc)) in
  let w1 := Realize' h1 w0 in
  let w2 := Realize' h2 w1 in
  epsilon = S754_finite false 8589935 (-33)
  /\ ScreenScale.x (screenScale_ (dialog w0)) = F32.of_Z 1
  /\ scale_apart h1 (screenScale_ (dialog w0)) = false
  /\ ScreenScale.x (screenScale_ (dialog w1)) = F32.of_Z 1
  /\ scale_apart h2 (screenScale_ (dialog w1)) = true
  /\ ScreenScale.x (screenScale_ (dialog w2)) =
     F32.div (F32.of_Z 1922) (F32.of_Z 1920)
  /\ rebuilds w1 = rebuilds w0 /\ rebuilds w2 = S (rebuilds w1).
Proof. vm_compute. repeat split; reflexivity. Qed.

(** C3, as stated, fails: a node with one choice whose text is empty.  The
    list of links is not empty, but the link wraps to no line, and the rebuild
    adds no row: [textureLines_] is 0, not the 1 of the spec. *)
Lemma extra_row_needs_link_lines :
  let w := shown' node_blank_link in
  let d := dialog w in
  let bodyLines := Z.of_nat (length (formattedDialogText_ d)) in
  let linkLines := Z.of_nat (length (formattedLinks_ d)) in
  links_ d = [""]
  /\ formattedLinks_ d = []
  /\ textureLines_ (dialog (UpdateBackBuffers w)) = 0
  /\ texture_lines_spec bodyLines linkLines (lineHeight_ d)
       (ScreenScale.y (screenScale_ d)) (links_ d) = 1
  /\ textureLines_ (dialog (UpdateBackBuffers w)) <>
     texture_lines_spec bodyLines linkLines (lineHeight_ d)
       (ScreenScale.y (screenScale_ d)) (links_ d).
Proof.
  cbv zeta.
  split; [vm_compute; reflexivity|]. split; [vm_compute; reflexivity|].
  split; [vm_compute; reflexivity|]. split; [vm_compute; reflexivity|].
  vm_compute. discriminate.
Qed.

(** The node with one line of text and the three choices, at the scale 1 and
    the line height 20: [textureLines_] is the 80 pixels of the four lines over
    26, rounded down, and one for the links. *)
Lemma texture_lines_of_rebuild_witness :
  let w := shown' node_abc in
  let d := dialog w in
  let bodyLines := Z.of_nat (length (formattedDialogText_ d)) in
  let linkLines := Z.of_nat (length (formattedLinks_ d)) in
  let sx := ScreenScale.x (screenScale_ d) in
  let sy := ScreenScale.y (screenScale_ d) in
  let textureLines := texture_lines bodyLines linkLines (lineHeight_ d) sy in
  (0 <= lineHeight_ d <= INT32_MAX
   /\ bodyLines + linkLines < 2 ^ 32
   /\ textureLines <= INT32_MAX
   /\ length (back_vertices w) = 68%nat)
  /\ let w' := UpdateBackBuffers w in
     textureLines_ (dialog w') = textureLines
     /\ textureLines_ (dialog w') =
          F64.to_int32
            (F64.floor
               (F64.div
                  (F64.of_float
                     (F32.div (F32.of_Z ((bodyLines + linkLines) * lineHeight_ d))
                              sy))
                  (F64.of_Z 26)))
          + (if is_empty (formattedLinks_ d) then 0 else 1)
     /\ take 4 (drop 60 (back_vertices w')) =
        map Some (tile_up sx sy (sprite 8)
                    (F32.mul (F32.of_Z 26) (F32.of_Z textureLines)))
     /\ take 4 (drop 64 (back_vertices w')) =
        map Some (tile_up sx sy (sprite 9)
                    (F32.div (F32.mul (F32.of_Z linkLines)
                                      (F32.of_Z (lineHeight_ d))) sy)).
Proof.
  cbv zeta.
  assert (H1 : 0 <= lineHeight_ (dialog (shown' node_abc)) <= INT32_MAX)
    by (vm_compute; split; discriminate).
  assert (H2 : Z.of_nat (length (formattedDialogText_ (dialog (shown' node_abc))))
               + Z.of_nat (length (formattedLinks_ (dialog (shown' node_abc))))
               < 2 ^ 32) by (vm_compute; reflexivity).
  assert (H3 : texture_lines
                 (Z.of_nat (length (formattedDialogText_ (dialog (shown' node_abc)))))
                 (Z.of_nat (length (formattedLinks_ (dialog (shown' node_abc)))))
                 (lineHeight_ (dialog (shown' node_abc)))
                 (ScreenScale.y (screenScale_ (dialog (shown' node_abc))))
               <= INT32_MAX) by (vm_compute; discriminate).
  assert (H4 : length (back_vertices (shown' node_abc)) = 68%nat)
    by (vm_compute; reflexivity).
  split; [auto|].
  exact (texture_lines_of_rebuild (shown' node_abc) H1 H2 H3 H4).
Defined.

(** The vertical positions on the screen of the four vertices of the top of
    the panel and of the divider after that rebuild, at the scale 1: the top
    of the panel is at 425 - 26 * 4 = 321 and 451 - 104 = 347, the divider at
    445 - 3 * 20 = 385 and 462 - 60 = 402. *)
Example texture_lines_values :
  let w := shown' node_abc in
  let w' := UpdateBackBuffers w in
  let ys (vs : list (option XI_TEX_VERTEX.t)) :=
    map (fun v => match v with
                  | Some v => Some (CVECTOR.y (XI_TEX_VERTEX.pos v))
                  | None => None
                  end) vs in
  length (formattedDialogText_ (dialog w)) = 1%nat
  /\ length (formattedLinks_ (dialog w)) = 3%nat
  /\ lineHeight_ (dialog w) = 20
  /\ screenScale_ (dialog w) = ScreenScale.mk F32.one F32.one
  /\ textureLines_ (dialog w') = 4
  /\ ys (take 4 (drop 60 (back_vertices w'))) =
     map Some [F32.of_Z 321; F32.of_Z 321; F32.of_Z 347; F32.of_Z 347]
  /\ ys (take 4 (drop 64 (back_vertices w'))) =
     map Some [F32.of_Z 385; F32.of_Z 385; F32.of_Z 402; F32.of_Z 402].
Proof. vm_compute. repeat split; reflexivity. Qed.

(** The mesh after [Init] and one frame on the node of the three choices. *)
Example mesh_layout_values :
  let w := Realize' (frame []) (shown' node_abc) in
  length (back_vertices w) = 68%nat
  /\ length (back_indices w) = 102%nat
  /\ back_vertices w !! 0%nat =
     Some (Some (XI_TEX_VERTEX.mk
                   (CVECTOR.mk (F32.of_Z 29) (F32.of_Z 25) F32.one) F32.half
                   0xFFFFFFFF
                   (F32.div (F32.of_Z 904) (F32.of_Z 1024))
                   (F32.div (F32.of_Z 91) (F32.of_Z 256))))
  /\ take 12 (back_indices w) =
     map Some [0; 2; 1; 1; 2; 3; 4; 6; 5; 5; 6; 7].
Proof. vm_compute. repeat split; reflexivity. Qed.

(** After [Init] the counter is 0 and the time scale 0; five frames of 250 ms
    then give the time scales 0.25, 0.5, 0.75, 1 and 1, which are
    ascending, and the counter ends above where it started. *)
Lemma unfade_ramp_witness :
  let h := host 800 600 800 600 [] 250 in
  let w := started' node_empty in
  let es := map EvRealize [h; h; h; h; h] in
  (fadeTime_ (dialog w) = 0 /\ GetRDeltaTime h = 250 /\ ramp_ok w
   /\ Forall frame_time_ok es)
  /\ time_scales char_height_20 one_line tick w es =
       [F32.div (F32.of_Z 1) (F32.of_Z 4); F32.div (F32.of_Z 1) (F32.of_Z 2);
        F32.div (F32.of_Z 3) (F32.of_Z 4); F32.of_Z 1; F32.of_Z 1]
  /\ ascending (timeScale w :: time_scales char_height_20 one_line tick w es)
     = true
  /\ fadeTime_ (dialog w) <= fadeTime_ (dialog (run' w es)).
Proof.
  intros h w es.
  assert (H0 : fadeTime_ (dialog w) = 0) by (vm_compute; reflexivity).
  assert (Hok : ramp_ok w).
  { split; [rewrite H0; lia | vm_compute; reflexivity]. }
  assert (Hes : Forall frame_time_ok es).
  { repeat constructor; cbn; lia. }
  split; [repeat split; try assumption; try reflexivity; apply Hok|].
  destruct (unfade_ramp char_height_20 one_line tick w)
    as (_ & _ & _ & Hasc & Hfive).
  split; [|exact (Hasc es Hok Hes)].
  apply Hfive; [exact H0 | repeat constructor].
Defined.

Example unfade_ramp_values :
  let h := host 800 600 800 600 [] 250 in
  let w := started' node_empty in
  map (fun w' => fadeTime_ (dialog w'))
      [run' w [EvRealize h]; run' w (map EvRealize [h; h; h; h]);
       run' w (map EvRealize [h; h; h; h; h]);
       run' w (map EvRealize [h; h; h; h; h; h])]
  = [250; 1000; 1250; 1250].
Proof. vm_compute. reflexivity. Qed.

(** ** Examples of the further properties *)

(** Three presses of down and one of up on the choices A, B and C. *)
Lemma selection_stays_on_list_witness :
  let w := shown' node_abc in
  let hs := [frame ["DlgDown"]; frame ["DlgDown"]; frame ["DlgDown"];
             frame ["DlgUp"]] in
  (Z.of_nat (length (links_ (dialog w))) < 2 ^ 31
   /\ selection_in_range (dialog w))
  /\ let w' := run' w (map EvRealize hs) in
     selection_in_range (dialog w') /\ links_ (dialog w') = links_ (dialog w).
Proof.
  cbv zeta.
  assert (H1 : Z.of_nat (length (links_ (dialog (shown' node_abc)))) < 2 ^ 31)
    by (vm_compute; reflexivity).
  assert (H2 : selection_in_range (dialog (shown' node_abc)))
    by (vm_compute; split; discriminate).
  split; [auto|].
  exact (selection_stays_on_list char_height_20 one_line tick _ _ H1 H2).
Defined.

Example selection_stays_on_list_values :
  let w := shown' node_abc in
  let hs := [frame ["DlgDown"]; frame ["DlgDown"]; frame ["DlgDown"];
             frame ["DlgUp"]] in
  selectedLink_ (dialog (run' w (map EvRealize hs))) = 1
  /\ sounds (run' w (map EvRealize hs)) = [tick; tick; tick].
Proof. vm_compute. split; reflexivity. Qed.

(** The message 1 with a name and a last name, and the message 0. *)
Lemma character_name_of_message_witness :
  let w := started' node_empty in
  0 <> 1
  /\ characterName_ (dialog (ProcessMessage 1 (Some "Jack") (Some "Sparrow") w))
     = "JACK SPARROW"
  /\ ProcessMessage 0 (Some "Jack") (Some "Sparrow") w = w.
Proof.
  cbv zeta.
  destruct (character_name_of_message (Some "Jack") (Some "Sparrow")
              (started' node_empty)) as (E & _ & _ & _ & H).
  split; [discriminate|]. split; [rewrite E; reflexivity|].
  apply H. discriminate.
Defined.

(** Three frames of 250 ms after [Init]. *)
Lemma time_scale_in_unit_interval_witness :
  let w0 := blank_world node_empty in
  let es := map EvRealize [quarter; quarter; quarter] in
  (fadeTime_ (dialog w0) = 0 /\ Forall frame_time_ok es)
  /\ timeScale (Init' (frame []) w0) = F32.zero
  /\ F32.leb F32.zero (timeScale (run' (Init' (frame []) w0) es)) = true
  /\ F32.leb (timeScale (run' (Init' (frame []) w0) es)) F32.one = true.
Proof.
  cbv zeta.
  assert (H1 : fadeTime_ (dialog (blank_world node_empty)) = 0) by reflexivity.
  assert (H2 : Forall frame_time_ok (map EvRealize [quarter; quarter; quarter]))
    by (repeat constructor; cbn; lia).
  split; [auto|].
  exact (time_scale_in_unit_interval char_height_20 one_line font_of_key tick
           (frame []) _ _ H1 H2).
Defined.

(** Three frames of 250 ms, and five. *)
Lemma ramp_lasts_1000_ms_witness :
  let w0 := blank_world node_empty in
  let es3 := map EvRealize [quarter; quarter; quarter] in
  let es5 := map EvRealize [quarter; quarter; quarter; quarter; quarter] in
  (fadeTime_ (dialog w0) = 0 /\ Forall frame_time_ok es3
   /\ Forall frame_time_ok es5 /\ elapsed es3 < 1000 /\ 1000 <= elapsed es5)
  /\ timeScale (run' (Init' (frame []) w0) es3)
     = F32.div (F32.of_Z 750) (F32.of_Z 1000)
  /\ timeScale (run' (Init' (frame []) w0) es5) = F32.one.
Proof.
  cbv zeta.
  assert (H1 : fadeTime_ (dialog (blank_world node_empty)) = 0) by reflexivity.
  assert (H3 : Forall frame_time_ok (map EvRealize [quarter; quarter; quarter]))
    by (repeat constructor; cbn; lia).
  assert (H5 : Forall frame_time_ok
                 (map EvRealize [quarter; quarter; quarter; quarter; quarter]))
    by (repeat constructor; cbn; lia).
  assert (E3 : elapsed (map EvRealize [quarter; quarter; quarter]) < 1000)
    by (vm_compute; reflexivity).
  assert (E5 : 1000 <= elapsed (map EvRealize
                                  [quarter; quarter; quarter; quarter; quarter]))
    by (vm_compute; discriminate).
  split; [auto 6|].
  split.
  - exact (proj1 (proj1 (ramp_lasts_1000_ms char_height_20 one_line font_of_key
                           tick (frame []) _ _ H1 H3) E3)).
  - exact (proj2 (ramp_lasts_1000_ms char_height_20 one_line font_of_key tick
                    (frame []) _ _ H1 H5) E5).
Defined.

(** [Init], a change of the texture, a frame, and the destructor. *)
Lemma textures_released_once_witness :
  let w0 := blank_world node_empty in
  let es := [EvAttributeChanged (frame []) node_empty
               (ATTR "texture" (Some "interfaces\dialog.tga") []);
             EvRealize (frame [])] in
  0 <= textures (render w0)
  /\ exists n : nat,
       textures (render (run' (Init' (frame []) w0) es)) = 0 + 1 + Z.of_nat n
       /\ interfaceTexture_ (dialog (run' (Init' (frame []) w0) es))
          = 0 + 1 + Z.of_nat n
       /\ released (run' (Init' (frame []) w0) es)
          = (released w0 ++ handles 0 n)%list
       /\ released (Destructor (run' (Init' (frame []) w0) es))
          = (released w0 ++ handles 0 (S n))%list
       /\ timeScale (Destructor (run' (Init' (frame []) w0) es)) = F32.one.
Proof.
  cbv zeta.
  assert (H0 : 0 <= textures (render (blank_world node_empty)))
    by (vm_compute; discriminate).
  split; [exact H0|].
  exact (textures_released_once char_height_20 one_line font_of_key tick
           (frame []) _ _ H0).
Defined.

Example textures_released_once_values :
  let w0 := blank_world node_empty in
  let es := [EvAttributeChanged (frame []) node_empty
               (ATTR "texture" (Some "interfaces\dialog.tga") []);
             EvRealize (frame [])] in
  let w := run' (Init' (frame []) w0) es in
  interfaceTexture_ (dialog w) = 2 /\ released w = [1]
  /\ released (Destructor w) = [1; 2].
Proof. vm_compute. repeat split; reflexivity. Qed.

(** The links of the node of the choices A, B and C. *)
Lemma UpdateLinks_wraps_witness :
  let d := dialog (started' node_abc) in
  Z.of_nat (length (link_values (AttributesPointer d))) < 2 ^ 31
  /\ let d' := UpdateLinks one_line (frame []) d in
     links_ d' = link_values (AttributesPointer d)
     /\ formattedLinks_ d' = wrapped_links one_line (frame []) d
     /\ Forall (fun e => 0 <= lineIndex e < Z.of_nat (length (links_ d')))
               (formattedLinks_ d').
Proof.
  cbv zeta.
  assert (H : Z.of_nat (length (link_values
                                  (AttributesPointer (dialog (started' node_abc)))))
              < 2 ^ 31) by (vm_compute; reflexivity).
  split; [exact H|].
  exact (UpdateLinks_wraps one_line (frame []) _ H).
Defined.

Example UpdateLinks_wraps_values :
  let d' := UpdateLinks one_line (frame []) (dialog (started' node_abc)) in
  links_ d' = ["A"; "B"; "C"]
  /\ formattedLinks_ d' =
       [mkLinkEntry "A" 0; mkLinkEntry "B" 1; mkLinkEntry "C" 2].
Proof. vm_compute. split; reflexivity. Qed.

(** On the first of the choices A, B and C: a press of up, and a press of
    down. *)
Lemma selector_moves_witness :
  let w := shown' node_abc in
  let up := frame ["DlgUp"] in
  let down := frame ["DlgDown"] in
  (Z.of_nat (length (links_ (dialog w))) < 2 ^ 31
   /\ selection_in_range (dialog w)
   /\ bDoAction up = false /\ bDoUp up = true /\ bDoDown up = false
   /\ bDoAction down = false /\ bDoUp down = false /\ bDoDown down = true)
  /\ ProcessControls tick up w = w
  /\ selectedLink_ (dialog (ProcessControls tick down w)) = 1
  /\ sounds (ProcessControls tick down w) = [tick].
Proof.
  cbv zeta.
  assert (H1 : Z.of_nat (length (links_ (dialog (shown' node_abc)))) < 2 ^ 31)
    by (vm_compute; reflexivity).
  assert (H2 : selection_in_range (dialog (shown' node_abc)))
    by (vm_compute; split; discriminate).
  split; [repeat split; try reflexivity; apply H2|].
  destruct (selector_moves tick (frame ["DlgUp"]) _ H1 H2 eq_refl)
    as [Hup _].
  destruct (selector_moves tick (frame ["DlgDown"]) _ H1 H2 eq_refl)
    as [_ Hdown].
  destruct (Hup eq_refl eq_refl) as [_ Eu].
  destruct (Hdown eq_refl eq_refl) as [Es Ed].
  split; [exact Eu|]. split; [exact Es|].
  rewrite Ed. reflexivity.
Defined.

(** Two nodes of one line of text and three choices have the same layout. *)
Lemma mesh_of_layout_witness :
  let show tree := [EvAttributeChanged (frame []) tree (ATTR "Links" None [])] in
  let w1 := run' (Init' (frame []) (blank_world node_empty)) (show node_abc) in
  let w2 := run' (Init' (frame []) (blank_world node_empty)) (show node_xyz) in
  layout (dialog w1) = layout (dialog w2)
  /\ (back_vertices (UpdateBackBuffers w1) = back_vertices (UpdateBackBuffers w2)
      /\ textureLines_ (dialog (UpdateBackBuffers w1)) =
           textureLines_ (dialog (UpdateBackBuffers w2)))
  /\ back_vertices (UpdateBackBuffers (UpdateBackBuffers w1)) =
       back_vertices (UpdateBackBuffers w1)
  /\ dialog (UpdateBackBuffers (UpdateBackBuffers w1)) =
       dialog (UpdateBackBuffers w1).
Proof.
  cbv zeta.
  pose proof (mesh_of_layout char_height_20 one_line font_of_key tick
                (frame []) (blank_world node_empty)
                [EvAttributeChanged (frame []) node_abc (ATTR "Links" None [])]
                (frame []) (blank_world node_empty)
                [EvAttributeChanged (frame []) node_xyz (ATTR "Links" None [])])
    as H.
  cbv zeta in H. destruct H as (H1 & H2 & H3).
  assert (E : layout (dialog (run' (Init' (frame []) (blank_world node_empty))
                                [EvAttributeChanged (frame []) node_abc
                                   (ATTR "Links" None [])]))
              = layout (dialog (run' (Init' (frame []) (blank_world node_empty))
                                  [EvAttributeChanged (frame []) node_xyz
                                     (ATTR "Links" None [])])))
    by (vm_compute; reflexivity).
  split; [exact E|]. split; [exact (H1 E)|]. split; [exact H2 | exact H3].
Defined.


Example greeting_starts_once_values :
  let w := step' (started' node_empty)
                 (EvAttributeChanged (frame []) node_empty
                    (ATTR "greeting" (Some "hello.wav") [])) in
  let w' := run' w (map EvRealize [frame []; frame ["DlgAction"]; frame []]) in
  sounds w' = ["hello.wav"; tick] /\ soundState_ (dialog w') = SOUND_PLAYING.
Proof. vm_compute. split; reflexivity. Qed.

(** The attribute [Links] of the node of the choices A, B and C, reported
    twice. *)
Lemma AttributeChanged_twice_witness :
  let a := ATTR "Links" None [] in
  let w := upd (set_AttributesPointer node_abc) (started' node_empty) in
  is_node_attribute (GetThisName a) = true
  /\ AttributeChanged one_line (frame []) a
       (AttributeChanged one_line (frame []) a w)
     = AttributeChanged one_line (frame []) a w.
Proof.
  cbv zeta. split; [reflexivity|].
  exact (AttributeChanged_twice one_line (frame []) (ATTR "Links" None [])
           (upd (set_AttributesPointer node_abc) (started' node_empty))
           eq_refl).
Defined.

(** An index buffer of 12 indices, for two sprites. *)
Lemma FillIndexBuffer_indices_witness :
  let w := snd (CreateIndexBuffer 24 (blank_world node_empty)) in
  ((6 * 2 <= length (buffer_at (indexBuffers (render w)) 0))%nat
   /\ Z.of_nat 2 <= 16384 /\ Z.of_nat 1 <> 0)
  /\ buffer_at (indexBuffers (render (FillIndexBuffer 0 2 w))) 0
     = map Some [0; 2; 1; 1; 2; 3; 4; 6; 5; 5; 6; 7]
  /\ indexBuffers (render (FillIndexBuffer 0 2 w)) !! 1%nat
     = indexBuffers (render w) !! 1%nat.
Proof.
  cbv zeta.
  assert (H1 : (6 * 2 <= length (buffer_at
                                   (indexBuffers
                                      (render (snd (CreateIndexBuffer 24
                                                      (blank_world node_empty)))))
                                   0))%nat)
    by (vm_compute; repeat constructor).
  assert (H2 : Z.of_nat 2 <= 16384) by (vm_compute; discriminate).
  assert (H3 : Z.of_nat 1 <> 0) by discriminate.
  split; [auto|].
  destruct (FillIndexBuffer_indices 0 2 _ H1 H2) as (E & _ & Hj & _).
  split; [rewrite E; reflexivity | exact (Hj 1%nat H3)].
Defined.

(** A fresh component, whose cached scale is 0: [Init], then a frame. *)
Lemma mesh_written_before_drawn_witness :
  let w0 := blank_world node_empty in
  frame_rebuilds (frame []) (dialog w0) = true
  /\ let w := Realize' (frame []) (run' (Init' (frame []) w0) []) in
     mesh_written w /\ length (back_vertices w) = 68%nat.
Proof.
  cbv zeta.
  assert (H : frame_rebuilds (frame []) (dialog (blank_world node_empty)) = true)
    by (vm_compute; reflexivity).
  split; [exact H|].
  exact (mesh_written_before_drawn char_height_20 one_line font_of_key tick
           (frame []) _ [] (frame []) H).
Defined.

(** A frame on the node of the choices A, B and C, whose [textureLines_] is
    4. *)
Lemma frame_reads_index_buffer_witness :
  let w := shown' node_abc in
  let w' := Realize' (frame []) w in
  0 <= textureLines_ (dialog w') < 2 ^ 60
  /\ (Forall (reads_within 102)
             (drop (length (calls (render w))) (calls (render w')))
      <-> textureLines_ (dialog w') <= 10).
Proof.
  cbv zeta.
  assert (H : 0 <= textureLines_ (dialog (Realize' (frame []) (shown' node_abc)))
              < 2 ^ 60) by (vm_compute; split; [discriminate | reflexivity]).
  split; [exact H|].
  exact (frame_reads_index_buffer char_height_20 tick (frame []) _ H).
Defined.

Example frame_calls_values :
  let w := shown' node_abc in
  let w' := Realize' (frame ["DlgDown"]) w in
  textureLines_ (dialog w') = 4
  /\ map (fun c => match c with
                   | ExtPrint _ color _ _ y str => Some (color, y, str)
                   | _ => None
                   end)
         (link_prints (dialog w'))
     = [Some (COLOR_LINK_UNSELECTED, 390, "A"); Some (COLOR_NORMAL, 410, "B");
        Some (COLOR_LINK_UNSELECTED, 430, "C")].
Proof. vm_compute. split; reflexivity. Qed.
